(** * motion_library: asset identifiers, thumbnail pipelines and upload endpoints

    A shallow embedding of

      - [backend/scripts/generate_thumbnails.py]  (module [Backend]),
      - [scripts/generate_thumbnails.py]          (module [Scripts]),
      - [backend/main.py]                         (module [Api]),

    together with the pieces of the Python runtime they lean on
    ([str.encode], [hashlib.md5], [pathlib], [numpy.linspace], [numpy.load],
    [print]).  What [print] writes is not kept; that a [print] can fail is. *)

From Stdlib Require Import NArith ZArith QArith Qround List Lia Bool String Ascii Floats.
From stdpp Require Import gmap.
Import ListNotations.
Local Open Scope N_scope.

(* ===================================================================== *)
(** ** Python values: [str], [bytes], exceptions                          *)
(* ===================================================================== *)

Module Py.

(** A Python [str] is a sequence of Unicode code points (0 .. 0x10FFFF);
    lone surrogates (0xD800 .. 0xDFFF) are legal elements of a [str]: this is
    how the interpreter represents undecodable bytes of file names and
    command-line arguments. *)
Definition str := list N.

(** A [bytes] object: octets, each below 256. *)
Definition bytes := list N.

(** The exceptions the modelled code can meet.  All of them derive from
    [Exception], so [except Exception] catches every constructor. *)
Inductive exn :=
| UnicodeEncodeError
| KeyError (key : str)
| ValueError
| IndexError
| FileNotFoundError
| FileExistsError
| NotADirectoryError
| IsADirectoryError
| RendererError (code : N)
| HTTPException (status_code : N)
| OSError (errno : N).

Definition result (A : Type) : Type := exn + A.
Abbreviation Ok := inr.
Abbreviation Raise := inl.

(** ASCII literals. *)
Definition U (s : string) : str :=
  List.map N_of_ascii (list_ascii_of_string s).

Definition is_surrogate (c : N) : bool := (0xD800 <=? c) && (c <=? 0xDFFF).

(** [str.encode()] for one code point: UTF-8 with [errors='strict']. *)
Definition encode_codepoint (c : N) : result bytes :=
  if c <? 0x80 then Ok [c]
  else if c <? 0x800 then
    Ok [N.lor 0xC0 (N.shiftr c 6); N.lor 0x80 (N.land c 0x3F)]
  else if c <? 0x10000 then
    if is_surrogate c then Raise UnicodeEncodeError
    else Ok [N.lor 0xE0 (N.shiftr c 12);
             N.lor 0x80 (N.land (N.shiftr c 6) 0x3F);
             N.lor 0x80 (N.land c 0x3F)]
  else if c <? 0x110000 then
    Ok [N.lor 0xF0 (N.shiftr c 18);
        N.lor 0x80 (N.land (N.shiftr c 12) 0x3F);
        N.lor 0x80 (N.land (N.shiftr c 6) 0x3F);
        N.lor 0x80 (N.land c 0x3F)]
  else Raise UnicodeEncodeError.

(** [s.encode()] *)
Fixpoint encode (s : str) : result bytes :=
  match s with
  | [] => Ok []
  | c :: s' =>
      match encode_codepoint c with
      | inl e => Raise e
      | inr bs =>
          match encode s' with
          | inl e => Raise e
          | inr rest => Ok (bs ++ rest)
          end
      end
  end.

(** The strings [str.encode()] accepts: every code point is a Unicode
    scalar value. *)
Definition encodable (s : str) : bool :=
  forallb (fun c => (c <? 0x110000) && negb (is_surrogate c)) s.

(** [c in "0123456789abcdef"] *)
Definition is_lower_hex (c : N) : bool :=
  ((48 <=? c) && (c <=? 57)) || ((97 <=? c) && (c <=? 102)).

(** [v if v is not None else d] *)
Definition or_default {A} (v : option A) (d : A) : A :=
  match v with
  | Some x => x
  | None => d
  end.

(** [s.endswith(suffix)] *)
Definition str_eqb (a b : str) : bool :=
  if decide (a = b) then true else false.

Definition endswith (s suffix : str) : bool :=
  (length suffix <=? length s)%nat &&
  str_eqb (skipn (length s - length suffix) s) suffix.

(** [s.endswith((suffix1, suffix2, ...))] *)
Definition endswith_any (s : str) (suffixes : list str) : bool :=
  existsb (endswith s) suffixes.

(** What a [print] call is given, piece by piece: the literal text of the
    f-string, an interpolated string ([str] of a path, an identifier, a file
    name), an interpolated integer, an interpolated exception ([{e}]), the
    help text of [parser.print_help()].  [print()] is the empty message. *)
Inductive piece :=
| Lit (text : str)
| Val (s : str)
| Num (n : Z)
| Err (e : exn)
| Help.

Definition message := list piece.

End Py.

(* ===================================================================== *)
(** ** [hashlib.md5] (RFC 1321) on 32-bit words held in [N]               *)
(* ===================================================================== *)

Module MD5.

Definition mask32 : N := 0xFFFFFFFF.
Definition add32 (x y : N) : N := (x + y) mod 2 ^ 32.
Definition not32 (x : N) : N := N.lxor (N.land x mask32) mask32.
Definition rotl32 (x c : N) : N :=
  N.lor (N.land (N.shiftl x c) mask32) (N.shiftr (N.land x mask32) (32 - c)).

Definition S_table : list N :=
  [7; 12; 17; 22; 7; 12; 17; 22; 7; 12; 17; 22; 7; 12; 17; 22;
   5;  9; 14; 20; 5;  9; 14; 20; 5;  9; 14; 20; 5;  9; 14; 20;
   4; 11; 16; 23; 4; 11; 16; 23; 4; 11; 16; 23; 4; 11; 16; 23;
   6; 10; 15; 21; 6; 10; 15; 21; 6; 10; 15; 21; 6; 10; 15; 21].

Definition K_table : list N :=
  [0xd76aa478; 0xe8c7b756; 0x242070db; 0xc1bdceee;
   0xf57c0faf; 0x4787c62a; 0xa8304613; 0xfd469501;
   0x698098d8; 0x8b44f7af; 0xffff5bb1; 0x895cd7be;
   0x6b901122; 0xfd987193; 0xa679438e; 0x49b40821;
   0xf61e2562; 0xc040b340; 0x265e5a51; 0xe9b6c7aa;
   0xd62f105d; 0x02441453; 0xd8a1e681; 0xe7d3fbc8;
   0x21e1cde6; 0xc33707d6; 0xf4d50d87; 0x455a14ed;
   0xa9e3e905; 0xfcefa3f8; 0x676f02d9; 0x8d2a4c8a;
   0xfffa3942; 0x8771f681; 0x6d9d6122; 0xfde5380c;
   0xa4beea44; 0x4bdecfa9; 0xf6bb4b60; 0xbebfbc70;
   0x289b7ec6; 0xeaa127fa; 0xd4ef3085; 0x04881d05;
   0xd9d4d039; 0xe6db99e5; 0x1fa27cf8; 0xc4ac5665;
   0xf4292244; 0x432aff97; 0xab9423a7; 0xfc93a039;
   0x655b59c3; 0x8f0ccc92; 0xffeff47d; 0x85845dd1;
   0x6fa87e4f; 0xfe2ce6e0; 0xa3014314; 0x4e0811a1;
   0xf7537e82; 0xbd3af235; 0x2ad7d2bb; 0xeb86d391].

(** The four chaining words A, B, C, D. *)
Record state := mkState { sA : N; sB : N; sC : N; sD : N }.

Definition init : state :=
  mkState 0x67452301 0xefcdab89 0x98badcfe 0x10325476.

(** Little-endian conversions. *)
Definition word_of_bytes (bs : list N) : N :=
  fold_right (fun b acc => b + 256 * acc) 0 bs.

Definition bytes_of_word (w : N) : list N :=
  [w mod 256; (w / 256) mod 256; (w / 65536) mod 256; (w / 16777216) mod 256].

Fixpoint bytes_le (n : nat) (w : N) : list N :=
  match n with
  | O => []
  | S n' => w mod 256 :: bytes_le n' (w / 256)
  end.

(** Split into [n] consecutive groups of [k] elements. *)
Fixpoint chunks {A} (k n : nat) (l : list A) : list (list A) :=
  match n with
  | O => []
  | S n' => firstn k l :: chunks k n' (skipn k l)
  end.

(** Message padding: 0x80, zeros up to 56 mod 64, then the bit length on
    64 bits. *)
Definition pad (msg : list N) : list N :=
  let len := length msg in
  let zeros := ((55 + 64 - len mod 64) mod 64)%nat in
  msg ++ [0x80] ++ repeat 0 zeros
      ++ bytes_le 8 ((8 * N.of_nat len) mod 2 ^ 64).

(** One of the 64 operations on a block of sixteen words. *)
Definition step (M : list N) (st : state) (i : nat) : state :=
  let '(mkState A B C D) := st in
  let '(F, g) :=
    if (i <? 16)%nat then
      (N.lor (N.land B C) (N.land (not32 B) D), i)
    else if (i <? 32)%nat then
      (N.lor (N.land D B) (N.land (not32 D) C), ((5 * i + 1) mod 16)%nat)
    else if (i <? 48)%nat then
      (N.lxor (N.lxor B C) D, ((3 * i + 5) mod 16)%nat)
    else
      (N.lxor C (N.lor B (not32 D)), ((7 * i) mod 16)%nat) in
  let F' := add32 (add32 (add32 F A) (nth i K_table 0)) (nth g M 0) in
  mkState D (add32 B (rotl32 F' (nth i S_table 0))) B C.

Definition process_block (st : state) (block : list N) : state :=
  let M := List.map word_of_bytes (chunks 4 16 block) in
  let st' := fold_left (step M) (seq 0 64) st in
  mkState (add32 (sA st) (sA st')) (add32 (sB st) (sB st'))
          (add32 (sC st) (sC st')) (add32 (sD st) (sD st')).

Definition final_state (msg : list N) : state :=
  let p := pad msg in
  fold_left process_block (chunks 64 (length p / 64) p) init.

(** [hashlib.md5(msg).digest()] *)
Definition digest (msg : list N) : list N :=
  let st := final_state msg in
  bytes_of_word (sA st) ++ bytes_of_word (sB st)
    ++ bytes_of_word (sC st) ++ bytes_of_word (sD st).

Definition hex_digit (n : N) : N := if n <? 10 then 48 + n else 87 + n.

(** [hashlib.md5(msg).hexdigest()] *)
Definition hexdigest (msg : list N) : Py.str :=
  flat_map (fun b => [hex_digit (b / 16); hex_digit (b mod 16)]) (digest msg).

End MD5.

Import Py.

(* ===================================================================== *)
(** ** [pathlib.PurePosixPath]                                            *)
(* ===================================================================== *)

Module PosixPath.

(** A parsed path: its root ([""], ["/"] or ["//"]) and its components. *)
Record Path := mkPath { root : str; parts : list str }.

#[global] Instance Path_eq_dec : EqDecision Path.
Proof. solve_decision. Defined.

#[global] Instance Path_countable : Countable Path.
Proof.
  refine (inj_countable' (fun p => (root p, parts p))
                         (fun rp => mkPath (fst rp) (snd rp)) _).
  intros []; reflexivity.
Defined.

Definition sep : N := 47.   (* '/' *)
Definition dot : N := 46.   (* '.' *)

(** [s.split(c)] *)
Fixpoint split (c : N) (s : str) : list str :=
  match s with
  | [] => [[]]
  | x :: s' =>
      if x =? c then [] :: split c s'
      else match split c s' with
           | [] => [[x]]
           | w :: ws => (x :: w) :: ws
           end
  end.

(** [posixpath.splitroot]: exactly two leading slashes are kept apart. *)
Definition splitroot (s : str) : str :=
  match s with
  | a :: rest =>
      if a =? sep then
        match rest with
        | b :: rest' =>
            if b =? sep then
              match rest' with
              | c :: _ => if c =? sep then [sep] else [sep; sep]
              | [] => [sep; sep]
              end
            else [sep]
        | [] => [sep]
        end
      else []
  | [] => []
  end.

(** [Path(s)]: empty and ["."] components are dropped, [".."] is kept. *)
Definition parse (s : str) : Path :=
  mkPath (splitroot s)
         (List.filter (fun x => negb (str_eqb x []) && negb (str_eqb x [dot]))
                      (split sep s)).

(** [a / b] for two paths: an anchored right operand replaces the left. *)
Definition join (a b : Path) : Path :=
  match root b with
  | [] => mkPath (root a) (parts a ++ parts b)
  | _ => b
  end.

(** [a / s] for a string right operand. *)
Definition join_str (a : Path) (s : str) : Path := join a (parse s).

Fixpoint intercalate (ps : list str) : str :=
  match ps with
  | [] => []
  | [p] => p
  | p :: ps' => p ++ sep :: intercalate ps'
  end.

(** [str(p)] *)
Definition to_str (p : Path) : str :=
  match root p, parts p with
  | [], [] => [dot]
  | r, ps => r ++ intercalate ps
  end.

(** [p.parent] *)
Definition parent (p : Path) : Path := mkPath (root p) (removelast (parts p)).

(** [p.name] *)
Definition name (p : Path) : str := List.last (parts p) [].

(** [s.rfind(c)] *)
Fixpoint rfind (c : N) (s : str) : option nat :=
  match s with
  | [] => None
  | x :: s' =>
      match rfind c s' with
      | Some i => Some (S i)
      | None => if x =? c then Some 0%nat else None
      end
  end.

(** [p.suffix] *)
Definition suffix (p : Path) : str :=
  let nm := name p in
  match rfind dot nm with
  | Some i => if (0 <? i)%nat && (i <? length nm - 1)%nat then skipn i nm else []
  | None => []
  end.

Fixpoint strip_prefix (pre l : list str) : option (list str) :=
  match pre, l with
  | [], _ => Some l
  | x :: pre', y :: l' => if str_eqb x y then strip_prefix pre' l' else None
  | _ :: _, [] => None
  end.

(** [p.relative_to(other)] *)
Definition relative_to (p other : Path) : result Path :=
  if str_eqb (root p) (root other) then
    match strip_prefix (parts other) (parts p) with
    | Some rest => Ok (mkPath [] rest)
    | None => Raise ValueError
    end
  else Raise ValueError.

End PosixPath.

Import PosixPath.

(* ===================================================================== *)
(** ** numpy: arrays, containers, [linspace]                              *)
(* ===================================================================== *)

Module Numpy.

(** Arrays of rank one and two over binary64. *)
Inductive ndarray :=
| Arr1 (xs : list float)
| Arr2 (rows : list (list float)).

(** What [np.load] hands back: an [NpzFile] (a name-indexed container) or a
    bare array. *)
Inductive loaded :=
| NpzFile (fields : gmap str ndarray)
| Array (a : ndarray).

(** [npz[key]] *)
Definition npz_getitem (fields : gmap str ndarray) (key : str) : result ndarray :=
  match fields !! key with
  | Some a => Ok a
  | None => Raise (KeyError key)
  end.

(** [len(a)] *)
Definition len (a : ndarray) : nat :=
  match a with
  | Arr1 xs => length xs
  | Arr2 rows => length rows
  end.

(** The value of [a[idx]]: a scalar or a row. *)
Inductive item :=
| Scalar (x : float)
| Row (xs : list float).

(** [a[idx]] with Python's negative indices and bounds check. *)
Definition getitem (a : ndarray) (idx : Z) : result item :=
  let n := Z.of_nat (len a) in
  let i := if (idx <? 0)%Z then (idx + n)%Z else idx in
  if ((i <? 0) || (n <=? i))%Z then Raise IndexError
  else
    match a with
    | Arr1 xs => match nth_error xs (Z.to_nat i) with
                 | Some x => Ok (Scalar x)
                 | None => Raise IndexError
                 end
    | Arr2 rows => match nth_error rows (Z.to_nat i) with
                   | Some r => Ok (Row r)
                   | None => Raise IndexError
                   end
    end.

(** [y[-1] = v] on a non-empty list. *)
Definition set_last {A} (l : list A) (v : A) : list A :=
  match l with
  | [] => []
  | _ => removelast l ++ [v]
  end.

(** [np.linspace(start, stop, num, dtype=int)] on integer end points,
    following numpy's steps ([arange], scale by [step], shift by [start], pin
    the end point, [floor]) in exact rational arithmetic. *)
Definition linspace (start stop : Z) (num : nat) : list Z :=
  let div := (Z.of_nat num - 1)%Z in
  let delta := inject_Z (stop - start) in
  let y := List.map (fun i => inject_Z (Z.of_nat i)) (seq 0 num) in
  let y :=
    if (0 <? div)%Z then
      let step := (delta / inject_Z div)%Q in
      if Qeq_bool step 0 then
        List.map (fun v => (v / inject_Z div * delta)%Q) y
      else List.map (fun v => (v * step)%Q) y
    else List.map (fun v => (v * delta)%Q) y in
  let y := List.map (fun v => (v + inject_Z start)%Q) y in
  let y := if (1 <? num)%nat then set_last y (inject_Z stop) else y in
  List.map Qfloor y.

(** The same steps in binary64, as numpy runs them. *)
Definition Z2F (z : Z) : float :=
  if (z <? 0)%Z then (- PrimFloat.of_uint63 (Uint63.of_Z (- z)))%float
  else PrimFloat.of_uint63 (Uint63.of_Z z).

(** [floor] of a finite binary64, as an integer. *)
Definition floor_f64 (x : float) : Z :=
  match Prim2SF x with
  | S754_finite s m e =>
      let v := if s then Z.neg m else Z.pos m in
      if (0 <=? e)%Z then (v * 2 ^ e)%Z else (v / 2 ^ (- e))%Z
  | _ => 0%Z
  end.

Definition linspace_f64 (start stop : Z) (num : nat) : list Z :=
  let div := (Z.of_nat num - 1)%Z in
  let delta := (Z2F stop - Z2F start)%float in
  let y := List.map (fun i => Z2F (Z.of_nat i)) (seq 0 num) in
  let y :=
    if (0 <? div)%Z then
      let step := (delta / Z2F div)%float in
      if PrimFloat.eqb step 0 then
        List.map (fun v => (v / Z2F div * delta)%float) y
      else List.map (fun v => (v * step)%float) y
    else List.map (fun v => (v * delta)%float) y in
  let y := List.map (fun v => (v + Z2F start)%float) y in
  let y := if (1 <? num)%nat then set_last y (Z2F stop) else y in
  List.map floor_f64 y.

End Numpy.

(* ===================================================================== *)
(** ** mujoco: models, cameras, the off-screen renderer; PIL images       *)
(* ===================================================================== *)

Module Mujoco.

(** What the pipelines use of a compiled model: the initial pose (its
    length is [nq]) and the names of the cameras the document declares, in
    id order. *)
Record MjModel := mkModel { qpos0 : list float; cameras : list str }.

(** [MjData]: the pose vector. [mj_forward] recomputes derived quantities
    and leaves [qpos] alone. *)
Record MjData := mkData { qpos : list float }.

Definition MjData_new (m : MjModel) : MjData := mkData (qpos0 m).
Definition mj_forward (m : MjModel) (d : MjData) : MjData := d.

(** [MjvCamera] once its four free-camera fields are set. *)
Record MjvCamera := mkCamera {
  distance : float;
  azimuth : float;
  elevation : float;
  lookat : float * float * float
}.

(** The camera an [update_scene] call ends up with. *)
Inductive camera :=
| FixedCamera (id : nat)
| FreeCamera (c : MjvCamera)
| DefaultFreeCamera.

Fixpoint index_of (nm : str) (l : list str) : option nat :=
  match l with
  | [] => None
  | x :: l' => if str_eqb x nm then Some 0%nat
               else option_map S (index_of nm l')
  end.

(** [model.camera(name).id]: [KeyError] for an unknown name. *)
Definition camera_id (m : MjModel) (nm : str) : result nat :=
  match index_of nm (cameras m) with
  | Some i => Ok i
  | None => Raise (KeyError nm)
  end.

(** [data.qpos[:] = v]: numpy broadcasting into a vector of length [nq]. *)
Definition set_qpos (d : MjData) (v : Numpy.item) : result MjData :=
  let nq := length (qpos d) in
  match v with
  | Numpy.Scalar x => Ok (mkData (repeat x nq))
  | Numpy.Row [x] => Ok (mkData (repeat x nq))
  | Numpy.Row xs => if (length xs =? nq)%nat then Ok (mkData xs)
                    else Raise ValueError
  end.

(** A pixel buffer, held symbolically: the model, pose, camera and size it
    was rendered from. *)
Record pixels := mkPixels {
  px_model : MjModel;
  px_scene : option (list float * camera);
  px_height : N;
  px_width : N
}.

(** [mujoco.Renderer(model, height, width)] *)
Record Renderer := mkRenderer {
  r_model : MjModel;
  r_height : N;
  r_width : N;
  r_scene : option (list float * camera)
}.

Definition Renderer_new (m : MjModel) (height width : N) : Renderer :=
  mkRenderer m height width None.

(** The argument of [update_scene(data, camera=...)]. *)
Inductive camera_arg :=
| ById (id : Z)
| ByName (nm : str)
| ByStruct (c : MjvCamera).

Definition set_scene (r : Renderer) (d : MjData) (c : camera) : Renderer :=
  mkRenderer (r_model r) (r_height r) (r_width r) (Some (qpos d, c)).

(** [renderer.update_scene(data, camera)]: a name or id that is not a
    camera of the model is a [ValueError]; id [-1] is the free camera. *)
Definition update_scene (r : Renderer) (d : MjData) (c : camera_arg)
  : result Renderer :=
  let by_id (id : Z) :=
    if ((id <? -1) || (Z.of_nat (length (cameras (r_model r))) <=? id))%Z
    then Raise ValueError
    else if (id =? -1)%Z then Ok (set_scene r d DefaultFreeCamera)
    else Ok (set_scene r d (FixedCamera (Z.to_nat id))) in
  match c with
  | ByStruct cam => Ok (set_scene r d (FreeCamera cam))
  | ById id => by_id id
  | ByName nm =>
      match index_of nm (cameras (r_model r)) with
      | Some i => by_id (Z.of_nat i)
      | None => Raise ValueError
      end
  end.

(** What [renderer.render()] draws when nothing goes wrong. *)
Definition drawn (r : Renderer) : pixels :=
  mkPixels (r_model r) (r_scene r) (r_height r) (r_width r).

End Mujoco.

Module PIL.

Inductive format := WEBP | PNG | GIF.

(** An encoded image file: its frames and the encoder options the caller
    passed ([None] when the call does not pass the option). *)
Record image_file := mkImage {
  img_format : format;
  img_frames : list Mujoco.pixels;
  img_duration : option N;
  img_loop : option N;
  img_quality : option N;
  img_method : option N;
  img_optimize : option bool
}.

End PIL.

(* ===================================================================== *)
(** ** The file system, the world, and the monad of effectful code        *)
(* ===================================================================== *)

Module OS.

(** What a regular file holds, as far as its readers can tell. *)
Inductive content :=
| XmlModel (m : Mujoco.MjModel)          (* a well-formed model document *)
| NpyFile (a : Numpy.ndarray)            (* a single-array file *)
| NpzArchive (fields : gmap str Numpy.ndarray)   (* a multi-array container *)
| ImageFile (img : PIL.image_file)
| Blob (data : bytes).                   (* anything else *)

Inductive node :=
| Dir
| File (c : content).

(** Paths are looked up as written (no symbolic links, [".."] is a name
    like any other). *)
Abbreviation filesystem := (gmap Path node).

(** The world the scripts run in: the file system and three behaviours of
    the environment, none of which the code can change:
    - [render_fault px] is [Some e] when drawing the buffer [px] raises [e];
    - [stat_fault p] is [Some e] when [os.stat] on [p] fails with the error
      [e], other than the four ([ENOENT], [ENOTDIR], [EBADF], [ELOOP]) that
      [Path.exists()] and [Path.is_dir()] turn into [False]: a name too long,
      a directory that may not be searched;
    - [print_fault msg] is [Some e] when printing [msg] raises [e]: a text
      the console encoding refuses, a closed pipe. *)
Record world := mkWorld {
  fs : filesystem;
  render_fault : Mujoco.pixels -> option exn;
  stat_fault : Path -> option exn;
  print_fault : message -> option exn
}.

Definition with_fs (w : world) (f : filesystem) : world :=
  mkWorld f (render_fault w) (stat_fault w) (print_fault w).

(** Computations that read and write the world and may raise. *)
Definition M (A : Type) : Type := world -> result A * world.

Definition ret {A} (a : A) : M A := fun w => (Ok a, w).
Definition raise {A} (e : exn) : M A := fun w => (Raise e, w).
Definition lift {A} (r : result A) : M A := fun w => (r, w).

Definition bind {A B} (c : M A) (k : A -> M B) : M B :=
  fun w =>
    match c w with
    | (inr a, w') => k a w'
    | (inl e, w') => (Raise e, w')
    end.

(** [try: body  except Exception as e: handler(e)] *)
Definition try_except {A} (body : M A) (handler : exn -> M A) : M A :=
  fun w =>
    match body w with
    | (inr a, w') => (Ok a, w')
    | (inl e, w') => handler e w'
    end.

Definition is_KeyError (e : exn) : bool :=
  match e with KeyError _ => true | _ => false end.

(** [try: body  except KeyError: handler] ; other exceptions go through. *)
Definition try_except_KeyError {A} (body : M A) (handler : M A) : M A :=
  fun w =>
    match body w with
    | (inr a, w') => (Ok a, w')
    | (inl e, w') => if is_KeyError e then handler w' else (Raise e, w')
    end.

(** The node at a path; a path without components (["."], ["/"]) is a
    directory. *)
Definition stat (f : filesystem) (p : Path) : option node :=
  match parts p with
  | [] => Some Dir
  | _ => f !! p
  end.

(** [p.exists()], [p.is_dir()], [p.is_file()]: the answer of [os.stat], or
    the error it fails with when that is none of the ignored ones. *)
Definition exists_ (p : Path) : M bool :=
  fun w =>
    match stat_fault w p with
    | Some e => (Raise e, w)
    | None => (Ok (bool_decide (is_Some (stat (fs w) p))), w)
    end.

Definition is_dir (p : Path) : M bool :=
  fun w =>
    match stat_fault w p with
    | Some e => (Raise e, w)
    | None =>
        (Ok (match stat (fs w) p with Some Dir => true | _ => false end), w)
    end.

Definition is_file (p : Path) : M bool :=
  fun w =>
    match stat_fault w p with
    | Some e => (Raise e, w)
    | None =>
        (Ok (match stat (fs w) p with Some (File _) => true | _ => false end),
         w)
    end.

(** [print(...)]: nothing of the world changes; the call can raise. *)
Definition print (msg : message) : M unit :=
  fun w =>
    match print_fault w msg with
    | Some e => (Raise e, w)
    | None => (Ok tt, w)
    end.

(** Creating the directories [r/p1], [r/p1/p2], ... in turn. *)
Fixpoint mkdirs (r : str) (done todo : list str) (f : filesystem)
  : result filesystem :=
  match todo with
  | [] => Ok f
  | x :: todo' =>
      let here := mkPath r (done ++ [x]) in
      match f !! here with
      | Some Dir => mkdirs r (done ++ [x]) todo' f
      | Some (File _) =>
          match todo' with
          | [] => Raise FileExistsError
          | _ => Raise NotADirectoryError
          end
      | None => mkdirs r (done ++ [x]) todo' (<[here := Dir]> f)
      end
  end.

(** [p.mkdir(parents=True, exist_ok=True)] *)
Definition mkdir_parents_exist_ok (p : Path) : M unit :=
  fun w =>
    match mkdirs (root p) [] (parts p) (fs w) with
    | inr f => (Ok tt, with_fs w f)
    | inl e => (Raise e, w)
    end.

(** Creating or replacing the regular file at [p]. *)
Definition write_file (p : Path) (c : content) : M unit :=
  fun w =>
    match stat (fs w) (parent p) with
    | Some Dir =>
        match stat (fs w) p with
        | Some Dir => (Raise IsADirectoryError, w)
        | _ => (Ok tt, with_fs w (<[p := File c]> (fs w)))
        end
    | Some (File _) => (Raise NotADirectoryError, w)
    | None => (Raise FileNotFoundError, w)
    end.

(** [folder.glob("*" + ext)]: the entries directly inside [folder] whose
    name ends with [ext], in directory-enumeration order. *)
Definition entries_matching (f : filesystem) (folder : Path) (ext : str)
  : list Path :=
  List.filter
    (fun p => bool_decide (parent p = folder)
              && negb (bool_decide (parts p = []))
              && endswith (name p) ext)
    (List.map fst (map_to_list f)).

Definition glob_suffix (folder : Path) (ext : str) : M (list Path) :=
  fun w => (Ok (entries_matching (fs w) folder ext), w).

(** [np.load(p)]: the file's content decides what is returned. *)
Definition np_load (p : Path) : M Numpy.loaded :=
  fun w =>
    match stat (fs w) p with
    | None => (Raise FileNotFoundError, w)
    | Some Dir => (Raise IsADirectoryError, w)
    | Some (File (NpyFile a)) => (Ok (Numpy.Array a), w)
    | Some (File (NpzArchive d)) => (Ok (Numpy.NpzFile d), w)
    | Some (File _) => (Raise ValueError, w)
    end.

(** [mujoco.MjModel.from_xml_path(str(p))] *)
Definition from_xml_path (p : Path) : M Mujoco.MjModel :=
  fun w =>
    match stat (fs w) p with
    | Some (File (XmlModel m)) => (Ok m, w)
    | _ => (Raise ValueError, w)
    end.

(** [renderer.render()] *)
Definition render (r : Mujoco.Renderer) : M Mujoco.pixels :=
  fun w =>
    match render_fault w (Mujoco.drawn r) with
    | None => (Ok (Mujoco.drawn r), w)
    | Some e => (Raise e, w)
    end.

(** Whether a recursive walk from the directory [r/dirs] reaches an entry
    lying [rest] below it: every directory on the way has to be there. *)
Fixpoint walkable (f : filesystem) (r : str) (dirs rest : list str) : bool :=
  match rest with
  | [] => false
  | x :: rest' =>
      match stat f (mkPath r dirs) with
      | Some Dir =>
          match rest' with
          | [] => true
          | _ => walkable f r (dirs ++ [x]) rest'
          end
      | _ => false
      end
  end.

(** [folder.rglob(pattern)] for a pattern on names: the entries anywhere
    below [folder] whose name matches, in enumeration order. *)
Definition entries_below (f : filesystem) (folder : Path)
    (matches : str -> bool) : list Path :=
  List.filter
    (fun p => str_eqb (root p) (root folder)
              && match strip_prefix (parts folder) (parts p) with
                 | Some rest => walkable f (root folder) (parts folder) rest
                 | None => false
                 end
              && matches (name p))
    (List.map fst (map_to_list f)).

Definition rglob (folder : Path) (matches : str -> bool) : M (list Path) :=
  fun w => (Ok (entries_below (fs w) folder matches), w).

End OS.

Import OS.

Declare Scope py_scope.
Delimit Scope py_scope with py.
Notation "'let*' x ':=' c 'in' k" := (bind c (fun x => k))
  (at level 10, x name, c at level 100, k at level 200,
   format "'[v' 'let*'  x  ':='  c  'in' '/' k ']'") : py_scope.
Notation "a // b" := (join a b) (at level 40, left associativity) : py_scope.
Notation "a /' s" := (join_str a s) (at level 40, left associativity) : py_scope.
Open Scope py_scope.

(* ===================================================================== *)
(** ** backend/scripts/generate_thumbnails.py                             *)
(* ===================================================================== *)

Module Backend.

Definition THUMBNAIL_SIZE : N * N := (320, 320).

Definition DEFAULT_CAMERA_DISTANCE : float := 3.0%float.
Definition DEFAULT_CAMERA_AZIMUTH : float := 45%float.
Definition DEFAULT_CAMERA_ELEVATION : float := (-20)%float.
Definition DEFAULT_CAMERA_LOOKAT : float * float * float :=
  (0%float, 0%float, 1%float).

Definition TRAJECTORY_FRAMES : nat := 30.
Definition ANIMATION_DURATION : N := 100.

Record ThumbnailGenerator := mkGenerator {
  data_dir : Path;
  models_dir : Path;
  trajectories_dir : Path;
  thumbnails_dir : Path
}.

(** [ThumbnailGenerator.__init__] *)
Definition init (data_dir : Path) : M ThumbnailGenerator :=
  let self := mkGenerator data_dir
                (data_dir /' U "models")
                (data_dir /' U "trajectories")
                (data_dir /' U "thumbnails") in
  let* _ := mkdir_parents_exist_ok (thumbnails_dir self /' U "models") in
  let* _ := mkdir_parents_exist_ok (thumbnails_dir self /' U "trajectories") in
  ret self.

(** [get_file_id]: [hashlib.md5(relative_path.encode()).hexdigest()[:16]] *)
Definition get_file_id (relative_path : str) : result str :=
  match encode relative_path with
  | inl e => Raise e
  | inr b => Ok (firstn 16 (MD5.hexdigest b))
  end.

(** Truth value of an optional string: [None] and [""] are false. *)
Definition truthy (s : option str) : bool :=
  match s with
  | Some (_ :: _) => true
  | _ => false
  end.

(** [render_with_camera].  Its three progress messages are left out. *)
Definition render_with_camera
    (model : Mujoco.MjModel) (data : Mujoco.MjData)
    (camera_name : option str)
    (distance azimuth elevation : option float)
    (lookat : option (float * float * float)) : M Mujoco.pixels :=
  let renderer :=
    Mujoco.Renderer_new model (snd THUMBNAIL_SIZE) (fst THUMBNAIL_SIZE) in
  let* rc :=
    (if truthy camera_name then
       try_except_KeyError
         (let* camera_id :=
            lift (Mujoco.camera_id model (or_default camera_name [])) in
          let* renderer' :=
            lift (Mujoco.update_scene renderer data
                    (Mujoco.ById (Z.of_nat camera_id))) in
          ret (renderer', camera_name))
         (ret (renderer, None))
     else ret (renderer, camera_name)) in
  let renderer := fst rc in
  let camera_name := snd rc in
  let* renderer :=
    (if negb (truthy camera_name) then
       let camera :=
         Mujoco.mkCamera
           (or_default distance DEFAULT_CAMERA_DISTANCE)
           (or_default azimuth DEFAULT_CAMERA_AZIMUTH)
           (or_default elevation DEFAULT_CAMERA_ELEVATION)
           (or_default lookat DEFAULT_CAMERA_LOOKAT) in
       lift (Mujoco.update_scene renderer data (Mujoco.ByStruct camera))
     else ret renderer) in
  let* pixels := render renderer in
  ret pixels.

(** [render_model] *)
Definition render_model (self : ThumbnailGenerator)
    (model_relative_path : str) (camera_name : option str)
    (distance azimuth elevation : option float)
    (lookat : option (float * float * float)) : M bool :=
  let model_path := models_dir self /' model_relative_path in
  let* found := exists_ model_path in
  if negb found then
    let* _ := print [Lit (U "Error: Model not found at ");
                     Val (to_str model_path)] in
    ret false
  else if negb (str_eqb (suffix model_path) (U ".xml")) then
    let* _ := print [Lit (U "Error: File is not an XML file: ");
                     Val (to_str model_path)] in
    ret false
  else
    try_except
      (let rel_path_str := model_relative_path in
       let* model_id := lift (get_file_id rel_path_str) in
       let rel_path := parse model_relative_path in
       let thumbnail_subdir :=
         thumbnails_dir self /' U "models" // parent rel_path in
       let* _ := mkdir_parents_exist_ok thumbnail_subdir in
       let output_path := thumbnail_subdir /' (model_id ++ U ".webp") in
       let* _ := print [Lit (U "Rendering model: "); Val rel_path_str] in
       let* _ := print [Lit (U "  Model ID: "); Val model_id] in
       let* model := from_xml_path model_path in
       let data := Mujoco.MjData_new model in
       let data := Mujoco.mj_forward model data in
       let* pixels := render_with_camera model data camera_name
                   distance azimuth elevation lookat in
       let* _ := write_file output_path
         (ImageFile (PIL.mkImage PIL.WEBP [pixels] None None
                       (Some 85) (Some 6) None)) in
       let* _ := print [Lit (U "Saved to "); Val (to_str output_path)] in
       ret true)
      (fun e =>
         let* _ := print [Lit (U "Error: "); Err e] in
         ret false).

(** The [for idx in frame_indices] loop of [render_trajectory]. *)
Fixpoint render_frames
    (model : Mujoco.MjModel) (data : Mujoco.MjData)
    (qpos_data : Numpy.ndarray) (camera_name : option str)
    (distance azimuth elevation : option float)
    (lookat : option (float * float * float))
    (frame_indices : list Z) (frames : list Mujoco.pixels)
  : M (list Mujoco.pixels) :=
  match frame_indices with
  | [] => ret frames
  | idx :: rest =>
      let* row := lift (Numpy.getitem qpos_data idx) in
      let* data := lift (Mujoco.set_qpos data row) in
      let data := Mujoco.mj_forward model data in
      let* pixels := render_with_camera model data camera_name
                  distance azimuth elevation lookat in
      render_frames model data qpos_data camera_name
        distance azimuth elevation lookat rest (frames ++ [pixels])
  end.

(** [np.linspace(0, total_frames - 1, TRAJECTORY_FRAMES, dtype=int)] *)
Definition sample_frame_indices (total_frames : nat) : list Z :=
  Numpy.linspace 0 (Z.of_nat total_frames - 1) TRAJECTORY_FRAMES.

(** [render_trajectory] *)
Definition render_trajectory (self : ThumbnailGenerator)
    (trajectory_path : Path) (model_relative_path : str)
    (camera_name : option str)
    (distance azimuth elevation : option float)
    (lookat : option (float * float * float)) : M bool :=
  let model_path := models_dir self /' model_relative_path in
  let* found := exists_ model_path in
  if negb found then
    let* _ := print [Lit (U "Error: Model not found at ");
                     Val (to_str model_path)] in
    ret false
  else if negb (str_eqb (suffix model_path) (U ".xml")) then
    let* _ := print [Lit (U "Error: Model file is not an XML file: ");
                     Val (to_str model_path)] in
    ret false
  else
    try_except
      (let* rel_path := lift (relative_to trajectory_path (trajectories_dir self)) in
       let rel_path_str := to_str rel_path in
       let* trajectory_id := lift (get_file_id rel_path_str) in
       let thumbnail_subdir :=
         thumbnails_dir self /' U "trajectories" // parent rel_path in
       let* _ := mkdir_parents_exist_ok thumbnail_subdir in
       let output_path := thumbnail_subdir /' (trajectory_id ++ U ".webp") in
       let* _ := print [Lit (U "Rendering trajectory: "); Val rel_path_str] in
       let* _ := print [Lit (U "  Trajectory ID: "); Val trajectory_id] in
       let* _ := print [Lit (U "  Using model: "); Val model_relative_path] in
       let* model := from_xml_path model_path in
       let data := Mujoco.MjData_new model in
       let* trajectory_data := np_load trajectory_path in
       let* qpos_data := (match trajectory_data with
                     | Numpy.NpzFile fields =>
                         lift (Numpy.npz_getitem fields (U "qpos_traj"))
                     | Numpy.Array a => ret a
                     end) in
       let total_frames := Numpy.len qpos_data in
       let frame_indices := sample_frame_indices total_frames in
       let* frames := render_frames model data qpos_data camera_name
                   distance azimuth elevation lookat frame_indices [] in
       let pil_frames := frames in
       match pil_frames with
       | [] => raise IndexError
       | first :: append_images =>
           let* _ := write_file output_path
             (ImageFile (PIL.mkImage PIL.WEBP (first :: append_images)
                           (Some ANIMATION_DURATION) (Some 0)
                           (Some 85) (Some 6) None)) in
           let* _ := print [Lit (U "Saved to "); Val (to_str output_path)] in
           ret true
       end)
      (fun e =>
         let* _ := print [Lit (U "Error: "); Err e] in
         ret false).

(** The [for trajectory_file in trajectory_files] loop; a blank line is
    printed after each file. *)
Fixpoint render_each (self : ThumbnailGenerator)
    (model_relative_path : str) (camera_name : option str)
    (distance azimuth elevation : option float)
    (lookat : option (float * float * float))
    (trajectory_files : list Path) (success_count : nat) : M nat :=
  match trajectory_files with
  | [] => ret success_count
  | trajectory_file :: rest =>
      let* ok := render_trajectory self trajectory_file model_relative_path
              camera_name distance azimuth elevation lookat in
      let success_count := if ok then S success_count else success_count in
      let* _ := print [] in
      render_each self model_relative_path camera_name
        distance azimuth elevation lookat rest success_count
  end.

(** [render_trajectories_in_folder] *)
Definition render_trajectories_in_folder (self : ThumbnailGenerator)
    (folder_relative_path : str) (model_relative_path : str)
    (camera_name : option str)
    (distance azimuth elevation : option float)
    (lookat : option (float * float * float)) : M (nat * nat) :=
  let folder_path := trajectories_dir self /' folder_relative_path in
  let* found := exists_ folder_path in
  if negb found then
    let* _ := print [Lit (U "Error: Folder not found at ");
                     Val (to_str folder_path)] in
    ret (0, 0)%nat
  else
    let* isd := is_dir folder_path in
    if negb isd then
      let* _ := print [Lit (U "Error: Path is not a folder: ");
                       Val (to_str folder_path)] in
      ret (0, 0)%nat
    else
      let* npy := glob_suffix folder_path (U ".npy") in
      let* npz := glob_suffix folder_path (U ".npz") in
      let trajectory_files := npy ++ npz in
      match trajectory_files with
      | [] =>
          let* _ := print [Lit (U "Warning: No trajectory files (.npy/.npz) found in ");
                           Val (to_str folder_path)] in
          ret (0, 0)%nat
      | _ =>
          let* _ := print [Lit (U "Found ");
                           Num (Z.of_nat (length trajectory_files));
                           Lit (U " trajectory file(s) in ");
                           Val folder_relative_path] in
          let* _ := print [] in
          let total_count := length trajectory_files in
          let* success_count := render_each self model_relative_path camera_name
                             distance azimuth elevation lookat
                             trajectory_files 0%nat in
          ret (success_count, total_count)
      end.

End Backend.

(* ===================================================================== *)
(** ** scripts/generate_thumbnails.py                                     *)
(* ===================================================================== *)

Module Scripts.

Definition THUMBNAIL_SIZE : N * N := (160, 160).
Definition MODEL_CAMERA_DISTANCE : float := 3.0%float.
Definition TRAJECTORY_FRAMES : nat := 30.
Definition TRAJECTORY_FPS : N := 10.
Definition GIF_DURATION : N := 100.

Record ThumbnailGenerator := mkGenerator {
  data_dir : Path;
  models_dir : Path;
  trajectories_dir : Path;
  thumbnails_dir : Path
}.

(** [ThumbnailGenerator.__init__] *)
Definition init (data_dir : Path) : M ThumbnailGenerator :=
  let self := mkGenerator data_dir
                (data_dir /' U "models")
                (data_dir /' U "trajectories")
                (data_dir /' U "thumbnails") in
  let* _ := mkdir_parents_exist_ok (thumbnails_dir self /' U "models") in
  let* _ := mkdir_parents_exist_ok (thumbnails_dir self /' U "trajectories") in
  ret self.

(** [get_file_id]: [hashlib.md5(str(file_path).encode()).hexdigest()[:16]] *)
Definition get_file_id (file_path : Path) : result str :=
  match encode (to_str file_path) with
  | inl e => Raise e
  | inr b => Ok (firstn 16 (MD5.hexdigest b))
  end.

(** The texts that open the two closing messages: two blanks, a check mark
    (U+2713) or a ballot cross (U+2717), and [" Saved to "] or [" Error: "]. *)
Definition saved_to : str := U "  " ++ [10003] ++ U " Saved to ".
Definition error_mark : str := U "  " ++ [10007] ++ U " Error: ".

(** [render_model_thumbnail] *)
Definition render_model_thumbnail (model_path : Path) : M Mujoco.pixels :=
  let* model := from_xml_path model_path in
  let data := Mujoco.MjData_new model in
  let renderer :=
    Mujoco.Renderer_new model (snd THUMBNAIL_SIZE) (fst THUMBNAIL_SIZE) in
  let data := Mujoco.mj_forward model data in
  let* renderer := lift (Mujoco.update_scene renderer data (Mujoco.ByName (U "free"))) in
  let* pixels := render renderer in
  ret pixels.

(** [generate_model_thumbnail] *)
Definition generate_model_thumbnail (self : ThumbnailGenerator)
    (model_path : Path) : M bool :=
  try_except
    (let* rel_path := lift (relative_to model_path (models_dir self)) in
     let* model_id := lift (get_file_id rel_path) in
     let output_path :=
       thumbnails_dir self /' U "models" /' (model_id ++ U ".png") in
     let* _ := print [Lit (U "Generating thumbnail for "); Val (name model_path);
                      Lit (U "...")] in
     let* pixels := render_model_thumbnail model_path in
     let* _ := write_file output_path
       (ImageFile (PIL.mkImage PIL.PNG [pixels] None None None None
                     (Some true))) in
     let* _ := print [Lit saved_to; Val (to_str output_path)] in
     ret true)
    (fun e =>
       let* _ := print [Lit error_mark; Err e] in
       ret false).

(** The [for idx in frame_indices] loop of [generate_trajectory_gif]. *)
Fixpoint render_frames
    (model : Mujoco.MjModel) (data : Mujoco.MjData)
    (renderer : Mujoco.Renderer) (qpos_data : Numpy.ndarray)
    (frame_indices : list Z) (frames : list Mujoco.pixels)
  : M (list Mujoco.pixels) :=
  match frame_indices with
  | [] => ret frames
  | idx :: rest =>
      let* row := lift (Numpy.getitem qpos_data idx) in
      let* data := lift (Mujoco.set_qpos data row) in
      let data := Mujoco.mj_forward model data in
      let* renderer := lift (Mujoco.update_scene renderer data
                          (Mujoco.ByName (U "free"))) in
      let* pixels := render renderer in
      render_frames model data renderer qpos_data rest (frames ++ [pixels])
  end.

(** [np.linspace(0, total_frames - 1, TRAJECTORY_FRAMES, dtype=int)] *)
Definition sample_frame_indices (total_frames : nat) : list Z :=
  Numpy.linspace 0 (Z.of_nat total_frames - 1) TRAJECTORY_FRAMES.

(** [generate_trajectory_gif] *)
Definition generate_trajectory_gif (self : ThumbnailGenerator)
    (model_path trajectory_path : Path) : M bool :=
  try_except
    (let* rel_path := lift (relative_to trajectory_path (trajectories_dir self)) in
     let* trajectory_id := lift (get_file_id rel_path) in
     let output_path :=
       thumbnails_dir self /' U "trajectories" /' (trajectory_id ++ U ".gif") in
     let* _ := print [Lit (U "Generating GIF for "); Val (name trajectory_path);
                      Lit (U "...")] in
     let* model := from_xml_path model_path in
     let data := Mujoco.MjData_new model in
     let* trajectory_data := np_load trajectory_path in
     let* qpos_data := (match trajectory_data with
                   | Numpy.NpzFile fields =>
                       lift (Numpy.npz_getitem fields (U "qpos"))
                   | Numpy.Array a => ret a
                   end) in
     let total_frames := Numpy.len qpos_data in
     let frame_indices := sample_frame_indices total_frames in
     let renderer :=
       Mujoco.Renderer_new model (snd THUMBNAIL_SIZE) (fst THUMBNAIL_SIZE) in
     let* frames := render_frames model data renderer qpos_data frame_indices [] in
     let* _ := write_file output_path
       (ImageFile (PIL.mkImage PIL.GIF frames (Some GIF_DURATION) (Some 0)
                     None None None)) in
     let* _ := print [Lit saved_to; Val (to_str output_path)] in
     ret true)
    (fun e =>
       let* _ := print [Lit error_mark; Err e] in
       ret false).

(** The [for model_file in ...rglob("*.xml")] loop of [generate_all_models],
    with its two counters. *)
Fixpoint generate_each_model (self : ThumbnailGenerator)
    (model_files : list Path) (success_count total_count : nat)
  : M (nat * nat) :=
  match model_files with
  | [] => ret (success_count, total_count)
  | model_file :: rest =>
      let total_count := S total_count in
      let* ok := generate_model_thumbnail self model_file in
      generate_each_model self rest
        (if ok then S success_count else success_count) total_count
  end.

(** [generate_all_models] *)
Definition generate_all_models (self : ThumbnailGenerator) : M unit :=
  let* _ := print [Lit (U "Generating model thumbnails...")] in
  let* model_files := rglob (models_dir self) (fun nm => endswith nm (U ".xml")) in
  let* counts := generate_each_model self model_files 0%nat 0%nat in
  let* _ := print [Lit ([10] ++ U "Completed: "); Num (Z.of_nat (fst counts));
                   Lit (U "/"); Num (Z.of_nat (snd counts));
                   Lit (U " model thumbnails generated")] in
  ret tt.

(** The [for trajectory_file in ...rglob("*.np[yz]")] loop of
    [generate_all_trajectories]. *)
Fixpoint generate_each_trajectory (self : ThumbnailGenerator)
    (default_model : Path) (trajectory_files : list Path)
    (success_count total_count : nat) : M (nat * nat) :=
  match trajectory_files with
  | [] => ret (success_count, total_count)
  | trajectory_file :: rest =>
      let total_count := S total_count in
      let* ok := generate_trajectory_gif self default_model trajectory_file in
      generate_each_trajectory self default_model rest
        (if ok then S success_count else success_count) total_count
  end.

(** [generate_all_trajectories]: the first model found serves for every
    trajectory; without any model nothing is rendered. *)
Definition generate_all_trajectories (self : ThumbnailGenerator) : M unit :=
  let* _ := print [Lit (U "Generating trajectory GIFs...")] in
  let* models := rglob (models_dir self) (fun nm => endswith nm (U ".xml")) in
  match models with
  | [] =>
      let* _ := print [Lit (U "Error: No model found for trajectory rendering")] in
      ret tt
  | default_model :: _ =>
      let* _ := print [Lit (U "Using model: "); Val (name default_model)] in
      let* trajectory_files :=
        rglob (trajectories_dir self)
          (fun nm => endswith_any nm [U ".npy"; U ".npz"]) in
      let* counts := generate_each_trajectory self default_model
                       trajectory_files 0%nat 0%nat in
      let* _ := print [Lit ([10] ++ U "Completed: "); Num (Z.of_nat (fst counts));
                       Lit (U "/"); Num (Z.of_nat (snd counts));
                       Lit (U " trajectory GIFs generated")] in
      ret tt
  end.

(** The parsed command line of [main]. *)
Record Args := mkArgs {
  arg_all : bool;
  arg_models : bool;
  arg_trajectories : bool;
  arg_model_id : option str;
  arg_trajectory_id : option str;
  arg_data_dir : str
}.

(** [main], once [parser.parse_args()] has returned [args]; without a
    flag it prints the help text. *)
Definition main (args : Args) : M unit :=
  let data_dir := parse (arg_data_dir args) in
  let* generator := init data_dir in
  if arg_all args then
    let* _ := generate_all_models generator in
    generate_all_trajectories generator
  else if arg_models args then generate_all_models generator
  else if arg_trajectories args then generate_all_trajectories generator
  else print [Help].

End Scripts.


(* ===================================================================== *)
(** ** backend/main.py: the upload and listing endpoints                  *)
(* ===================================================================== *)

Module Api.

(** [fastapi.UploadFile]: the client's file name and the bytes
    [await file.read()] returns. *)
Record UploadFile := mkUpload { filename : str; file_bytes : bytes }.

(** The [storage] object of [storage.py], through the three calls these
    endpoints make.  [store] is whatever state sits behind it (the data
    directory); a model or trajectory summary is whatever it returns. *)
Class Storage (store trajectory model : Type) := {
  save_trajectory :
    str -> bytes -> option str -> store -> result trajectory * store;
  save_model :
    str -> bytes -> option str -> store -> result model * store;
  (** returns a list, possibly empty, or [None] *)
  get_model_directory_files :
    str -> store -> result (option (list str)) * store
}.

Section Endpoints.

Context {store trajectory model : Type}.
Context {storage : Storage store trajectory model}.

(** A handler runs against the store and either answers or raises
    [HTTPException(status_code)]. *)
Definition handler (A : Type) : Type := store -> result A * store.

(** [TrajectoryUploadResponse(success, message, trajectory)] *)
Record TrajectoryUploadResponse := mkTrajectoryUploadResponse {
  tr_success : bool;
  tr_message : str;
  tr_trajectory : trajectory
}.

(** [{"success": ..., "message": ..., "model": ...}] *)
Record ModelUploadResponse := mkModelUploadResponse {
  mo_success : bool;
  mo_message : str;
  mo_model : model
}.

(** [POST /api/trajectories] *)
Definition upload_trajectory (file : UploadFile) (category : option str)
  : handler TrajectoryUploadResponse :=
  fun st =>
    if negb (endswith_any (filename file) [U ".npy"; U ".npz"]) then
      (Raise (HTTPException 400), st)
    else
      let content := file_bytes file in
      match save_trajectory (filename file) content category st with
      | (inr trajectory, st') =>
          (Ok (mkTrajectoryUploadResponse true
                 (U "Trajectory uploaded successfully") trajectory), st')
      | (inl e, st') => (Raise (HTTPException 500), st')
      end.

(** [POST /api/models] *)
Definition upload_model (file : UploadFile) (model_name : option str)
  : handler ModelUploadResponse :=
  fun st =>
    if negb (endswith (filename file) (U ".xml")) then
      (Raise (HTTPException 400), st)
    else
      let content := file_bytes file in
      match save_model (filename file) content model_name st with
      | (inr model, st') =>
          (Ok (mkModelUploadResponse true
                 (U "Model uploaded successfully") model), st')
      | (inl e, st') => (Raise (HTTPException 500), st')
      end.

(** Truth value of what [get_model_directory_files] returned. *)
Definition nonempty (files : option (list str)) : bool :=
  match files with
  | Some (_ :: _) => true
  | _ => false
  end.

(** [GET /api/models/{model_id}/files]; the answer is [{"files": files}]. *)
Definition list_model_files (model_id : str) : handler (list str) :=
  fun st =>
    match get_model_directory_files model_id st with
    | (inl e, st') => (Raise e, st')
    | (inr files, st') =>
        if negb (nonempty files) then (Raise (HTTPException 404), st')
        else (Ok (or_default files []), st')
    end.

End Endpoints.

End Api.

(* ===================================================================== *)
(** ** backend/main.py: the thumbnail endpoints                           *)
(* ===================================================================== *)

Module Serving.

(** The two thumbnail lookups of the [storage] object: a path, or [None]. *)
Class ThumbnailStore (store : Type) := {
  storage_get_model_thumbnail :
    str -> store -> result (option Path) * store;
  storage_get_trajectory_thumbnail :
    str -> store -> result (option Path) * store
}.

(** [FileResponse(path=..., media_type=..., headers=...)] *)
Record FileResponse := mkFileResponse {
  resp_path : Path;
  resp_media_type : str;
  resp_headers : list (str * str)
}.

Section Endpoints.

Context {store : Type} {storage : ThumbnailStore store}.

(** [GET /api/models/{model_id}/thumbnail] *)
Definition get_model_thumbnail (model_id : str)
  : store -> result FileResponse * store :=
  fun st =>
    match storage_get_model_thumbnail model_id st with
    | (inl e, st') => (Raise e, st')
    | (inr None, st') => (Raise (HTTPException 404), st')
    | (inr (Some thumbnail_path), st') =>
        let media_type := U "image/webp" in
        let media_type :=
          if str_eqb (suffix thumbnail_path) (U ".png") then U "image/png"
          else if str_eqb (suffix thumbnail_path) (U ".jpg") then U "image/jpeg"
          else if str_eqb (suffix thumbnail_path) (U ".gif") then U "image/gif"
          else media_type in
        (Ok (mkFileResponse thumbnail_path media_type
               [(U "Cache-Control", U "public, max-age=3600")]), st')
    end.

(** [GET /api/trajectories/{trajectory_id}/thumbnail] *)
Definition get_trajectory_thumbnail (trajectory_id : str)
  : store -> result FileResponse * store :=
  fun st =>
    match storage_get_trajectory_thumbnail trajectory_id st with
    | (inl e, st') => (Raise e, st')
    | (inr None, st') => (Raise (HTTPException 404), st')
    | (inr (Some thumbnail_path), st') =>
        let media_type := U "image/webp" in
        let media_type :=
          if str_eqb (suffix thumbnail_path) (U ".gif") then U "image/gif"
          else if str_eqb (suffix thumbnail_path) (U ".png") then U "image/png"
          else if str_eqb (suffix thumbnail_path) (U ".jpg") then U "image/jpeg"
          else media_type in
        (Ok (mkFileResponse thumbnail_path media_type
               [(U "Cache-Control", U "public, max-age=3600")]), st')
    end.

End Endpoints.

End Serving.

(* ===================================================================== *)
(** ** Vocabulary of the statements                                       *)
(* ===================================================================== *)

(** The programmatic camera [render_with_camera] sets up from its four
    optional parameters. *)
Definition programmatic_camera (distance azimuth elevation : option float)
    (lookat : option (float * float * float)) : Mujoco.MjvCamera :=
  Mujoco.mkCamera
    (match distance with Some x => x | None => 3.0%float end)
    (match azimuth with Some x => x | None => 45%float end)
    (match elevation with Some x => x | None => (-20)%float end)
    (match lookat with Some x => x | None => (0%float, 0%float, 1%float) end).

(** The buffer of one 320 x 320 frame of [model] in pose [data] seen by
    camera [c]. *)
Definition frame_320 (model : Mujoco.MjModel) (data : Mujoco.MjData)
    (c : Mujoco.camera) : Mujoco.pixels :=
  Mujoco.mkPixels model (Some (Mujoco.qpos data, c)) 320 320.

(** Drawing a frame: the renderer either hands the buffer back or raises. *)
Definition draw (px : Mujoco.pixels) : M Mujoco.pixels :=
  fun w => match render_fault w px with
           | None => (Ok px, w)
           | Some e => (Raise e, w)
           end.

Section BatchRuns.

Context (self : Backend.ThumbnailGenerator) (model_relative_path : str)
        (camera_name : option str) (distance azimuth elevation : option float)
        (lookat : option (float * float * float)).

(** [renders_in_turn w files outcomes w']: starting in world [w], every file
    of [files] is handed to [render_trajectory], one after the other, each in
    the world its predecessor left; [outcomes] lists what the calls returned
    and [w'] is the world after the last one. *)
Inductive renders_in_turn : world -> list Path -> list bool -> world -> Prop :=
| renders_nil (w : world) : renders_in_turn w [] [] w
| renders_cons (w w1 w2 : world) (f : Path) (b : bool)
               (files : list Path) (outcomes : list bool) :
    Backend.render_trajectory self f model_relative_path camera_name
      distance azimuth elevation lookat w = (Ok b, w1) ->
    renders_in_turn w1 files outcomes w2 ->
    renders_in_turn w (f :: files) (b :: outcomes) w2.

End BatchRuns.

(** The files a batch call is about: the entries of the folder matching
    ["*.npy"], then those matching ["*.npz"]; none when the folder is not a
    directory. *)
Definition trajectory_files_of (self : Backend.ThumbnailGenerator)
    (folder_relative_path : str) (w : world) : list Path :=
  let folder_path := Backend.trajectories_dir self /' folder_relative_path in
  match stat (fs w) folder_path with
  | Some Dir => entries_matching (fs w) folder_path (U ".npy")
                ++ entries_matching (fs w) folder_path (U ".npz")
  | _ => []
  end.

Definition successes (outcomes : list bool) : nat :=
  length (List.filter (fun b => b) outcomes).

(** A frame of the given square size. *)
Definition has_size (height width : N) (px : Mujoco.pixels) : Prop :=
  Mujoco.px_height px = height /\ Mujoco.px_width px = width.

(** The image stored at a path, if there is one. *)
Definition image_at (w : world) (p : Path) : option PIL.image_file :=
  match fs w !! p with
  | Some (File (ImageFile img)) => Some img
  | _ => None
  end.

(** [same_environment w w']: the renderer, [os.stat] and [print] behave in
    [w'] as they do in [w]. *)
Definition same_environment (w w' : world) : Prop :=
  render_fault w' = render_fault w
  /\ stat_fault w' = stat_fault w
  /\ print_fault w' = print_fault w.

(** [quiet w]: no [print] fails in [w]. *)
Definition quiet (w : world) : Prop :=
  forall msg : message, print_fault w msg = None.

(** [fails_only_by_print c]: when [c] raises, a [print] raised it. *)
Definition fails_only_by_print {A} (c : M A) : Prop :=
  forall w e w', c w = (Raise e, w') ->
    exists msg : message, print_fault w msg = Some e.

(** [only_new_dirs w w']: the world [w'] is [w] with, at most, some
    directories created: every entry of [w] is still there unchanged, every
    entry that is new is a directory, and the environment is as before. *)
Definition only_new_dirs (w w' : world) : Prop :=
  same_environment w w'
  /\ (forall p n, fs w !! p = Some n -> fs w' !! p = Some n)
  /\ (forall p n, fs w' !! p = Some n -> fs w !! p = Some n \/ n = Dir).

(** [keeps R c]: whatever [c] does, it takes a world to one related by [R]. *)
Definition keeps {A} (R : world -> world -> Prop) (c : M A) : Prop :=
  forall w r w', c w = (r, w') -> R w w'.

(** [keeps_when_raising R c]: the same, for the runs of [c] that raise. *)
Definition keeps_when_raising {A} (R : world -> world -> Prop) (c : M A) : Prop :=
  forall w e w', c w = (Raise e, w') -> R w w'.

(** The pose the model is put in for frame [idx] of a trajectory: row [idx]
    broadcast into a pose vector of the model's length. *)
Definition pose_at (model : Mujoco.MjModel) (qpos_data : Numpy.ndarray)
    (idx : Z) : result (list float) :=
  match Numpy.getitem qpos_data idx with
  | inl e => Raise e
  | inr row =>
      match Mujoco.set_qpos (Mujoco.MjData_new model) row with
      | inl e => Raise e
      | inr data => Ok (Mujoco.qpos data)
      end
  end.

(** [shows model c size pose px]: the buffer [px] is the [size] x [size]
    picture of [model] in pose [pose] seen by camera [c]. *)
Definition shows (model : Mujoco.MjModel) (c : Mujoco.camera) (size : N)
    (pose : list float) (px : Mujoco.pixels) : Prop :=
  px = Mujoco.mkPixels model (Some (pose, c)) size size.

(* ===================================================================== *)
(** ** A small data directory, used to run the code on concrete inputs   *)
(* ===================================================================== *)

Module Fixture.

(** A two-joint model declaring the cameras ["track"] and ["free"]. *)
Definition robot : Mujoco.MjModel :=
  Mujoco.mkModel [0%float; 0%float] [U "track"; U "free"].

(** A trajectory of [n] frames for it. *)
Definition frames_of (n : nat) : Numpy.ndarray :=
  Numpy.Arr2 (List.map (fun i => [Numpy.Z2F (Z.of_nat i); 1%float]) (seq 0 n)).

Definition P (s : string) : Path := parse (U s).

Definition files : filesystem :=
  list_to_map
    [ (P "data", Dir);
      (P "data/models", Dir);
      (P "data/models/robot", Dir);
      (P "data/models/robot/robot.xml", File (XmlModel robot));
      (P "data/trajectories", Dir);
      (P "data/trajectories/sub", Dir);
      (P "data/trajectories/sub/dir", Dir);
      (P "data/trajectories/sub/dir/asset.npy", File (NpyFile (frames_of 1000)));
      (P "data/trajectories/sub/dir/asset.npz",
         File (NpzArchive {[ U "qpos_traj" := frames_of 40 ]}));
      (P "data/trajectories/locomotion", Dir);
      (P "data/trajectories/locomotion/walk.npy", File (NpyFile (frames_of 5)));
      (P "data/trajectories/locomotion/run.npy", File (NpyFile (frames_of 64)));
      (P "data/trajectories/locomotion/jump.npy", File (NpyFile (frames_of 1)));
      (P "data/trajectories/locomotion/turn.npz",
         File (NpzArchive {[ U "qpos_traj" := frames_of 40 ]}));
      (P "data/trajectories/locomotion/broken.npy", File (Blob [1; 2; 3]));
      (P "data/trajectories/locomotion/notes.txt", File (Blob [104; 105])) ].

(** Nothing of the environment fails in this world. *)
Definition w0 : world :=
  mkWorld files (fun _ => None) (fun _ => None) (fun _ => None).

(** The generator objects for it, and the world once they are built (both
    constructors create the same two thumbnail directories). *)
Definition backend_self : Backend.ThumbnailGenerator :=
  Backend.mkGenerator (P "data") (P "data/models") (P "data/trajectories")
    (P "data/thumbnails").

Definition scripts_self : Scripts.ThumbnailGenerator :=
  Scripts.mkGenerator (P "data") (P "data/models") (P "data/trajectories")
    (P "data/thumbnails").

Definition w1 : world := snd (Backend.init (P "data") w0).

(** The file names present under a directory, however deep. *)
Definition paths_under (dir : Path) (f : filesystem) : list Path :=
  List.filter
    (fun p => bool_decide (root p = root dir)
              && bool_decide (firstn (length (parts dir)) (parts p) = parts dir)
              && negb (bool_decide (p = dir)))
    (List.map fst (map_to_list f)).

(** A store that only records the calls it receives. *)
Inductive call :=
| SaveTrajectory (filename : str) (content : bytes) (category : option str)
| SaveModel (filename : str) (content : bytes) (model_name : option str)
| GetModelDirectoryFiles (model_id : str).

(** Models known to the recording store: an id with files, an id whose
    directory is empty; any other id is unknown. *)
Definition recorded_files (model_id : str) : option (list str) :=
  if str_eqb model_id (U "3d4b9c7a1d25f302") then Some [U "robot.xml"; U "mesh.stl"]
  else if str_eqb model_id (U "0000000000000000") then Some []
  else None.

Definition recording : Api.Storage (list call) str str := {|
  Api.save_trajectory filename content category log :=
    (Ok filename, log ++ [SaveTrajectory filename content category]);
  Api.save_model filename content model_name log :=
    (Ok filename, log ++ [SaveModel filename content model_name]);
  Api.get_model_directory_files model_id log :=
    (Ok (recorded_files model_id), log ++ [GetModelDirectoryFiles model_id])
|}.

(** A store whose save operations fail. *)
Definition failing : Api.Storage (list call) str str := {|
  Api.save_trajectory filename content category log :=
    (Raise FileNotFoundError, log ++ [SaveTrajectory filename content category]);
  Api.save_model filename content model_name log :=
    (Raise FileNotFoundError, log ++ [SaveModel filename content model_name]);
  Api.get_model_directory_files model_id log :=
    (Ok None, log ++ [GetModelDirectoryFiles model_id])
|}.

End Fixture.

(** A second world: the data directory of [Fixture], once the generators
    are built, with a trajectory of zero frames and a model document under a
    name that is not in canonical form. *)
Module Fixture2.

Definition w : world :=
  with_fs Fixture.w1
    (<[ Fixture.P "data/trajectories/locomotion/empty.npy"
        := File (NpyFile (Numpy.Arr2 [])) ]> (fs Fixture.w1)).

End Fixture2.

(** A thumbnail store for the examples: an index from identifiers to the
    paths of the thumbnails, the same for both categories. *)
Module Fixture3.

Definition find_thumbnail (id : str) (index : list (str * Path))
  : result (option Path) * list (str * Path) :=
  (Ok (option_map snd (List.find (fun e => str_eqb (fst e) id) index)), index).

Definition index_store : Serving.ThumbnailStore (list (str * Path)) :=
  {| Serving.storage_get_model_thumbnail := find_thumbnail;
     Serving.storage_get_trajectory_thumbnail := find_thumbnail |}.

End Fixture3.

(** [touches_only allowed w w']: from [w] to [w'] an entry either is as it
    was, or is a directory that was not there, or is an image file at a path
    that is [allowed]. *)
Definition touches_only (allowed : Path -> Prop) (w w' : world) : Prop :=
  same_environment w w'
  /\ forall p : Path,
       fs w' !! p = fs w !! p
       \/ (fs w !! p = None /\ fs w' !! p = Some Dir)
       \/ (allowed p
           /\ exists img, fs w' !! p = Some (File (ImageFile img))).

(** The paths directly inside one of [dirs]. *)
Definition directly_in (dirs : list Path) (p : Path) : Prop :=
  In (parent p) dirs.

(** [all_present w p]: [p] and all the directories above it are there. *)
Definition all_present (w : world) (p : Path) : Prop :=
  forall pre post, parts p = pre ++ post -> pre <> [] ->
    fs w !! mkPath (root p) pre = Some Dir.

(** [keeps_dirs w w']: every directory of [w] is still one in [w']. *)
Definition keeps_dirs (w w' : world) : Prop :=
  forall p : Path, fs w !! p = Some Dir -> fs w' !! p = Some Dir.

(** The paths whose last component ends with [suffix]. *)
Definition named_with (suffix : str) (p : Path) : Prop :=
  endswith (name p) suffix = true.

(** A world with a model outside the data directory, at an absolute path. *)
Module Fixture4.

Definition files : filesystem :=
  list_to_map
    [ (Fixture.P "/srv", Dir);
      (Fixture.P "/srv/robots", Dir);
      (Fixture.P "/srv/robots/arm.xml", File (XmlModel Fixture.robot));
      (Fixture.P "data", Dir);
      (Fixture.P "data/models", Dir);
      (Fixture.P "data/thumbnails", Dir);
      (Fixture.P "data/thumbnails/models", Dir);
      (Fixture.P "data/thumbnails/trajectories", Dir) ].

Definition w : world :=
  mkWorld files (fun _ => None) (fun _ => None) (fun _ => None).

End Fixture4.

(** [when_quiet R w w']: the worlds are related by [R], provided no [print]
    fails in [w]. *)
Definition when_quiet (R : world -> world -> Prop) (w w' : world) : Prop :=
  quiet w -> R w w'.

(** [run_keeps R c w]: the run of [c] that starts in [w] ends in a world
    related to [w] by [R]. *)
Definition run_keeps {A} (R : world -> world -> Prop) (c : M A) (w : world)
  : Prop :=
  forall r w', c w = (r, w') -> R w w'.

(** [plain p]: no component of [p] is [".."], so that [p] is looked up in the
    file system exactly as the operating system would. *)
Definition plain (p : Path) : bool :=
  forallb (fun x => negb (str_eqb x (U ".."))) (parts p).

(** Environments in which something fails. *)
Module Fixture5.

(** [os.stat] refuses a path with a component of more than 255 characters
    ([ENAMETOOLONG], errno 36). *)
Definition name_too_long (p : Path) : option exn :=
  if existsb (fun x => (255 <? length x)%nat) (parts p)
  then Some (OSError 36) else None.

(** A console that cannot encode a lone surrogate. *)
Definition strict_console (msg : message) : option exn :=
  if forallb (fun x => match x with Val s => encodable s | _ => true end) msg
  then None else Some UnicodeEncodeError.

(** Standard output closed by its reader ([EPIPE], errno 32). *)
Definition closed_pipe (msg : message) : option exn := Some (OSError 32).

(** The data directory of [Fixture] under these three environments. *)
Definition w_stat : world :=
  mkWorld (fs Fixture.w1) (fun _ => None) name_too_long (fun _ => None).

Definition w_closed : world :=
  mkWorld (fs Fixture.w1) (fun _ => None) (fun _ => None) closed_pipe.

(** A model name of 256 characters. *)
Definition long_name : str := repeat 97 252 ++ U ".xml".

(** A data directory whose name holds an undecodable byte ([d\udcff]). *)
Definition d : str := U "d" ++ [0xDCFF].

Definition files : filesystem :=
  list_to_map
    [ (parse d, Dir);
      (parse d /' U "models", Dir);
      (parse d /' U "models/robot.xml", File (XmlModel Fixture.robot));
      (parse d /' U "trajectories", Dir);
      (parse d /' U "trajectories/walk.npy", File (NpyFile (Fixture.frames_of 5)));
      (parse d /' U "thumbnails", Dir);
      (parse d /' U "thumbnails/models", Dir);
      (parse d /' U "thumbnails/trajectories", Dir) ].

Definition w : world :=
  mkWorld files (fun _ => None) (fun _ => None) strict_console.

Definition backend_self : Backend.ThumbnailGenerator :=
  Backend.mkGenerator (parse d) (parse d /' U "models")
    (parse d /' U "trajectories") (parse d /' U "thumbnails").

Definition scripts_self : Scripts.ThumbnailGenerator :=
  Scripts.mkGenerator (parse d) (parse d /' U "models")
    (parse d /' U "trajectories") (parse d /' U "thumbnails").

End Fixture5.

(* ===================================================================== *)
(** * Properties                                                          *)
(* ===================================================================== *)

(** ** The effect monad *)

Section MonadLaws.

Context {A B : Type}.

Lemma bind_exists (p : Path) (k : bool -> M B) (w : world) :
  bind (exists_ p) k w
  = match stat_fault w p with
    | Some e => (Raise e, w)
    | None => k (bool_decide (is_Some (stat (fs w) p))) w
    end.
Proof. unfold bind, exists_. destruct (stat_fault w p); reflexivity. Qed.

Lemma bind_is_dir (p : Path) (k : bool -> M B) (w : world) :
  bind (is_dir p) k w
  = match stat_fault w p with
    | Some e => (Raise e, w)
    | None =>
        k (match stat (fs w) p with Some Dir => true | _ => false end) w
    end.
Proof. unfold bind, is_dir. destruct (stat_fault w p); reflexivity. Qed.

Lemma bind_print (msg : message) (k : unit -> M B) (w : world) :
  bind (print msg) k w
  = match print_fault w msg with
    | Some e => (Raise e, w)
    | None => k tt w
    end.
Proof. unfold bind, print. destruct (print_fault w msg); reflexivity. Qed.

Lemma print_inv (msg : message) (w w' : world) (u : unit) :
  print msg w = (Ok u, w') -> w' = w /\ print_fault w msg = None.
Proof.
  unfold print. destruct (print_fault w msg); intros H; [discriminate|].
  injection H as _ <-. auto.
Qed.

Lemma bind_print_Ok (msg : message) (k : unit -> M B) (w w' : world) (b : B) :
  bind (print msg) k w = (Ok b, w') ->
  print_fault w msg = None /\ k tt w = (Ok b, w').
Proof.
  rewrite bind_print. destruct (print_fault w msg); [discriminate|]. auto.
Qed.

Lemma bind_print_quiet (msg : message) (k : unit -> M B) (w : world) :
  quiet w -> bind (print msg) k w = k tt w.
Proof. intros Hq. rewrite bind_print, Hq. reflexivity. Qed.

Lemma bind_glob_suffix (p : Path) (ext : str) (k : list Path -> M B) (w : world) :
  bind (glob_suffix p ext) k w = k (entries_matching (fs w) p ext) w.
Proof. reflexivity. Qed.

Lemma bind_Ok (c : M A) (k : A -> M B) (w w' : world) (b : B) :
  bind c k w = (Ok b, w') ->
  exists a w1, c w = (Ok a, w1) /\ k a w1 = (Ok b, w').
Proof.
  unfold bind. destruct (c w) as [[e|a] w1]; intros H.
  - discriminate.
  - eauto.
Qed.

Lemma try_except_false_true (body : M bool) (msg : exn -> message)
    (w w' : world) :
  try_except body (fun e => let* _ := print (msg e) in ret false) w
  = (Ok true, w') ->
  body w = (Ok true, w').
Proof.
  unfold try_except. destruct (body w) as [[e|a] w1]; intros H.
  - unfold bind, print, ret in H.
    destruct (print_fault w1 (msg e)); discriminate.
  - exact H.
Qed.

Lemma bind_inv (c : M A) (k : A -> M B) (w w' : world) (r : result B) :
  bind c k w = (r, w') ->
  (exists e, c w = (Raise e, w') /\ r = Raise e)
  \/ (exists a w1, c w = (Ok a, w1) /\ k a w1 = (r, w')).
Proof.
  unfold bind. destruct (c w) as [[e|a] w1]; intros H.
  - left. exists e. injection H as <- <-. auto.
  - right. eauto.
Qed.

Lemma bind_congr (c : M A) (k k' : A -> M B) (w : world) :
  (forall a w1, c w = (Ok a, w1) -> k a w1 = k' a w1) ->
  bind c k w = bind c k' w.
Proof.
  intros H. unfold bind. destruct (c w) as [[e|a] w1]; [reflexivity|].
  apply H. reflexivity.
Qed.

Lemma bind_congr2 (c c' : M A) (k k' : A -> M B) (w : world) :
  c w = c' w ->
  (forall a w1, c w = (Ok a, w1) -> k a w1 = k' a w1) ->
  bind c k w = bind c' k' w.
Proof.
  intros Hc H. unfold bind. rewrite <- Hc.
  destruct (c w) as [[e|a] w1]; [reflexivity|]. apply H. reflexivity.
Qed.

Lemma try_except_congr (body body' : M A) (handler : exn -> M A)
    (w : world) :
  body w = body' w -> try_except body handler w = try_except body' handler w.
Proof. intros H. unfold try_except. rewrite H. reflexivity. Qed.

Lemma bind_assoc {C} (c : M A) (k : A -> M B) (k' : B -> M C) (w : world) :
  bind (bind c k) k' w = bind c (fun a => bind (k a) k') w.
Proof.
  unfold bind. destruct (c w) as [[e|a] w1]; [reflexivity|].
  destruct (k a w1) as [[e|b] w2]; reflexivity.
Qed.

End MonadLaws.

(** A goal [(let* _ := print msg in ret false) w = (Ok true, w') -> _]. *)
Ltac print_false :=
  let H := fresh "H" in
  intros H; apply bind_print_Ok in H as [_ H]; discriminate H.

(** One [print] of a run that returned. *)
Ltac printed H := apply bind_print_Ok in H as [_ H].

(** ** The model of [hashlib.md5] against the library's answers *)

Example md5_empty : MD5.hexdigest [] = U "d41d8cd98f00b204e9800998ecf8427e".
Proof. vm_compute. reflexivity. Qed.

Example md5_abc : MD5.hexdigest (U "abc") = U "900150983cd24fb0d6963f7d28e17f72".
Proof. vm_compute. reflexivity. Qed.

Example md5_one_block_edge :
  MD5.hexdigest (repeat 120 56) = U "668a72d5ba17f08e62dabcafad6db14b".
Proof. vm_compute. reflexivity. Qed.

Example md5_two_block_edge :
  MD5.hexdigest (repeat 120 120) = U "fb98667f98096de92620b64f46e1c5b5".
Proof. vm_compute. reflexivity. Qed.

Example get_file_id_walk :
  Backend.get_file_id (U "locomotion/walk.npy") = Ok (U "8dd65a9be6716014").
Proof. vm_compute. reflexivity. Qed.

(** U+00E9 is encoded on two bytes before hashing. *)
Example get_file_id_non_ascii :
  Backend.get_file_id (U "caf" ++ [0xE9] ++ U ".npy") = Ok (U "24f86775b0fbef0d").
Proof. vm_compute. reflexivity. Qed.

(** ** C1: identifiers *)

Section Identifier.

Lemma encode_codepoint_scalar (c : N) :
  (c <? 0x110000) && negb (is_surrogate c) = true ->
  exists b, encode_codepoint c = Ok b.
Proof.
  intros H. apply andb_prop in H as [Hlt Hs].
  apply negb_true_iff in Hs.
  unfold encode_codepoint. rewrite Hs, Hlt.
  repeat match goal with
         | |- context [if ?c <? ?k then _ else _] => destruct (c <? k)
         end; eauto.
Qed.

Lemma encode_encodable (s : str) :
  encodable s = true -> exists b, encode s = Ok b.
Proof.
  induction s as [|c s IH]; simpl; intros H.
  - eauto.
  - apply andb_prop in H as [Hc Hs].
    destruct (encode_codepoint_scalar c Hc) as [bc ->].
    destruct (IH Hs) as [bs ->]. eauto.
Qed.

Lemma encode_codepoint_raises (c : N) :
  (c <? 0x110000) && negb (is_surrogate c) = false ->
  encode_codepoint c = Raise UnicodeEncodeError.
Proof.
  intros H. unfold encode_codepoint, is_surrogate in *.
  destruct (c <? 0x80) eqn:E1; [exfalso; apply N.ltb_lt in E1|].
  { rewrite (proj2 (N.ltb_lt _ _)) in H by lia.
    rewrite (proj2 (N.leb_gt _ _)) in H by lia. discriminate. }
  destruct (c <? 0x800) eqn:E2; [exfalso; apply N.ltb_lt in E2|].
  { rewrite (proj2 (N.ltb_lt _ _)) in H by lia.
    rewrite (proj2 (N.leb_gt _ _)) in H by lia. discriminate. }
  destruct (c <? 0x10000) eqn:E3.
  - apply N.ltb_lt in E3.
    rewrite (proj2 (N.ltb_lt c 0x110000)) in H by lia.
    simpl in H. apply negb_false_iff in H. rewrite H. reflexivity.
  - destruct (c <? 0x110000) eqn:E4; [|reflexivity].
    apply N.ltb_ge in E3.
    rewrite (proj2 (N.leb_gt c 0xDFFF)) in H by lia.
    rewrite andb_false_r in H. discriminate.
Qed.

Lemma encode_not_encodable (s : str) :
  encodable s = false -> exists e, encode s = Raise e.
Proof.
  induction s as [|c s IH]; simpl; intros H; [discriminate|].
  apply andb_false_iff in H as [Hc|Hs].
  - rewrite (encode_codepoint_raises c Hc). eauto.
  - destruct (encode_codepoint c); [eauto|].
    destruct (IH Hs) as [e ->]. eauto.
Qed.

Lemma digest_length (msg : list N) : length (MD5.digest msg) = 16%nat.
Proof. unfold MD5.digest. reflexivity. Qed.

Lemma digest_octets (msg : list N) : Forall (fun b => b < 256) (MD5.digest msg).
Proof.
  unfold MD5.digest, MD5.bytes_of_word.
  repeat (apply Forall_app; split);
    repeat constructor; apply N.mod_upper_bound; discriminate.
Qed.

Lemma hex_digit_lower (n : N) : n < 16 -> is_lower_hex (MD5.hex_digit n) = true.
Proof.
  intros H. unfold MD5.hex_digit, is_lower_hex.
  destruct (n <? 10) eqn:E; [apply N.ltb_lt in E | apply N.ltb_ge in E].
  - apply orb_true_iff. left. apply andb_true_iff.
    split; apply N.leb_le; lia.
  - apply orb_true_iff. right. apply andb_true_iff.
    split; apply N.leb_le; lia.
Qed.

Lemma hexdigest_length (msg : list N) : length (MD5.hexdigest msg) = 32%nat.
Proof.
  unfold MD5.hexdigest.
  assert (G : forall l : list N,
             length (flat_map (fun b => [MD5.hex_digit (b / 16);
                                          MD5.hex_digit (b mod 16)]) l)
             = (2 * length l)%nat).
  { induction l as [|x l IHl]; simpl; [reflexivity | rewrite IHl; lia]. }
  rewrite G, digest_length. reflexivity.
Qed.

Lemma hexdigest_lower_hex (msg : list N) :
  forallb is_lower_hex (MD5.hexdigest msg) = true.
Proof.
  unfold MD5.hexdigest.
  pose proof (digest_octets msg) as Hoct.
  induction Hoct as [|b l Hb _ IH]; simpl; [reflexivity|].
  rewrite IH, !hex_digit_lower; [reflexivity | |].
  - apply N.mod_upper_bound. discriminate.
  - apply N.Div0.div_lt_upper_bound. lia.
Qed.

Lemma forallb_firstn {A} (f : A -> bool) (n : nat) (l : list A) :
  forallb f l = true -> forallb f (firstn n l) = true.
Proof.
  revert n; induction l as [|x l IH]; intros [|n]; simpl; auto.
  intros H. apply andb_prop in H as [-> Hl]. simpl. auto.
Qed.

End Identifier.

(** C1, as the code has it.  For every relative-path string [p] that
    [str.encode()] accepts (each code point a Unicode scalar value),
    [get_file_id] returns the first 16 characters of the hexadecimal MD5
    digest of the UTF-8 bytes of [p]: a string of exactly 16 characters from
    [0-9a-f].  The value is a function of [p] alone, and the second pipeline
    returns the same identifier for any path whose [str()] is [p]. *)
Theorem get_file_id_encodable :
  forall p : str,
    encodable p = true ->
    exists (b : bytes) (id : str),
      encode p = Ok b
      /\ id = firstn 16 (MD5.hexdigest b)
      /\ Backend.get_file_id p = Ok id
      /\ length id = 16%nat
      /\ forallb is_lower_hex id = true
      /\ (forall fp : Path, to_str fp = p -> Scripts.get_file_id fp = Ok id).
Proof.
  intros p Hp.
  destruct (encode_encodable p Hp) as [b Hb].
  exists b, (firstn 16 (MD5.hexdigest b)).
  split; [exact Hb|]. split; [reflexivity|].
  split; [unfold Backend.get_file_id; rewrite Hb; reflexivity|].
  split; [rewrite length_take, hexdigest_length; reflexivity|].
  split; [apply forallb_firstn, hexdigest_lower_hex|].
  intros fp Hfp. unfold Scripts.get_file_id. rewrite Hfp, Hb. reflexivity.
Qed.

Lemma get_file_id_encodable_witness :
  exists (b : bytes) (id : str),
    encode (U "locomotion/walk.npy") = Ok b
    /\ id = firstn 16 (MD5.hexdigest b)
    /\ Backend.get_file_id (U "locomotion/walk.npy") = Ok id
    /\ length id = 16%nat
    /\ forallb is_lower_hex id = true
    /\ (forall fp : Path, to_str fp = U "locomotion/walk.npy" ->
        Scripts.get_file_id fp = Ok id).
Proof.
  apply (get_file_id_encodable (U "locomotion/walk.npy")).
  vm_compute. reflexivity.
Defined.

(** C1 as stated fails: a [str] holding a lone surrogate (the interpreter's
    rendering of a file name with a byte that is not UTF-8, here 0xE9 as
    U+DCE9) makes [get_file_id] raise [UnicodeEncodeError] in both
    pipelines. *)
Lemma get_file_id_raises_on_surrogate :
  Backend.get_file_id (U "caf" ++ [0xDCE9] ++ U ".npy") = Raise UnicodeEncodeError
  /\ Scripts.get_file_id (mkPath [] [U "caf" ++ [0xDCE9] ++ U ".npy"])
     = Raise UnicodeEncodeError.
Proof. split; vm_compute; reflexivity. Qed.

(** ** C2: frame sampling *)

Section Sampling.
Local Open Scope Z_scope.

Lemma Qfloor_scaled (i m : Z) :
  Qfloor (inject_Z i * (inject_Z (m - 0) / inject_Z 29) + inject_Z 0) = (i * m) / 29.
Proof.
  transitivity (Qfloor ((i * m) # 29)).
  - apply Qfloor_comp. unfold Qeq, Qdiv, Qmult, Qplus, Qinv, inject_Z; simpl. lia.
  - reflexivity.
Qed.

Lemma Qfloor_scaled_zero_step (i m : Z) :
  Qfloor (inject_Z i / inject_Z 29 * inject_Z (m - 0) + inject_Z 0) = (i * m) / 29.
Proof.
  transitivity (Qfloor ((i * m) # 29)).
  - apply Qfloor_comp. unfold Qeq, Qdiv, Qmult, Qplus, Qinv, inject_Z; simpl. lia.
  - reflexivity.
Qed.

Lemma linspace_30 (m : Z) :
  Numpy.linspace 0 m 30 = List.map (fun i => (Z.of_nat i * m) / 29) (seq 0 30).
Proof.
  unfold Numpy.linspace.
  change (Z.of_nat 30 - 1) with 29. change (0 <? 29) with true.
  change (1 <? 30)%nat with true. cbv iota.
  set (delta := inject_Z (m - 0)).
  assert (Hlast : Qfloor (inject_Z m) = Z.of_nat 29 * m / 29).
  { rewrite Qfloor_Z. change (Z.of_nat 29) with 29.
    rewrite Z.mul_comm, Z.div_mul; lia. }
  destruct (Qeq_bool (delta / inject_Z 29) 0);
    cbv [seq List.map Numpy.set_last removelast app];
    rewrite Hlast; subst delta;
    rewrite ?Qfloor_scaled, ?Qfloor_scaled_zero_step; reflexivity.
Qed.

Lemma div29_step (a m : Z) :
  0 <= m -> m / 29 <= (a + m) / 29 - a / 29 <= m / 29 + 1.
Proof. intros Hm. Z.to_euclidean_division_equations. lia. Qed.

Lemma nth_map_seq_30 (f : nat -> Z) (i : nat) :
  (i < 30)%nat -> nth i (List.map f (seq 0 30)) 0 = f i.
Proof.
  intros Hi.
  do 30 (destruct i as [|i]; [reflexivity|]). lia.
Qed.

(** In exact arithmetic, for every trajectory of [n >= 1] frames, the 30
    sampled indices are the linear interpolations [i * (n - 1) / 29] rounded
    down to an integer.  The first index is 0, the last is [n - 1], the
    sequence is non-decreasing, consecutive indices differ by the step
    [(n - 1) / 29] within one, every index lies in [[0, n - 1]], and a
    trajectory shorter than 30 frames still gets 30 samples, indices being
    repeated (the first two coincide). *)
Lemma exact_sampling_even :
forall n : nat,
  (1 <= n)%nat ->
  let m := Z.of_nat n - 1 in
  let idx := Backend.sample_frame_indices n in
  length idx = 30%nat
  /\ (forall i : nat, (i < 30)%nat -> nth i idx 0 = (Z.of_nat i * m) / 29)
  /\ nth 0 idx 0 = 0
  /\ nth 29 idx 0 = m
  /\ (forall i j : nat, (i <= j < 30)%nat -> nth i idx 0 <= nth j idx 0)
  /\ (forall i : nat, (i < 29)%nat ->
        m / 29 <= nth (S i) idx 0 - nth i idx 0 <= m / 29 + 1)
  /\ Forall (fun x => 0 <= x <= m) idx
  /\ ((n < 30)%nat -> nth 1 idx 0 = nth 0 idx 0)
  /\ Scripts.sample_frame_indices n = idx.
Proof.
intros n Hn m idx.
assert (Hm : 0 <= m) by (subst m; lia).
assert (Hidx : idx = List.map (fun i => (Z.of_nat i * m) / 29) (seq 0 30)).
{ subst idx. unfold Backend.sample_frame_indices, Backend.TRAJECTORY_FRAMES.
  apply linspace_30. }
assert (Hnth : forall i : nat, (i < 30)%nat -> nth i idx 0 = (Z.of_nat i * m) / 29).
{ intros i Hi. rewrite Hidx. apply (nth_map_seq_30 (fun i => Z.of_nat i * m / 29)), Hi. }
split; [rewrite Hidx; reflexivity|].
split; [exact Hnth|].
split; [rewrite Hnth by lia; reflexivity|].
split.
{ rewrite Hnth by lia. change (Z.of_nat 29) with 29.
  rewrite Z.mul_comm, Z.div_mul; lia. }
split.
{ intros i j Hij. rewrite !Hnth by lia. apply Z.div_le_mono; nia. }
split.
{ intros i Hi. rewrite !Hnth by lia.
  replace (Z.of_nat (S i) * m) with (Z.of_nat i * m + m) by lia.
  apply div29_step, Hm. }
split.
{ rewrite Hidx. apply List.Forall_forall. intros x Hx.
  apply in_map_iff in Hx as (i & <- & Hi). apply in_seq in Hi.
  split.
  - apply Z.div_pos; nia.
  - apply Z.div_le_upper_bound; nia. }
split.
{ intros Hlt. rewrite !Hnth by lia. simpl.
  rewrite Z.div_small by lia. reflexivity. }
reflexivity.
Qed.

End Sampling.

(** The two trajectories the specification names. *)
Example sample_1000 :
  Backend.sample_frame_indices 1000 =
  [0; 34; 68; 103; 137; 172; 206; 241; 275; 310; 344; 378; 413; 447; 482;
   516; 551; 585; 620; 654; 688; 723; 757; 792; 826; 861; 895; 930; 964; 999]%Z.
Proof. vm_compute. reflexivity. Qed.

Example sample_5 :
  Backend.sample_frame_indices 5 =
  [0; 0; 0; 0; 0; 0; 0; 0; 1; 1; 1; 1; 1; 1; 1;
   2; 2; 2; 2; 2; 2; 2; 3; 3; 3; 3; 3; 3; 3; 4]%Z.
Proof. vm_compute. reflexivity. Qed.

(** The indices are computed above in exact arithmetic; numpy computes them
    in binary64.  The two agree on every trajectory length up to 1000 frames
    and on a few long ones. *)
Lemma linspace_agrees_with_binary64 :
  forallb (fun n => bool_decide (Numpy.linspace 0 (Z.of_nat n - 1) 30
                                 = Numpy.linspace_f64 0 (Z.of_nat n - 1) 30))
          (seq 1 1000) = true
  /\ forallb (fun n => bool_decide (Numpy.linspace 0 (n - 1) 30
                                    = Numpy.linspace_f64 0 (n - 1) 30))
             [4096; 65536; 1000000; 16777217; 2147483647; 1000000000000]%Z = true.
Proof. split; vm_compute; reflexivity. Qed.

Lemma binary64_sampling (n : nat) :
  (1 <= n <= 1000)%nat ->
  Numpy.linspace_f64 0 (Z.of_nat n - 1) 30 = Backend.sample_frame_indices n.
Proof.
  intros Hn. destruct linspace_agrees_with_binary64 as [H _].
  rewrite forallb_forall in H. specialize (H n).
  rewrite bool_decide_eq_true in H. symmetry. apply H.
  apply in_seq. lia.
Qed.




(** ** C6, C9: cameras *)

Section Camera.

Context (model : Mujoco.MjModel) (data : Mujoco.MjData).
Context (distance azimuth elevation : option float)
        (lookat : option (float * float * float)).

Lemma bind_render_ret (r : Mujoco.Renderer) (w : world) :
  bind (render r) (fun pixels => ret pixels) w = draw (Mujoco.drawn r) w.
Proof.
  unfold bind, render, draw, ret.
  destruct (render_fault w (Mujoco.drawn r)); reflexivity.
Qed.

Lemma render_with_camera_programmatic (camera_name : option str) (w : world) :
  Backend.truthy camera_name = false ->
  Backend.render_with_camera model data camera_name
    distance azimuth elevation lookat w
  = draw (frame_320 model data
            (Mujoco.FreeCamera
               (programmatic_camera distance azimuth elevation lookat))) w.
Proof.
  intros Hcn. unfold Backend.render_with_camera. cbv zeta.
  rewrite Hcn. unfold bind at 1. unfold ret at 1. cbv beta iota.
  cbn [fst snd]. rewrite Hcn. cbn [negb].
  unfold bind at 1. unfold lift at 1. cbn [Mujoco.update_scene].
  cbv beta iota. rewrite bind_render_ret.
  destruct distance, azimuth, elevation, lookat; reflexivity.
Qed.

Lemma render_with_camera_missing (nm : str) (w : world) :
  nm <> [] ->
  Mujoco.index_of nm (Mujoco.cameras model) = None ->
  Backend.render_with_camera model data (Some nm)
    distance azimuth elevation lookat w
  = Backend.render_with_camera model data None
      distance azimuth elevation lookat w.
Proof.
  intros Hnm Hidx.
  rewrite (render_with_camera_programmatic None) by reflexivity.
  unfold Backend.render_with_camera. cbv zeta.
  assert (Ht : Backend.truthy (Some nm) = true) by (destruct nm; [contradiction|reflexivity]).
  rewrite Ht. unfold bind at 1. unfold try_except_KeyError at 1.
  unfold bind at 1. unfold lift at 1. unfold Mujoco.camera_id.
  cbn [or_default]. rewrite Hidx. cbv beta iota. cbn [is_KeyError].
  unfold ret at 1. cbv beta iota. cbn [fst snd Backend.truthy negb].
  unfold bind at 1. unfold lift at 1. cbn [Mujoco.update_scene].
  cbv beta iota. rewrite bind_render_ret.
  destruct distance, azimuth, elevation, lookat; reflexivity.
Qed.

Lemma index_of_bound (nm : str) (l : list str) (i : nat) :
  Mujoco.index_of nm l = Some i -> (i < length l)%nat.
Proof.
  revert i; induction l as [|x l IH]; simpl; intros i H; [discriminate|].
  destruct (str_eqb x nm).
  - injection H as <-. lia.
  - destruct (Mujoco.index_of nm l) as [j|]; [|discriminate].
    injection H as <-. specialize (IH j eq_refl). lia.
Qed.

Lemma render_with_camera_named (nm : str) (i : nat) (w : world) :
  nm <> [] ->
  Mujoco.index_of nm (Mujoco.cameras model) = Some i ->
  Backend.render_with_camera model data (Some nm)
    distance azimuth elevation lookat w
  = draw (frame_320 model data (Mujoco.FixedCamera i)) w.
Proof.
  intros Hnm Hidx. pose proof (index_of_bound _ _ _ Hidx) as Hi.
  unfold Backend.render_with_camera. cbv zeta.
  assert (Ht : Backend.truthy (Some nm) = true) by (destruct nm; [contradiction|reflexivity]).
  rewrite Ht. unfold bind at 1. unfold try_except_KeyError at 1.
  unfold bind at 1. unfold lift at 1. unfold Mujoco.camera_id.
  cbn [or_default]. rewrite Hidx. cbv beta iota.
  unfold bind at 1. unfold lift at 1.
  unfold Mujoco.update_scene. cbn [Mujoco.r_model Mujoco.Renderer_new].
  replace (Z.of_nat i <? -1)%Z with false by (symmetry; apply Z.ltb_ge; lia).
  replace (Z.of_nat (length (Mujoco.cameras model)) <=? Z.of_nat i)%Z with false
    by (symmetry; apply Z.leb_gt; lia).
  replace (Z.of_nat i =? -1)%Z with false by (symmetry; apply Z.eqb_neq; lia).
  cbn [orb]. cbv beta iota. unfold ret at 1. cbv beta iota.
  cbn [fst snd]. rewrite Ht. cbn [negb].
  unfold bind at 1. unfold ret at 1. cbv beta iota.
  rewrite bind_render_ret, Nat2Z.id. reflexivity.
Qed.

(** Whatever the arguments, the outcome is that of drawing one 320 x 320
    frame of [model] in pose [data]. *)
Lemma render_with_camera_draws (camera_name : option str) (w : world) :
  exists c : Mujoco.camera,
    Backend.render_with_camera model data camera_name
      distance azimuth elevation lookat w
    = draw (frame_320 model data c) w.
Proof.
  destruct (Backend.truthy camera_name) eqn:Ht.
  - destruct camera_name as [[|x nm]|]; try discriminate.
    destruct (Mujoco.index_of (x :: nm) (Mujoco.cameras model)) as [i|] eqn:Hidx.
    + eexists. apply render_with_camera_named; [discriminate | exact Hidx].
    + eexists. rewrite render_with_camera_missing by (discriminate || exact Hidx).
      apply render_with_camera_programmatic. reflexivity.
  - eexists. apply render_with_camera_programmatic, Ht.
Qed.

End Camera.



(** A camera the model does declare is used as such. *)
Example declared_camera_is_used :
  Backend.render_with_camera Fixture.robot (Mujoco.MjData_new Fixture.robot)
    (Some (U "free")) None None None None Fixture.w0
  = (Ok (frame_320 Fixture.robot (Mujoco.MjData_new Fixture.robot)
           (Mujoco.FixedCamera 1)), Fixture.w0).
Proof. reflexivity. Qed.


(** The constants themselves. *)
Example default_camera_constants :
  Backend.DEFAULT_CAMERA_DISTANCE = 3.0%float
  /\ Backend.DEFAULT_CAMERA_AZIMUTH = 45%float
  /\ Backend.DEFAULT_CAMERA_ELEVATION = (-20)%float
  /\ Backend.DEFAULT_CAMERA_LOOKAT = (0%float, 0%float, 1%float).
Proof. repeat split. Qed.

(** ** C3, C10: the endpoints *)

Section EndpointProperties.

Context {store trajectory model : Type}.
Context (storage : Api.Storage store trajectory model).

Lemma upload_trajectory_rejected (file : Api.UploadFile)
    (category : option str) (st : store) :
  endswith_any (Api.filename file) [U ".npy"; U ".npz"] = false ->
  Api.upload_trajectory file category st = (Raise (HTTPException 400), st).
Proof. intros H. unfold Api.upload_trajectory. rewrite H. reflexivity. Qed.

Lemma upload_trajectory_accepted (file : Api.UploadFile)
    (category : option str) (st : store) :
  endswith_any (Api.filename file) [U ".npy"; U ".npz"] = true ->
  Api.upload_trajectory file category st
  = match Api.save_trajectory (Api.filename file) (Api.file_bytes file)
            category st with
    | (Ok summary, st') =>
        (Ok (Api.mkTrajectoryUploadResponse true
               (U "Trajectory uploaded successfully") summary), st')
    | (Raise _, st') => (Raise (HTTPException 500), st')
    end.
Proof. intros H. unfold Api.upload_trajectory. rewrite H. reflexivity. Qed.

Lemma upload_model_rejected (file : Api.UploadFile)
    (model_name : option str) (st : store) :
  endswith (Api.filename file) (U ".xml") = false ->
  Api.upload_model file model_name st = (Raise (HTTPException 400), st).
Proof. intros H. unfold Api.upload_model. rewrite H. reflexivity. Qed.

Lemma upload_model_accepted (file : Api.UploadFile)
    (model_name : option str) (st : store) :
  endswith (Api.filename file) (U ".xml") = true ->
  Api.upload_model file model_name st
  = match Api.save_model (Api.filename file) (Api.file_bytes file)
            model_name st with
    | (Ok summary, st') =>
        (Ok (Api.mkModelUploadResponse true
               (U "Model uploaded successfully") summary), st')
    | (Raise _, st') => (Raise (HTTPException 500), st')
    end.
Proof. intros H. unfold Api.upload_model. rewrite H. reflexivity. Qed.

End EndpointProperties.

(** C3, as the code has it.  An upload whose file name does not end with a
    recognised extension ([.npy] or [.npz] for trajectories, [.xml] for
    models) is answered with status 400 and leaves the store as it was: its
    save operation is not called, whatever the store is.  Under trajectories
    both ["x.txt"] and ["x.xml"] are rejected that way, and ["x.npy"] and
    ["x.npz"] pass; under models ["x.xml"] passes and ["x.txt"], ["x.npy"]
    are rejected.  An upload that passes is handed to the store once and
    succeeds when the store's save returns (status 500 when it raises). *)
Theorem upload_checks_extension_first :
  forall (store trajectory model : Type)
         (storage : Api.Storage store trajectory model)
         (file : Api.UploadFile) (tag : option str) (st : store),
    (endswith_any (Api.filename file) [U ".npy"; U ".npz"] = false ->
     Api.upload_trajectory file tag st = (Raise (HTTPException 400), st))
    /\ (endswith (Api.filename file) (U ".xml") = false ->
        Api.upload_model file tag st = (Raise (HTTPException 400), st))
    /\ (endswith_any (Api.filename file) [U ".npy"; U ".npz"] = true ->
        Api.upload_trajectory file tag st
        = match Api.save_trajectory (Api.filename file) (Api.file_bytes file)
                  tag st with
          | (Ok summary, st') =>
              (Ok (Api.mkTrajectoryUploadResponse true
                     (U "Trajectory uploaded successfully") summary), st')
          | (Raise _, st') => (Raise (HTTPException 500), st')
          end)
    /\ (endswith (Api.filename file) (U ".xml") = true ->
        Api.upload_model file tag st
        = match Api.save_model (Api.filename file) (Api.file_bytes file)
                  tag st with
          | (Ok summary, st') =>
              (Ok (Api.mkModelUploadResponse true
                     (U "Model uploaded successfully") summary), st')
          | (Raise _, st') => (Raise (HTTPException 500), st')
          end)
    /\ endswith_any (U "x.txt") [U ".npy"; U ".npz"] = false
    /\ endswith_any (U "x.xml") [U ".npy"; U ".npz"] = false
    /\ endswith_any (U "x.npy") [U ".npy"; U ".npz"] = true
    /\ endswith_any (U "x.npz") [U ".npy"; U ".npz"] = true
    /\ endswith (U "x.xml") (U ".xml") = true
    /\ endswith (U "x.txt") (U ".xml") = false
    /\ endswith (U "x.npy") (U ".xml") = false.
Proof.
  intros store trajectory model storage file tag st.
  split; [apply upload_trajectory_rejected|].
  split; [apply upload_model_rejected|].
  split; [apply upload_trajectory_accepted|].
  split; [apply upload_model_accepted|].
  repeat split.
Qed.

Lemma upload_checks_extension_first_witness :
  (* rejected before the store is touched *)
  Api.upload_trajectory (storage := Fixture.recording)
    (Api.mkUpload (U "x.txt") [1; 2; 3]) None []
  = (Raise (HTTPException 400), [])
  /\ Api.upload_model (storage := Fixture.recording)
       (Api.mkUpload (U "x.txt") [1; 2; 3]) None []
     = (Raise (HTTPException 400), [])
  (* accepted and saved once *)
  /\ Api.upload_trajectory (storage := Fixture.recording)
       (Api.mkUpload (U "x.npy") [1; 2; 3]) None []
     = (Ok (Api.mkTrajectoryUploadResponse true
              (U "Trajectory uploaded successfully") (U "x.npy")),
        [Fixture.SaveTrajectory (U "x.npy") [1; 2; 3] None])
  /\ Api.upload_model (storage := Fixture.recording)
       (Api.mkUpload (U "x.xml") [1; 2; 3]) None []
     = (Ok (Api.mkModelUploadResponse true
              (U "Model uploaded successfully") (U "x.xml")),
        [Fixture.SaveModel (U "x.xml") [1; 2; 3] None]).
Proof.
  pose proof (upload_checks_extension_first _ _ _ Fixture.recording
                (Api.mkUpload (U "x.txt") [1; 2; 3]) None []) as Htxt.
  pose proof (upload_checks_extension_first _ _ _ Fixture.recording
                (Api.mkUpload (U "x.npy") [1; 2; 3]) None []) as Hnpy.
  pose proof (upload_checks_extension_first _ _ _ Fixture.recording
                (Api.mkUpload (U "x.xml") [1; 2; 3]) None []) as Hxml.
  destruct Htxt as (Ht1 & Ht2 & _).
  destruct Hnpy as (_ & _ & Hn & _).
  destruct Hxml as (_ & _ & _ & Hx & _).
  split; [apply Ht1; reflexivity|].
  split; [apply Ht2; reflexivity|].
  split; [rewrite Hn by reflexivity; reflexivity|].
  rewrite Hx by reflexivity; reflexivity.
Defined.

(** C3 as stated fails: under trajectories ["x.xml"] does not succeed, it is
    rejected like ["x.txt"], and the store is never asked to save it. *)
Lemma upload_trajectory_rejects_xml :
  Api.upload_trajectory (storage := Fixture.recording)
    (Api.mkUpload (U "x.xml") [60; 109; 117; 106; 111; 99; 111; 47; 62]) None []
  = (Raise (HTTPException 400), []).
Proof. reflexivity. Qed.

(** A store failure on an accepted upload is answered with status 500. *)
Example upload_store_failure :
  Api.upload_trajectory (storage := Fixture.failing)
    (Api.mkUpload (U "x.npy") [1; 2; 3]) None []
  = (Raise (HTTPException 500), [Fixture.SaveTrajectory (U "x.npy") [1; 2; 3] None]).
Proof. reflexivity. Qed.

(** C10.  [list_model_files] answers 404 both when the store returns nothing
    for the identifier and when it returns an empty list; the two answers are
    the same response, so a caller cannot tell a model with an empty
    directory from a missing one.  Only a non-empty listing is returned. *)
Theorem list_model_files_conflates_empty_and_missing :
  forall (store trajectory model : Type)
         (storage : Api.Storage store trajectory model)
         (model_id : str) (st st' : store) (files : option (list str)),
    Api.get_model_directory_files model_id st = (Ok files, st') ->
    (files = None ->
     Api.list_model_files model_id st = (Raise (HTTPException 404), st'))
    /\ (files = Some [] ->
        Api.list_model_files model_id st = (Raise (HTTPException 404), st'))
    /\ (forall f fs, files = Some (f :: fs) ->
        Api.list_model_files model_id st = (Ok (f :: fs), st'))
    /\ (fst (Api.list_model_files model_id st) = Raise (HTTPException 404)
        <-> files = None \/ files = Some []).
Proof.
  intros store trajectory model storage model_id st st' files Hget.
  unfold Api.list_model_files. rewrite Hget.
  split; [intros ->; reflexivity|].
  split; [intros ->; reflexivity|].
  split; [intros f fs ->; reflexivity|].
  destruct files as [[|f fs]|]; simpl; split; intros H;
    try discriminate; auto; destruct H; discriminate.
Qed.

Lemma list_model_files_conflates_empty_and_missing_witness :
  (* a model whose directory holds no file *)
  Api.list_model_files (storage := Fixture.recording) (U "0000000000000000") []
  = (Raise (HTTPException 404),
     [Fixture.GetModelDirectoryFiles (U "0000000000000000")])
  (* an identifier that resolves to nothing *)
  /\ fst (Api.list_model_files (storage := Fixture.recording)
            (U "ffffffffffffffff") [])
     = Raise (HTTPException 404)
  (* a model with files *)
  /\ fst (Api.list_model_files (storage := Fixture.recording)
            (U "3d4b9c7a1d25f302") [])
     = Ok [U "robot.xml"; U "mesh.stl"].
Proof.
  destruct (list_model_files_conflates_empty_and_missing _ _ _ Fixture.recording
              (U "0000000000000000") []
              [Fixture.GetModelDirectoryFiles (U "0000000000000000")]
              (Some []) eq_refl) as (_ & Hempty & _).
  destruct (list_model_files_conflates_empty_and_missing _ _ _ Fixture.recording
              (U "ffffffffffffffff") []
              [Fixture.GetModelDirectoryFiles (U "ffffffffffffffff")]
              None eq_refl) as (Hmissing & _).
  destruct (list_model_files_conflates_empty_and_missing _ _ _ Fixture.recording
              (U "3d4b9c7a1d25f302") []
              [Fixture.GetModelDirectoryFiles (U "3d4b9c7a1d25f302")]
              (Some [U "robot.xml"; U "mesh.stl"]) eq_refl) as (_ & _ & Hfiles & _).
  split; [apply Hempty; reflexivity|].
  split; [rewrite Hmissing by reflexivity; reflexivity|].
  rewrite (Hfiles _ _ eq_refl). reflexivity.
Defined.

(** ** C5, C7: what a successful render leaves behind *)

Section WorldFrames.

Lemma lift_inv {A} (r : result A) (w w' : world) (a : A) :
  lift r w = (Ok a, w') -> r = Ok a /\ w' = w.
Proof. unfold lift. intros H. injection H as -> ->. auto. Qed.

Lemma ret_inv {A} (a b : A) (w w' : world) :
  ret a w = (Ok b, w') -> a = b /\ w' = w.
Proof. unfold ret. intros H. injection H as -> ->. auto. Qed.

Lemma draw_inv (px out : Mujoco.pixels) (w w' : world) :
  draw px w = (Ok out, w') -> out = px /\ w' = w.
Proof.
  unfold draw. destruct (render_fault w px); intros H; [discriminate|].
  injection H as -> ->. auto.
Qed.

Lemma render_inv (r : Mujoco.Renderer) (out : Mujoco.pixels) (w w' : world) :
  render r w = (Ok out, w') -> out = Mujoco.drawn r /\ w' = w.
Proof.
  unfold render. destruct (render_fault w _); intros H; [discriminate|].
  injection H as <- <-. auto.
Qed.

Lemma from_xml_path_world (p : Path) (w w' : world) (r : result Mujoco.MjModel) :
  from_xml_path p w = (r, w') -> w' = w.
Proof.
  unfold from_xml_path.
  destruct (stat (fs w) p) as [[|[]]|]; intros H; injection H as _ <-; reflexivity.
Qed.

Lemma np_load_world (p : Path) (w w' : world) (r : result Numpy.loaded) :
  np_load p w = (r, w') -> w' = w.
Proof.
  unfold np_load.
  destruct (stat (fs w) p) as [[|[]]|]; intros H; injection H as _ <-; reflexivity.
Qed.

Lemma write_file_inv (p : Path) (c : content) (w w' : world) :
  write_file p c w = (Ok tt, w') ->
  w' = with_fs w (<[p := File c]> (fs w)).
Proof.
  unfold write_file.
  destruct (stat (fs w) (parent p)) as [[|?]|]; try discriminate.
  destruct (stat (fs w) p) as [[|?]|]; intros H; try discriminate;
    injection H as <-; reflexivity.
Qed.

Lemma linspace_30_length (m : Z) : length (Numpy.linspace 0 m 30) = 30%nat.
Proof. rewrite linspace_30. reflexivity. Qed.

End WorldFrames.

Section BackendFrames.

Context (model : Mujoco.MjModel) (qpos_data : Numpy.ndarray)
        (camera_name : option str) (distance azimuth elevation : option float)
        (lookat : option (float * float * float)).

Lemma backend_render_frames_inv (frame_indices : list Z) :
  forall (data : Mujoco.MjData) (frames out : list Mujoco.pixels) (w w' : world),
    Backend.render_frames model data qpos_data camera_name
      distance azimuth elevation lookat frame_indices frames w = (Ok out, w') ->
    w' = w
    /\ exists rendered,
         out = frames ++ rendered
         /\ length rendered = length frame_indices
         /\ Forall (has_size 320 320) rendered.
Proof.
  induction frame_indices as [|idx rest IH]; intros data frames out w w' H.
  - apply ret_inv in H as [<- ->]. split; [reflexivity|].
    exists []. rewrite app_nil_r. repeat split. constructor.
  - cbn [Backend.render_frames] in H.
    apply bind_Ok in H as (row & w1 & Hrow & H). apply lift_inv in Hrow as [Hrow ->].
    apply bind_Ok in H as (data' & w1 & Hdata & H). apply lift_inv in Hdata as [Hdata ->].
    apply bind_Ok in H as (px & w1 & Hpx & H).
    destruct (render_with_camera_draws model (Mujoco.mj_forward model data')
                distance azimuth elevation lookat camera_name w) as [c Hc].
    rewrite Hc in Hpx. apply draw_inv in Hpx as [-> ->].
    apply IH in H as (-> & rendered & -> & Hlen & Hall).
    split; [reflexivity|].
    eexists (_ :: rendered). rewrite <- app_assoc. split; [reflexivity|].
    split; [simpl; congruence|].
    constructor; [split; reflexivity | exact Hall].
Qed.

End BackendFrames.

Section ScriptsFrames.

Context (model : Mujoco.MjModel) (qpos_data : Numpy.ndarray).

Lemma update_scene_size (r r' : Mujoco.Renderer) (d : Mujoco.MjData)
    (c : Mujoco.camera_arg) :
  Mujoco.update_scene r d c = Ok r' ->
  Mujoco.r_height r' = Mujoco.r_height r /\ Mujoco.r_width r' = Mujoco.r_width r.
Proof.
  unfold Mujoco.update_scene.
  destruct c as [id|nm|cam].
  - destruct (_ || _)%bool; [discriminate|].
    destruct (id =? -1)%Z; intros H; injection H as <-; auto.
  - destruct (Mujoco.index_of nm _) as [i|]; [|discriminate].
    destruct (_ || _)%bool; [discriminate|].
    destruct (Z.of_nat i =? -1)%Z; intros H; injection H as <-; auto.
  - intros H; injection H as <-; auto.
Qed.

Lemma scripts_render_frames_inv (frame_indices : list Z) :
  forall (data : Mujoco.MjData) (renderer : Mujoco.Renderer)
         (frames out : list Mujoco.pixels) (w w' : world),
    Scripts.render_frames model data renderer qpos_data frame_indices frames w
    = (Ok out, w') ->
    w' = w
    /\ exists rendered,
         out = frames ++ rendered
         /\ length rendered = length frame_indices
         /\ Forall (has_size (Mujoco.r_height renderer) (Mujoco.r_width renderer))
              rendered.
Proof.
  induction frame_indices as [|idx rest IH]; intros data renderer frames out w w' H.
  - apply ret_inv in H as [<- ->]. split; [reflexivity|].
    exists []. rewrite app_nil_r. repeat split. constructor.
  - cbn [Scripts.render_frames] in H.
    apply bind_Ok in H as (row & w1 & Hrow & H). apply lift_inv in Hrow as [Hrow ->].
    apply bind_Ok in H as (data' & w1 & Hdata & H). apply lift_inv in Hdata as [Hdata ->].
    apply bind_Ok in H as (r' & w1 & Hr & H). apply lift_inv in Hr as [Hr ->].
    apply bind_Ok in H as (px & w1 & Hpx & H). apply render_inv in Hpx as [-> ->].
    apply update_scene_size in Hr as [Hh Hw].
    apply IH in H as (-> & rendered & -> & Hlen & Hall).
    split; [reflexivity|].
    eexists (_ :: rendered). rewrite <- app_assoc. split; [reflexivity|].
    split; [simpl; congruence|].
    rewrite Hh, Hw in Hall.
    constructor; [split; simpl; assumption | exact Hall].
Qed.

End ScriptsFrames.

Section Success.

(** What a successful [render_trajectory] did. *)
Lemma backend_render_trajectory_success
    (self : Backend.ThumbnailGenerator) (trajectory_path : Path)
    (model_relative_path : str) (camera_name : option str)
    (distance azimuth elevation : option float)
    (lookat : option (float * float * float)) (w w' : world) :
  Backend.render_trajectory self trajectory_path model_relative_path
    camera_name distance azimuth elevation lookat w = (Ok true, w') ->
  exists (rel_path : Path) (trajectory_id : str)
         (frames : list Mujoco.pixels) (w1 : world),
    relative_to trajectory_path (Backend.trajectories_dir self) = Ok rel_path
    /\ Backend.get_file_id (to_str rel_path) = Ok trajectory_id
    /\ mkdir_parents_exist_ok
         (Backend.thumbnails_dir self /' U "trajectories" // parent rel_path) w
       = (Ok tt, w1)
    /\ length frames = 30%nat
    /\ Forall (has_size 320 320) frames
    /\ w' = with_fs w1
              (<[ Backend.thumbnails_dir self /' U "trajectories"
                    // parent rel_path /' (trajectory_id ++ U ".webp")
                  := File (ImageFile
                             (PIL.mkImage PIL.WEBP frames (Some 100) (Some 0)
                                (Some 85) (Some 6) None)) ]> (fs w1)).
Proof.
  unfold Backend.render_trajectory. cbv zeta. rewrite bind_exists.
  destruct (stat_fault w _); [discriminate|].
  destruct (negb (bool_decide _)); [print_false|].
  destruct (negb (str_eqb _ _)); [print_false|].
  intros H. apply try_except_false_true in H.
  apply bind_Ok in H as (rel & w1 & Hrel & H). apply lift_inv in Hrel as [Hrel ->].
  apply bind_Ok in H as (id & w1 & Hid & H). apply lift_inv in Hid as [Hid ->].
  apply bind_Ok in H as ([] & w1 & Hmk & H).
  printed H. printed H. printed H.
  apply bind_Ok in H as (model & w2 & Hmodel & H).
  apply from_xml_path_world in Hmodel as ->.
  apply bind_Ok in H as (loaded & w2 & Hload & H).
  apply np_load_world in Hload as ->.
  apply bind_Ok in H as (qpos_data & w2 & Hq & H).
  assert (w2 = w1) as ->.
  { destruct loaded; [apply lift_inv in Hq | apply ret_inv in Hq]; tauto. }
  apply bind_Ok in H as (frames & w2 & Hframes & H).
  apply backend_render_frames_inv in Hframes as (-> & rendered & -> & Hlen & Hall).
  simpl app in H.
  destruct rendered as [|first append_images]; [discriminate|].
  apply bind_Ok in H as ([] & w2 & Hwrite & H).
  printed H.
  apply ret_inv in H as [_ ->]. apply write_file_inv in Hwrite as ->.
  exists rel, id, (first :: append_images), w1.
  repeat (split; [assumption || reflexivity|]).
  split.
  { rewrite Hlen. unfold Backend.sample_frame_indices, Backend.TRAJECTORY_FRAMES.
    apply linspace_30_length. }
  split; [exact Hall | reflexivity].
Qed.

(** What a successful [render_model] did. *)
Lemma backend_render_model_success
    (self : Backend.ThumbnailGenerator)
    (model_relative_path : str) (camera_name : option str)
    (distance azimuth elevation : option float)
    (lookat : option (float * float * float)) (w w' : world) :
  Backend.render_model self model_relative_path
    camera_name distance azimuth elevation lookat w = (Ok true, w') ->
  exists (model_id : str) (frame : Mujoco.pixels) (w1 : world),
    Backend.get_file_id model_relative_path = Ok model_id
    /\ mkdir_parents_exist_ok
         (Backend.thumbnails_dir self /' U "models"
            // parent (parse model_relative_path)) w
       = (Ok tt, w1)
    /\ has_size 320 320 frame
    /\ w' = with_fs w1
              (<[ Backend.thumbnails_dir self /' U "models"
                    // parent (parse model_relative_path)
                    /' (model_id ++ U ".webp")
                  := File (ImageFile
                             (PIL.mkImage PIL.WEBP [frame] None None
                                (Some 85) (Some 6) None)) ]> (fs w1)).
Proof.
  unfold Backend.render_model. cbv zeta. rewrite bind_exists.
  destruct (stat_fault w _); [discriminate|].
  destruct (negb (bool_decide _)); [print_false|].
  destruct (negb (str_eqb _ _)); [print_false|].
  intros H. apply try_except_false_true in H.
  apply bind_Ok in H as (id & w1 & Hid & H). apply lift_inv in Hid as [Hid ->].
  apply bind_Ok in H as ([] & w1 & Hmk & H).
  printed H. printed H.
  apply bind_Ok in H as (model & w2 & Hmodel & H).
  apply from_xml_path_world in Hmodel as ->.
  apply bind_Ok in H as (px & w2 & Hpx & H).
  destruct (render_with_camera_draws model
              (Mujoco.mj_forward model (Mujoco.MjData_new model))
              distance azimuth elevation lookat camera_name w1) as [c Hc].
  rewrite Hc in Hpx. apply draw_inv in Hpx as [-> ->].
  apply bind_Ok in H as ([] & w2 & Hwrite & H).
  printed H.
  apply ret_inv in H as [_ ->]. apply write_file_inv in Hwrite as ->.
  exists id, (frame_320 model (Mujoco.mj_forward model (Mujoco.MjData_new model)) c), w1.
  split; [assumption|]. split; [assumption|].
  split; [split; reflexivity|]. reflexivity.
Qed.

(** What a successful [generate_trajectory_gif] did. *)
Lemma scripts_generate_trajectory_gif_success
    (self : Scripts.ThumbnailGenerator) (model_path trajectory_path : Path)
    (w w' : world) :
  Scripts.generate_trajectory_gif self model_path trajectory_path w
  = (Ok true, w') ->
  exists (rel_path : Path) (trajectory_id : str) (frames : list Mujoco.pixels),
    relative_to trajectory_path (Scripts.trajectories_dir self) = Ok rel_path
    /\ Scripts.get_file_id rel_path = Ok trajectory_id
    /\ length frames = 30%nat
    /\ Forall (has_size 160 160) frames
    /\ w' = with_fs w
              (<[ Scripts.thumbnails_dir self /' U "trajectories"
                    /' (trajectory_id ++ U ".gif")
                  := File (ImageFile
                             (PIL.mkImage PIL.GIF frames (Some 100) (Some 0)
                                None None None)) ]> (fs w)).
Proof.
  unfold Scripts.generate_trajectory_gif. cbv zeta.
  intros H. apply try_except_false_true in H.
  apply bind_Ok in H as (rel & w1 & Hrel & H). apply lift_inv in Hrel as [Hrel ->].
  apply bind_Ok in H as (id & w1 & Hid & H). apply lift_inv in Hid as [Hid ->].
  printed H.
  apply bind_Ok in H as (model & w2 & Hmodel & H).
  apply from_xml_path_world in Hmodel as ->.
  apply bind_Ok in H as (loaded & w2 & Hload & H).
  apply np_load_world in Hload as ->.
  apply bind_Ok in H as (qpos_data & w2 & Hq & H).
  assert (w2 = w) as ->.
  { destruct loaded; [apply lift_inv in Hq | apply ret_inv in Hq]; tauto. }
  apply bind_Ok in H as (frames & w2 & Hframes & H).
  apply scripts_render_frames_inv in Hframes as (-> & rendered & -> & Hlen & Hall).
  simpl app in H.
  apply bind_Ok in H as ([] & w2 & Hwrite & H).
  printed H.
  apply ret_inv in H as [_ ->]. apply write_file_inv in Hwrite as ->.
  exists rel, id, rendered.
  split; [assumption|]. split; [assumption|].
  split.
  { rewrite Hlen. unfold Scripts.sample_frame_indices, Scripts.TRAJECTORY_FRAMES.
    apply linspace_30_length. }
  split; [exact Hall | reflexivity].
Qed.

End Success.

Section Layout.

Lemma str_eqb_refl (s : str) : str_eqb s s = true.
Proof. unfold str_eqb. destruct (decide (s = s)); congruence. Qed.

Lemma str_eqb_neq (a b : str) : a <> b -> str_eqb a b = false.
Proof. intros H. unfold str_eqb. destruct (decide (a = b)); congruence. Qed.

Lemma split_without_sep (s : str) :
  forallb (fun c => negb (c =? sep)) s = true -> split sep s = [s].
Proof.
  induction s as [|c s IH]; simpl; intros H; [reflexivity|].
  apply andb_prop in H as [Hc Hs]. apply negb_true_iff in Hc.
  rewrite Hc, (IH Hs). reflexivity.
Qed.

(** A file name without separator that is neither empty nor ["."] is a
    path of one component. *)
Lemma parse_single_name (s : str) :
  forallb (fun c => negb (c =? sep)) s = true ->
  (2 <= length s)%nat ->
  parse s = mkPath [] [s].
Proof.
  intros Hsep Hlen. unfold parse. rewrite (split_without_sep s Hsep).
  destruct s as [|c [|c' s]]; simpl in Hlen; try lia.
  simpl in Hsep. apply andb_prop in Hsep as [Hc _]. apply negb_true_iff in Hc.
  unfold splitroot. rewrite Hc. simpl.
  rewrite !str_eqb_neq by discriminate. reflexivity.
Qed.

Lemma lower_hex_not_sep (s : str) :
  forallb is_lower_hex s = true ->
  forallb (fun c => negb (c =? sep)) s = true.
Proof.
  induction s as [|c s IH]; simpl; intros H; [reflexivity|].
  apply andb_prop in H as [Hc Hs]. rewrite (IH Hs), andb_true_r.
  apply negb_true_iff, N.eqb_neq. unfold is_lower_hex, sep in *.
  apply orb_prop in Hc as [Hc|Hc]; apply andb_prop in Hc as [H1 H2];
    apply N.leb_le in H1, H2; lia.
Qed.

Lemma get_file_id_shape (p id : str) :
  Backend.get_file_id p = Ok id ->
  length id = 16%nat /\ forallb is_lower_hex id = true.
Proof.
  unfold Backend.get_file_id. destruct (encode p) as [e|b]; [discriminate|].
  intros H.
  assert (id = firstn 16 (MD5.hexdigest b)) as -> by congruence.
  split.
  - rewrite length_take, hexdigest_length. reflexivity.
  - apply forallb_firstn, hexdigest_lower_hex.
Qed.

Lemma scripts_get_file_id_eq (fp : Path) :
  Scripts.get_file_id fp = Backend.get_file_id (to_str fp).
Proof. reflexivity. Qed.

(** The thumbnail's file name is a single path component. *)
Lemma parse_thumbnail_name (p id ext : str) :
  Backend.get_file_id p = Ok id ->
  forallb (fun c => negb (c =? sep)) ext = true ->
  parse (id ++ ext) = mkPath [] [id ++ ext].
Proof.
  intros Hid Hext. apply get_file_id_shape in Hid as [Hlen Hhex].
  apply parse_single_name.
  - rewrite forallb_app, (lower_hex_not_sep id Hhex), Hext. reflexivity.
  - rewrite length_app. lia.
Qed.

Lemma strip_prefix_app (pre l : list str) : strip_prefix pre (pre ++ l) = Some l.
Proof.
  induction pre as [|x pre IH]; simpl; [reflexivity|].
  rewrite str_eqb_refl. exact IH.
Qed.

Lemma relative_to_join (base : Path) (ps : list str) :
  relative_to (base // mkPath [] ps) base = Ok (mkPath [] ps).
Proof.
  unfold relative_to, join. simpl.
  rewrite str_eqb_refl, strip_prefix_app. reflexivity.
Qed.

Lemma backend_init_inv (data_dir : Path) (self : Backend.ThumbnailGenerator)
    (w0 w1 : world) :
  Backend.init data_dir w0 = (Ok self, w1) ->
  Backend.trajectories_dir self
  = mkPath (root data_dir) (parts data_dir ++ [U "trajectories"])
  /\ Backend.models_dir self
     = mkPath (root data_dir) (parts data_dir ++ [U "models"])
  /\ Backend.thumbnails_dir self
     = mkPath (root data_dir) (parts data_dir ++ [U "thumbnails"]).
Proof.
  unfold Backend.init. cbv zeta. intros H.
  apply bind_Ok in H as (? & ? & _ & H). apply bind_Ok in H as (? & ? & _ & H).
  apply ret_inv in H as [<- _]. repeat split.
Qed.

Lemma scripts_init_inv (data_dir : Path) (self : Scripts.ThumbnailGenerator)
    (w0 w1 : world) :
  Scripts.init data_dir w0 = (Ok self, w1) ->
  Scripts.trajectories_dir self
  = mkPath (root data_dir) (parts data_dir ++ [U "trajectories"])
  /\ Scripts.models_dir self
     = mkPath (root data_dir) (parts data_dir ++ [U "models"])
  /\ Scripts.thumbnails_dir self
     = mkPath (root data_dir) (parts data_dir ++ [U "thumbnails"]).
Proof.
  unfold Scripts.init. cbv zeta. intros H.
  apply bind_Ok in H as (? & ? & _ & H). apply bind_Ok in H as (? & ? & _ & H).
  apply ret_inv in H as [<- _]. repeat split.
Qed.

Lemma parent_of_asset (sub : list str) (asset : str) :
  parent (mkPath [] (sub ++ [asset])) = mkPath [] sub.
Proof. unfold parent. simpl. rewrite removelast_last. reflexivity. Qed.

End Layout.

(** C5, as the code has it.  In [backend/scripts/generate_thumbnails.py] the
    thumbnail of the trajectory (resp. model) at relative path
    [sub/.../asset] is written to
    [data_dir/thumbnails/trajectories/sub/.../<id>.webp] (resp.
    [.../models/sub/.../<id>.webp]), [<id>] being the asset's identifier: the
    asset's relative directory is mirrored under the cache root.  In
    [scripts/generate_thumbnails.py] the trajectory's thumbnail is written to
    [data_dir/thumbnails/trajectories/<id>.gif], directly under the category
    directory whatever [sub] is. *)
Theorem thumbnail_layout :
  forall (data_dir : Path) (sub : list str) (asset : str),
    (forall (w0 w : world) (self : Backend.ThumbnailGenerator)
            (model_relative_path : str) (camera_name : option str)
            (distance azimuth elevation : option float)
            (lookat : option (float * float * float)),
        let run :=
          Backend.render_trajectory self
            (Backend.trajectories_dir self // mkPath [] (sub ++ [asset]))
            model_relative_path camera_name distance azimuth elevation lookat w in
        fst (Backend.init data_dir w0) = Ok self ->
        fst run = Ok true ->
        exists (id : str) (img : PIL.image_file),
          Backend.get_file_id (to_str (mkPath [] (sub ++ [asset]))) = Ok id
          /\ image_at (snd run)
               (mkPath (root data_dir)
                  (parts data_dir ++ [U "thumbnails"; U "trajectories"]
                     ++ sub ++ [id ++ U ".webp"]))
             = Some img)
    /\ (forall (w0 w : world) (self : Backend.ThumbnailGenerator)
               (model_relative_path : str) (camera_name : option str)
               (distance azimuth elevation : option float)
               (lookat : option (float * float * float)),
           let run :=
             Backend.render_model self model_relative_path
               camera_name distance azimuth elevation lookat w in
           fst (Backend.init data_dir w0) = Ok self ->
           parse model_relative_path = mkPath [] (sub ++ [asset]) ->
           fst run = Ok true ->
           exists (id : str) (img : PIL.image_file),
             Backend.get_file_id model_relative_path = Ok id
             /\ image_at (snd run)
                  (mkPath (root data_dir)
                     (parts data_dir ++ [U "thumbnails"; U "models"]
                        ++ sub ++ [id ++ U ".webp"]))
                = Some img)
    /\ (forall (w0 w : world) (self : Scripts.ThumbnailGenerator)
               (model_path : Path),
           let run :=
             Scripts.generate_trajectory_gif self model_path
               (Scripts.trajectories_dir self // mkPath [] (sub ++ [asset])) w in
           fst (Scripts.init data_dir w0) = Ok self ->
           fst run = Ok true ->
           exists (id : str) (img : PIL.image_file),
             Scripts.get_file_id (mkPath [] (sub ++ [asset])) = Ok id
             /\ image_at (snd run)
                  (mkPath (root data_dir)
                     (parts data_dir
                        ++ [U "thumbnails"; U "trajectories"; id ++ U ".gif"]))
                = Some img).
Proof.
  intros data_dir sub asset. split; [|split].
  - intros w0 w self mrp cn d a e l run Hinit Hrun.
    destruct (Backend.init data_dir w0) as [r0 w1] eqn:Einit.
    simpl in Hinit. subst r0.
    apply backend_init_inv in Einit as (_ & _ & Hthumbs).
    destruct run as [r w'] eqn:Erun. simpl in Hrun |- *. subst r run.
    apply backend_render_trajectory_success in Erun
      as (rel & id & frames & w2 & Hrel & Hid & _ & _ & _ & ->).
    rewrite relative_to_join in Hrel. injection Hrel as <-.
    eexists id, _. split; [exact Hid|].
    unfold image_at, with_fs. cbn [fs].
    rewrite parent_of_asset, Hthumbs.
    unfold join_str. rewrite (parse_thumbnail_name _ _ (U ".webp") Hid eq_refl).
    change (parse (U "trajectories")) with (mkPath [] [U "trajectories"]).
    unfold join. cbn [root parts].
    rewrite <- !app_assoc. cbn [app].
    rewrite lookup_insert_eq. reflexivity.
  - intros w0 w self mrp cn d a e l run Hinit Hparse Hrun.
    destruct (Backend.init data_dir w0) as [r0 w1] eqn:Einit.
    simpl in Hinit. subst r0.
    apply backend_init_inv in Einit as (_ & _ & Hthumbs).
    destruct run as [r w'] eqn:Erun. simpl in Hrun |- *. subst r run.
    apply backend_render_model_success in Erun
      as (id & frame & w2 & Hid & _ & _ & ->).
    eexists id, _. split; [exact Hid|].
    unfold image_at, with_fs. cbn [fs].
    rewrite Hparse, parent_of_asset, Hthumbs.
    unfold join_str. rewrite (parse_thumbnail_name _ _ (U ".webp") Hid eq_refl).
    change (parse (U "models")) with (mkPath [] [U "models"]).
    unfold join. cbn [root parts].
    rewrite <- !app_assoc. cbn [app].
    rewrite lookup_insert_eq. reflexivity.
  - intros w0 w self mp run Hinit Hrun.
    destruct (Scripts.init data_dir w0) as [r0 w1] eqn:Einit.
    simpl in Hinit. subst r0.
    apply scripts_init_inv in Einit as (_ & _ & Hthumbs).
    destruct run as [r w'] eqn:Erun. simpl in Hrun |- *. subst r run.
    apply scripts_generate_trajectory_gif_success in Erun
      as (rel & id & frames & Hrel & Hid & _ & _ & ->).
    rewrite relative_to_join in Hrel. injection Hrel as <-.
    eexists id, _. split; [exact Hid|].
    unfold image_at, with_fs. cbn [fs].
    rewrite Hthumbs.
    rewrite scripts_get_file_id_eq in Hid.
    unfold join_str. rewrite (parse_thumbnail_name _ _ (U ".gif") Hid eq_refl).
    change (parse (U "trajectories")) with (mkPath [] [U "trajectories"]).
    unfold join. cbn [root parts].
    rewrite <- !app_assoc. cbn [app].
    rewrite lookup_insert_eq. reflexivity.
Qed.

Lemma thumbnail_layout_witness :
  (exists (id : str) (img : PIL.image_file),
      Backend.get_file_id
        (to_str (mkPath [] ([U "sub"; U "dir"] ++ [U "asset.npy"]))) = Ok id
      /\ image_at
           (snd (Backend.render_trajectory Fixture.backend_self
                   (Backend.trajectories_dir Fixture.backend_self
                      // mkPath [] ([U "sub"; U "dir"] ++ [U "asset.npy"]))
                   (U "robot/robot.xml") None None None None None Fixture.w1))
           (mkPath (root (Fixture.P "data"))
              (parts (Fixture.P "data") ++ [U "thumbnails"; U "trajectories"]
                 ++ [U "sub"; U "dir"] ++ [id ++ U ".webp"]))
         = Some img)
  /\ (exists (id : str) (img : PIL.image_file),
         Backend.get_file_id (U "robot/robot.xml") = Ok id
         /\ image_at
              (snd (Backend.render_model Fixture.backend_self
                      (U "robot/robot.xml") None None None None None Fixture.w1))
              (mkPath (root (Fixture.P "data"))
                 (parts (Fixture.P "data") ++ [U "thumbnails"; U "models"]
                    ++ [U "robot"] ++ [id ++ U ".webp"]))
            = Some img)
  /\ (exists (id : str) (img : PIL.image_file),
         Scripts.get_file_id (mkPath [] ([U "sub"; U "dir"] ++ [U "asset.npy"]))
         = Ok id
         /\ image_at
              (snd (Scripts.generate_trajectory_gif Fixture.scripts_self
                      (Fixture.P "data/models/robot/robot.xml")
                      (Scripts.trajectories_dir Fixture.scripts_self
                         // mkPath [] ([U "sub"; U "dir"] ++ [U "asset.npy"]))
                      Fixture.w1))
              (mkPath (root (Fixture.P "data"))
                 (parts (Fixture.P "data")
                    ++ [U "thumbnails"; U "trajectories"; id ++ U ".gif"]))
            = Some img).
Proof.
  split; [|split].
  - apply (proj1 (thumbnail_layout (Fixture.P "data") [U "sub"; U "dir"]
                    (U "asset.npy")) Fixture.w0).
    + vm_compute; reflexivity.
    + vm_compute; reflexivity.
  - apply (proj1 (proj2 (thumbnail_layout (Fixture.P "data") [U "robot"]
                           (U "robot.xml"))) Fixture.w0).
    + vm_compute; reflexivity.
    + vm_compute; reflexivity.
    + vm_compute; reflexivity.
  - apply (proj2 (proj2 (thumbnail_layout (Fixture.P "data") [U "sub"; U "dir"]
                           (U "asset.npy"))) Fixture.w0).
    + vm_compute; reflexivity.
    + vm_compute; reflexivity.
Defined.

(** C5 as stated fails for [scripts/generate_thumbnails.py]: rendering the
    trajectory [sub/dir/asset.npy] succeeds and leaves its thumbnail at
    [data/thumbnails/trajectories/cfa6cf6127c5c152.gif]; nothing is written
    under [data/thumbnails/trajectories/sub]. *)
Lemma scripts_thumbnail_is_not_mirrored :
  fst (Scripts.generate_trajectory_gif Fixture.scripts_self
         (Fixture.P "data/models/robot/robot.xml")
         (Fixture.P "data/trajectories/sub/dir/asset.npy") Fixture.w1)
  = Ok true
  /\ Fixture.paths_under (Fixture.P "data/thumbnails/trajectories")
       (fs (snd (Scripts.generate_trajectory_gif Fixture.scripts_self
                   (Fixture.P "data/models/robot/robot.xml")
                   (Fixture.P "data/trajectories/sub/dir/asset.npy") Fixture.w1)))
     = [Fixture.P "data/thumbnails/trajectories/cfa6cf6127c5c152.gif"]
  /\ Fixture.paths_under (Fixture.P "data/thumbnails/trajectories/sub")
       (fs (snd (Scripts.generate_trajectory_gif Fixture.scripts_self
                   (Fixture.P "data/models/robot/robot.xml")
                   (Fixture.P "data/trajectories/sub/dir/asset.npy") Fixture.w1)))
     = [].
Proof. repeat split; vm_compute; reflexivity. Qed.

(** The backend script does mirror it. *)
Example backend_thumbnail_is_mirrored :
  Fixture.paths_under (Fixture.P "data/thumbnails/trajectories")
    (fs (snd (Backend.render_trajectory Fixture.backend_self
                (Fixture.P "data/trajectories/sub/dir/asset.npy")
                (U "robot/robot.xml") None None None None None Fixture.w1)))
  = [Fixture.P "data/thumbnails/trajectories/sub/dir";
     Fixture.P "data/thumbnails/trajectories/sub";
     Fixture.P "data/thumbnails/trajectories/sub/dir/cfa6cf6127c5c152.webp"].
Proof. vm_compute. reflexivity. Qed.

(** C7, as the code has it.  A trajectory animation written by
    [backend/scripts/generate_thumbnails.py] is a WebP file of exactly 30
    frames of 320 x 320 pixels, saved with [duration=100], [loop=0] (loop
    forever), [quality=85] and [method=6], under the name [<id>.webp], [<id>]
    being the trajectory's identifier.  The one written by
    [scripts/generate_thumbnails.py] is a GIF file of exactly 30 frames of
    160 x 160 pixels, saved with [duration=100] and [loop=0], under the name
    [<id>.gif]; that call passes no quality and no method. *)
Theorem animation_encoding :
  (forall (self : Backend.ThumbnailGenerator) (trajectory_path : Path)
          (model_relative_path : str) (camera_name : option str)
          (distance azimuth elevation : option float)
          (lookat : option (float * float * float)) (w : world),
      let run :=
        Backend.render_trajectory self trajectory_path model_relative_path
          camera_name distance azimuth elevation lookat w in
      fst run = Ok true ->
      exists (rel_path : Path) (id : str) (frames : list Mujoco.pixels),
        relative_to trajectory_path (Backend.trajectories_dir self) = Ok rel_path
        /\ Backend.get_file_id (to_str rel_path) = Ok id
        /\ image_at (snd run)
             (Backend.thumbnails_dir self /' U "trajectories"
                // parent rel_path /' (id ++ U ".webp"))
           = Some (PIL.mkImage PIL.WEBP frames (Some 100) (Some 0)
                     (Some 85) (Some 6) None)
        /\ length frames = 30%nat
        /\ Forall (has_size 320 320) frames)
  /\ (forall (self : Scripts.ThumbnailGenerator)
             (model_path trajectory_path : Path) (w : world),
         let run :=
           Scripts.generate_trajectory_gif self model_path trajectory_path w in
         fst run = Ok true ->
         exists (rel_path : Path) (id : str) (frames : list Mujoco.pixels),
           relative_to trajectory_path (Scripts.trajectories_dir self)
           = Ok rel_path
           /\ Scripts.get_file_id rel_path = Ok id
           /\ image_at (snd run)
                (Scripts.thumbnails_dir self /' U "trajectories"
                   /' (id ++ U ".gif"))
              = Some (PIL.mkImage PIL.GIF frames (Some 100) (Some 0)
                        None None None)
           /\ length frames = 30%nat
           /\ Forall (has_size 160 160) frames).
Proof.
  split.
  - intros self tp mrp cn d a e l w run Hrun.
    destruct run as [r w'] eqn:Erun. simpl in Hrun |- *. subst r run.
    apply backend_render_trajectory_success in Erun
      as (rel & id & frames & w2 & Hrel & Hid & _ & Hlen & Hall & ->).
    exists rel, id, frames.
    split; [exact Hrel|]. split; [exact Hid|].
    split; [|split; assumption].
    unfold image_at, with_fs. cbn [fs]. rewrite lookup_insert_eq. reflexivity.
  - intros self mp tp w run Hrun.
    destruct run as [r w'] eqn:Erun. simpl in Hrun |- *. subst r run.
    apply scripts_generate_trajectory_gif_success in Erun
      as (rel & id & frames & Hrel & Hid & Hlen & Hall & ->).
    exists rel, id, frames.
    split; [exact Hrel|]. split; [exact Hid|].
    split; [|split; assumption].
    unfold image_at, with_fs. cbn [fs]. rewrite lookup_insert_eq. reflexivity.
Qed.

Lemma animation_encoding_witness :
  (exists (rel_path : Path) (id : str) (frames : list Mujoco.pixels),
      relative_to (Fixture.P "data/trajectories/locomotion/walk.npy")
        (Backend.trajectories_dir Fixture.backend_self) = Ok rel_path
      /\ Backend.get_file_id (to_str rel_path) = Ok id
      /\ image_at
           (snd (Backend.render_trajectory Fixture.backend_self
                   (Fixture.P "data/trajectories/locomotion/walk.npy")
                   (U "robot/robot.xml") None None None None None Fixture.w1))
           (Backend.thumbnails_dir Fixture.backend_self /' U "trajectories"
              // parent rel_path /' (id ++ U ".webp"))
         = Some (PIL.mkImage PIL.WEBP frames (Some 100) (Some 0)
                   (Some 85) (Some 6) None)
      /\ length frames = 30%nat
      /\ Forall (has_size 320 320) frames)
  /\ (exists (rel_path : Path) (id : str) (frames : list Mujoco.pixels),
         relative_to (Fixture.P "data/trajectories/locomotion/walk.npy")
           (Scripts.trajectories_dir Fixture.scripts_self) = Ok rel_path
         /\ Scripts.get_file_id rel_path = Ok id
         /\ image_at
              (snd (Scripts.generate_trajectory_gif Fixture.scripts_self
                      (Fixture.P "data/models/robot/robot.xml")
                      (Fixture.P "data/trajectories/locomotion/walk.npy")
                      Fixture.w1))
              (Scripts.thumbnails_dir Fixture.scripts_self /' U "trajectories"
                 /' (id ++ U ".gif"))
            = Some (PIL.mkImage PIL.GIF frames (Some 100) (Some 0)
                      None None None)
         /\ length frames = 30%nat
         /\ Forall (has_size 160 160) frames).
Proof.
  split.
  - apply (proj1 animation_encoding). vm_compute; reflexivity.
  - apply (proj2 animation_encoding). vm_compute; reflexivity.
Defined.

(** C7 as stated fails for the 160 x 160 script: the animation it writes for
    [locomotion/walk.npy] is a GIF saved without any quality or method
    setting. *)
Lemma scripts_animation_has_no_quality :
  fst (Scripts.generate_trajectory_gif Fixture.scripts_self
         (Fixture.P "data/models/robot/robot.xml")
         (Fixture.P "data/trajectories/locomotion/walk.npy") Fixture.w1)
  = Ok true
  /\ option_map
       (fun img => (PIL.img_format img, PIL.img_quality img, PIL.img_method img,
                    PIL.img_duration img, PIL.img_loop img,
                    length (PIL.img_frames img)))
       (image_at
          (snd (Scripts.generate_trajectory_gif Fixture.scripts_self
                  (Fixture.P "data/models/robot/robot.xml")
                  (Fixture.P "data/trajectories/locomotion/walk.npy")
                  Fixture.w1))
          (Fixture.P "data/thumbnails/trajectories/8dd65a9be6716014.gif"))
     = Some (PIL.GIF, None, None, Some 100, Some 0, 30%nat).
Proof. split; vm_compute; reflexivity. Qed.

(** The same trajectory through the 320 x 320 script. *)
Example backend_animation_parameters :
  option_map
    (fun img => (PIL.img_format img, PIL.img_quality img, PIL.img_method img,
                 PIL.img_duration img, PIL.img_loop img,
                 length (PIL.img_frames img)))
    (image_at
       (snd (Backend.render_trajectory Fixture.backend_self
               (Fixture.P "data/trajectories/locomotion/walk.npy")
               (U "robot/robot.xml") None None None None None Fixture.w1))
       (Fixture.P "data/thumbnails/trajectories/locomotion/8dd65a9be6716014.webp"))
  = Some (PIL.WEBP, Some 85, Some 6, Some 100, Some 0, 30%nat).
Proof. vm_compute. reflexivity. Qed.

(** ** C8: the field read from a multi-array container *)

Lemma scripts_npz_needs_qpos
    (self : Scripts.ThumbnailGenerator) (model_path trajectory_path : Path)
    (fields : gmap str Numpy.ndarray) (w : world) :
  stat (fs w) trajectory_path = Some (File (NpzArchive fields)) ->
  fields !! U "qpos" = None ->
  fst (Scripts.generate_trajectory_gif self model_path trajectory_path w)
  <> Ok true.
Proof.
  intros Hstat Hfield Htrue.
  destruct (Scripts.generate_trajectory_gif self model_path trajectory_path w)
    as [r w'] eqn:Erun.
  cbn [fst] in Htrue. subst r.
  unfold Scripts.generate_trajectory_gif in Erun. cbv zeta in Erun.
  apply try_except_false_true in Erun.
  apply bind_Ok in Erun as (rel & w1 & Hrel & H). apply lift_inv in Hrel as [_ ->].
  apply bind_Ok in H as (id & w1 & Hid & H). apply lift_inv in Hid as [_ ->].
  printed H.
  apply bind_Ok in H as (model & w1 & Hmodel & H).
  apply from_xml_path_world in Hmodel as ->.
  apply bind_Ok in H as (loaded & w1 & Hload & H).
  unfold np_load in Hload. rewrite Hstat in Hload. injection Hload as <- <-.
  apply bind_Ok in H as (qpos_data & w1 & Hq & _).
  apply lift_inv in Hq as [Hq _].
  unfold Numpy.npz_getitem in Hq. rewrite Hfield in Hq. discriminate.
Qed.

(** C8 fails on the code: the two pipelines read different fields.  The
    container [sub/dir/asset.npz] holds its poses under ["qpos_traj"]; the
    backend script reads that field and renders the trajectory, while
    [scripts/generate_thumbnails.py] asks for ["qpos"], gets a [KeyError] and
    gives up on the same file. *)
Theorem pipelines_read_different_npz_fields :
  stat Fixture.files (Fixture.P "data/trajectories/sub/dir/asset.npz")
  = Some (File (NpzArchive {[ U "qpos_traj" := Fixture.frames_of 40 ]}))
  /\ Numpy.npz_getitem {[ U "qpos_traj" := Fixture.frames_of 40 ]} (U "qpos_traj")
     = Ok (Fixture.frames_of 40)
  /\ Numpy.npz_getitem {[ U "qpos_traj" := Fixture.frames_of 40 ]} (U "qpos")
     = Raise (KeyError (U "qpos"))
  /\ fst (Backend.render_trajectory Fixture.backend_self
            (Fixture.P "data/trajectories/sub/dir/asset.npz")
            (U "robot/robot.xml") None None None None None Fixture.w1)
     = Ok true
  /\ fst (Scripts.generate_trajectory_gif Fixture.scripts_self
            (Fixture.P "data/models/robot/robot.xml")
            (Fixture.P "data/trajectories/sub/dir/asset.npz") Fixture.w1)
     = Ok false.
Proof. repeat split; vm_compute; reflexivity. Qed.

(** ** How the pipelines change the world *)

Section Frames.

Context (R : world -> world -> Prop).
Context (R_refl : forall w, R w w).
Context (R_trans : forall w1 w2 w3, R w1 w2 -> R w2 w3 -> R w1 w3).

Lemma keeps_ret {A} (a : A) : keeps R (ret a).
Proof. intros w r w' H. injection H as _ <-. apply R_refl. Qed.

Lemma keeps_raise {A} (e : exn) : keeps R (@raise A e).
Proof. intros w r w' H. injection H as _ <-. apply R_refl. Qed.

Lemma keeps_lift {A} (x : result A) : keeps R (lift x).
Proof. intros w r w' H. injection H as _ <-. apply R_refl. Qed.

Lemma keeps_bind {A B} (c : M A) (k : A -> M B) :
  keeps R c -> (forall a, keeps R (k a)) -> keeps R (bind c k).
Proof.
  intros Hc Hk w r w' H. unfold bind in H.
  destruct (c w) as [[e|a] w1] eqn:Ec.
  - injection H as _ <-. eapply Hc, Ec.
  - eapply R_trans; [eapply Hc, Ec | eapply Hk, H].
Qed.

(** After [lift r] the continuation runs on a value [r] is [Ok] of. *)
Lemma keeps_bind_lift {A B} (r : result A) (k : A -> M B) :
  (forall a, r = Ok a -> keeps R (k a)) -> keeps R (bind (lift r) k).
Proof.
  intros Hk w x w' H. unfold bind, lift in H. destruct r as [e|a].
  - injection H as _ <-. apply R_refl.
  - eapply Hk; [reflexivity | exact H].
Qed.

Lemma keeps_try_except {A} (body : M A) (handler : exn -> M A) :
  keeps R body -> (forall e, keeps R (handler e)) ->
  keeps R (try_except body handler).
Proof.
  intros Hb Hh w r w' H. unfold try_except in H.
  destruct (body w) as [[e|a] w1] eqn:Eb.
  - eapply R_trans; [eapply Hb, Eb | eapply Hh, H].
  - injection H as _ <-. eapply Hb, Eb.
Qed.

Lemma keeps_try_except_KeyError {A} (body handler : M A) :
  keeps R body -> keeps R handler ->
  keeps R (try_except_KeyError body handler).
Proof.
  intros Hb Hh w r w' H. unfold try_except_KeyError in H.
  destruct (body w) as [[e|a] w1] eqn:Eb.
  - destruct (is_KeyError e).
    + eapply R_trans; [eapply Hb, Eb | eapply Hh, H].
    + injection H as _ <-. eapply Hb, Eb.
  - injection H as _ <-. eapply Hb, Eb.
Qed.

Lemma keeps_if {A} (b : bool) (c1 c2 : M A) :
  keeps R c1 -> keeps R c2 -> keeps R (if b then c1 else c2).
Proof. destruct b; auto. Qed.

(** The operations that only read the world. *)
Lemma keeps_exists (p : Path) : keeps R (exists_ p).
Proof.
  intros w r w' H. unfold exists_ in H.
  destruct (stat_fault w p); injection H as _ <-; apply R_refl.
Qed.

Lemma keeps_is_dir (p : Path) : keeps R (is_dir p).
Proof.
  intros w r w' H. unfold is_dir in H.
  destruct (stat_fault w p); injection H as _ <-; apply R_refl.
Qed.

Lemma keeps_print (msg : message) : keeps R (print msg).
Proof.
  intros w r w' H. unfold print in H.
  destruct (print_fault w msg); injection H as _ <-; apply R_refl.
Qed.

Lemma keeps_glob_suffix (p : Path) (ext : str) : keeps R (glob_suffix p ext).
Proof. intros w r w' H. injection H as _ <-. apply R_refl. Qed.

Lemma keeps_rglob (p : Path) (f : str -> bool) : keeps R (rglob p f).
Proof. intros w r w' H. injection H as _ <-. apply R_refl. Qed.

Lemma keeps_np_load (p : Path) : keeps R (np_load p).
Proof. intros w r w' H. apply np_load_world in H as ->. apply R_refl. Qed.

Lemma keeps_from_xml_path (p : Path) : keeps R (from_xml_path p).
Proof. intros w r w' H. apply from_xml_path_world in H as ->. apply R_refl. Qed.

Lemma keeps_render (r : Mujoco.Renderer) : keeps R (render r).
Proof.
  intros w x w' H. unfold render in H.
  destruct (render_fault w _); injection H as _ <-; apply R_refl.
Qed.

Lemma keeps_draw (px : Mujoco.pixels) : keeps R (draw px).
Proof.
  intros w x w' H. unfold draw in H.
  destruct (render_fault w _); injection H as _ <-; apply R_refl.
Qed.

Lemma keeps_render_with_camera (model : Mujoco.MjModel) (data : Mujoco.MjData)
    (camera_name : option str) (distance azimuth elevation : option float)
    (lookat : option (float * float * float)) :
  keeps R (Backend.render_with_camera model data camera_name
             distance azimuth elevation lookat).
Proof.
  intros w r w' H.
  destruct (render_with_camera_draws model data distance azimuth elevation
              lookat camera_name w) as [c Hc].
  rewrite Hc in H. eapply keeps_draw, H.
Qed.

Lemma keeps_backend_render_frames (model : Mujoco.MjModel)
    (qpos_data : Numpy.ndarray) (camera_name : option str)
    (distance azimuth elevation : option float)
    (lookat : option (float * float * float)) (frame_indices : list Z) :
  forall (data : Mujoco.MjData) (frames : list Mujoco.pixels),
    keeps R (Backend.render_frames model data qpos_data camera_name
               distance azimuth elevation lookat frame_indices frames).
Proof.
  induction frame_indices as [|idx rest IH]; intros data frames;
    cbn [Backend.render_frames].
  - apply keeps_ret.
  - apply keeps_bind; [apply keeps_lift|]. intros row.
    apply keeps_bind; [apply keeps_lift|]. intros data'.
    apply keeps_bind; [apply keeps_render_with_camera|]. intros px.
    apply IH.
Qed.

Lemma keeps_scripts_render_frames (model : Mujoco.MjModel)
    (qpos_data : Numpy.ndarray) (frame_indices : list Z) :
  forall (data : Mujoco.MjData) (renderer : Mujoco.Renderer)
         (frames : list Mujoco.pixels),
    keeps R (Scripts.render_frames model data renderer qpos_data
               frame_indices frames).
Proof.
  induction frame_indices as [|idx rest IH]; intros data renderer frames;
    cbn [Scripts.render_frames].
  - apply keeps_ret.
  - apply keeps_bind; [apply keeps_lift|]. intros row.
    apply keeps_bind; [apply keeps_lift|]. intros data'.
    apply keeps_bind; [apply keeps_lift|]. intros renderer'.
    apply keeps_bind; [apply keeps_render|]. intros px.
    apply IH.
Qed.

(** Runs that raise. *)
Lemma raising_bind {A B} (c : M A) (k : A -> M B) :
  keeps R c -> (forall a, keeps_when_raising R (k a)) ->
  keeps_when_raising R (bind c k).
Proof.
  intros Hc Hk w e w' H. unfold bind in H.
  destruct (c w) as [[e1|a] w1] eqn:Ec.
  - injection H as _ <-. eapply Hc, Ec.
  - eapply R_trans; [eapply Hc, Ec | eapply Hk, H].
Qed.

Lemma raising_keeps {A} (c : M A) : keeps R c -> keeps_when_raising R c.
Proof. intros Hc w e w' H. eapply Hc, H. Qed.

End Frames.

Section Directories.

Lemma same_environment_refl (w : world) : same_environment w w.
Proof. repeat split. Qed.

Lemma same_environment_trans (w1 w2 w3 : world) :
  same_environment w1 w2 -> same_environment w2 w3 -> same_environment w1 w3.
Proof. intros (? & ? & ?) (? & ? & ?). repeat split; congruence. Qed.

Lemma same_environment_with_fs (w : world) (f : filesystem) :
  same_environment w (with_fs w f).
Proof. repeat split. Qed.

Lemma same_environment_quiet (w w' : world) :
  same_environment w w' -> quiet w -> quiet w'.
Proof. intros (_ & _ & Hp) Hq msg. rewrite Hp. apply Hq. Qed.

Lemma only_new_dirs_refl (w : world) : only_new_dirs w w.
Proof. split; [apply same_environment_refl|]. split; auto. Qed.

Lemma only_new_dirs_trans (w1 w2 w3 : world) :
  only_new_dirs w1 w2 -> only_new_dirs w2 w3 -> only_new_dirs w1 w3.
Proof.
  intros (Hf1 & Hk1 & Hn1) (Hf2 & Hk2 & Hn2).
  split; [eapply same_environment_trans; eassumption|]. split.
  - auto.
  - intros p n H. destruct (Hn2 p n H) as [H2|]; auto.
Qed.

Lemma mkdirs_keeps (r : str) (todo : list str) :
  forall (done : list str) (f f' : filesystem),
    mkdirs r done todo f = Ok f' ->
    (forall p n, f !! p = Some n -> f' !! p = Some n)
    /\ (forall p n, f' !! p = Some n -> f !! p = Some n \/ n = Dir).
Proof.
  induction todo as [|x todo IH]; intros done f f' H; cbn [mkdirs] in H.
  - injection H as <-. auto.
  - destruct (f !! mkPath r (done ++ [x])) as [[|c]|] eqn:Ehere.
    + eapply IH, H.
    + destruct todo; discriminate.
    + apply IH in H as [Hk Hn]. split.
      * intros p n Hp. apply Hk. rewrite lookup_insert_ne; [exact Hp|].
        intros <-. congruence.
      * intros p n Hp. destruct (Hn p n Hp) as [Hp'|]; [|auto].
        destruct (decide (mkPath r (done ++ [x]) = p)) as [<-|Hne].
        -- rewrite lookup_insert_eq in Hp'. right. congruence.
        -- rewrite lookup_insert_ne in Hp' by exact Hne. auto.
Qed.

(** Every directory on the way is there afterwards. *)
Lemma mkdirs_creates (r : str) (todo : list str) :
  forall (done : list str) (f f' : filesystem),
    mkdirs r done todo f = Ok f' ->
    forall pre post, todo = pre ++ post -> pre <> [] ->
      f' !! mkPath r (done ++ pre) = Some Dir.
Proof.
  induction todo as [|x todo IH]; intros done f f' H pre post Hsplit Hpre;
    cbn [mkdirs] in H.
  - destruct pre; [contradiction|discriminate].
  - destruct pre as [|y pre]; [contradiction|]. simpl in Hsplit.
    injection Hsplit as -> ->.
    assert (Hhere : forall f0, mkdirs r (done ++ [y]) (pre ++ post) f0 = Ok f' ->
                               f0 !! mkPath r (done ++ [y]) = Some Dir ->
                               f' !! mkPath r (done ++ y :: pre) = Some Dir).
    { intros f0 H0 Hy. destruct pre as [|z pre].
      - eapply mkdirs_keeps; eauto.
      - replace (done ++ y :: z :: pre) with ((done ++ [y]) ++ z :: pre)
          by (rewrite <- app_assoc; reflexivity).
        eapply IH; eauto; discriminate. }
    destruct (f !! mkPath r (done ++ [y])) as [[|c]|] eqn:Ehere.
    + eapply Hhere; eauto.
    + destruct (pre ++ post); discriminate.
    + eapply Hhere; eauto. apply lookup_insert_eq.
Qed.

(** On a file system where they are all there, nothing changes. *)
Lemma mkdirs_present (r : str) (todo : list str) :
  forall (done : list str) (f : filesystem),
    (forall pre post, todo = pre ++ post -> pre <> [] ->
       f !! mkPath r (done ++ pre) = Some Dir) ->
    mkdirs r done todo f = Ok f.
Proof.
  induction todo as [|x todo IH]; intros done f Hall; cbn [mkdirs].
  - reflexivity.
  - rewrite (Hall [x] todo eq_refl) by discriminate.
    apply IH. intros pre post -> Hpre.
    rewrite <- app_assoc. apply (Hall (x :: pre) post eq_refl). discriminate.
Qed.

Lemma mkdirs_idempotent (r : str) (done todo : list str) (f f' : filesystem) :
  mkdirs r done todo f = Ok f' -> mkdirs r done todo f' = Ok f'.
Proof. intros H. apply mkdirs_present. eapply mkdirs_creates, H. Qed.

Lemma mkdir_only_new_dirs (p : Path) :
  keeps only_new_dirs (mkdir_parents_exist_ok p).
Proof.
  intros w r w' H. unfold mkdir_parents_exist_ok in H.
  destruct (mkdirs (root p) [] (parts p) (fs w)) as [e|f'] eqn:Emk;
    injection H as _ <-.
  - apply only_new_dirs_refl.
  - apply mkdirs_keeps in Emk as [Hk Hn].
    split; [apply same_environment_with_fs|]. split; assumption.
Qed.

Lemma stat_kept (w w' : world) (p : Path) (n : node) :
  only_new_dirs w w' -> stat (fs w) p = Some n -> stat (fs w') p = Some n.
Proof.
  intros (_ & Hk & _). unfold stat. destruct (parts p); auto.
Qed.

End Directories.

Section EmptyTrajectory.

Lemma getitem_empty (a : Numpy.ndarray) (idx : Z) :
  Numpy.len a = 0%nat -> Numpy.getitem a idx = Raise IndexError.
Proof.
  intros H. unfold Numpy.getitem. rewrite H. cbv zeta. simpl Z.of_nat.
  destruct (idx <? 0)%Z eqn:E.
  - rewrite Z.add_0_r, E. reflexivity.
  - change (Z.of_nat 0) with 0%Z. apply Z.ltb_ge in E. apply Z.leb_le in E.
    rewrite E, orb_true_r. reflexivity.
Qed.

Lemma sample_frame_indices_head (n : nat) :
  exists rest, Backend.sample_frame_indices n = 0%Z :: rest
               /\ Scripts.sample_frame_indices n = 0%Z :: rest.
Proof.
  unfold Backend.sample_frame_indices, Scripts.sample_frame_indices,
    Backend.TRAJECTORY_FRAMES, Scripts.TRAJECTORY_FRAMES.
  rewrite linspace_30. cbn [seq List.map]. eexists. split; reflexivity.
Qed.

End EmptyTrajectory.

Section Poses.

Lemma set_qpos_length (d d' : Mujoco.MjData) (row : Numpy.item) :
  Mujoco.set_qpos d row = Ok d' ->
  length (Mujoco.qpos d') = length (Mujoco.qpos d).
Proof.
  unfold Mujoco.set_qpos. destruct row as [x|[|x [|y xs]]].
  - intros H. injection H as <-. apply repeat_length.
  - destruct (_ =? _)%nat eqn:E; [|discriminate].
    intros H. injection H as <-. apply Nat.eqb_eq in E. exact E.
  - intros H. injection H as <-. apply repeat_length.
  - destruct (_ =? _)%nat eqn:E; [|discriminate].
    intros H. injection H as <-. apply Nat.eqb_eq in E. exact E.
Qed.

Lemma set_qpos_depends_on_length (d1 d2 : Mujoco.MjData) (row : Numpy.item) :
  length (Mujoco.qpos d1) = length (Mujoco.qpos d2) ->
  Mujoco.set_qpos d1 row = Mujoco.set_qpos d2 row.
Proof. intros H. unfold Mujoco.set_qpos. rewrite H. reflexivity. Qed.

(** The camera a call uses depends on the model and on the camera
    arguments, not on the pose. *)
Lemma render_with_camera_same_camera (model : Mujoco.MjModel)
    (camera_name : option str) (distance azimuth elevation : option float)
    (lookat : option (float * float * float)) :
  exists c : Mujoco.camera,
    forall (data : Mujoco.MjData) (w : world),
      Backend.render_with_camera model data camera_name
        distance azimuth elevation lookat w
      = draw (frame_320 model data c) w.
Proof.
  destruct (Backend.truthy camera_name) eqn:Ht.
  - destruct camera_name as [[|x nm]|]; try discriminate.
    destruct (Mujoco.index_of (x :: nm) (Mujoco.cameras model)) as [i|] eqn:Hidx.
    + eexists. intros data w.
      apply render_with_camera_named; [discriminate | exact Hidx].
    + eexists. intros data w.
      rewrite render_with_camera_missing by (discriminate || exact Hidx).
      apply render_with_camera_programmatic. reflexivity.
  - eexists. intros data w. apply render_with_camera_programmatic, Ht.
Qed.

Lemma backend_render_frames_poses (model : Mujoco.MjModel)
    (qpos_data : Numpy.ndarray) (camera_name : option str)
    (distance azimuth elevation : option float)
    (lookat : option (float * float * float)) (c : Mujoco.camera) :
  (forall data w,
      Backend.render_with_camera model data camera_name
        distance azimuth elevation lookat w
      = draw (frame_320 model data c) w) ->
  forall (frame_indices : list Z) (data : Mujoco.MjData)
         (frames out : list Mujoco.pixels) (w w' : world),
    length (Mujoco.qpos data) = length (Mujoco.qpos0 model) ->
    Backend.render_frames model data qpos_data camera_name
      distance azimuth elevation lookat frame_indices frames w = (Ok out, w') ->
    exists rendered,
      out = frames ++ rendered
      /\ Forall2 (fun idx px =>
                    exists pose, pose_at model qpos_data idx = Ok pose
                                 /\ shows model c 320 pose px)
           frame_indices rendered.
Proof.
  intros Hc. induction frame_indices as [|idx rest IH];
    intros data frames out w w' Hlen H.
  - apply ret_inv in H as [<- _]. exists []. rewrite app_nil_r.
    split; [reflexivity | constructor].
  - cbn [Backend.render_frames] in H.
    apply bind_Ok in H as (row & w1 & Hrow & H). apply lift_inv in Hrow as [Hrow ->].
    apply bind_Ok in H as (data' & w1 & Hdata & H). apply lift_inv in Hdata as [Hdata ->].
    apply bind_Ok in H as (px & w1 & Hpx & H).
    rewrite Hc in Hpx. apply draw_inv in Hpx as [-> ->].
    pose proof (set_qpos_length _ _ _ Hdata) as Hlen'.
    apply IH in H as (rendered & -> & Hall); [|unfold Mujoco.mj_forward; congruence].
    eexists (_ :: rendered). rewrite <- app_assoc. split; [reflexivity|].
    constructor; [|exact Hall].
    exists (Mujoco.qpos data'). split.
    + unfold pose_at. rewrite Hrow.
      rewrite (set_qpos_depends_on_length _ data) by (symmetry; exact Hlen).
      rewrite Hdata. reflexivity.
    + unfold shows, frame_320, Mujoco.mj_forward. reflexivity.
Qed.

End Poses.

(** X5.  In an animation written by [render_trajectory] for an array of [n]
    frames, the [k]-th picture (k = 0 .. 29) shows the model in the pose of
    trajectory frame [k * (n - 1) / 29] (rounded down), all 30 seen by one
    and the same camera: the first picture is the first pose and the last
    picture the last pose. *)
Theorem animation_shows_sampled_poses :
  forall (self : Backend.ThumbnailGenerator) (trajectory_path : Path)
         (model_relative_path : str) (camera_name : option str)
         (distance azimuth elevation : option float)
         (lookat : option (float * float * float)) (w : world)
         (model : Mujoco.MjModel) (qpos_data : Numpy.ndarray),
    let run :=
      Backend.render_trajectory self trajectory_path model_relative_path
        camera_name distance azimuth elevation lookat w in
    let n := Z.of_nat (Numpy.len qpos_data) in
    stat (fs w) (Backend.models_dir self /' model_relative_path)
    = Some (File (XmlModel model)) ->
    stat (fs w) trajectory_path = Some (File (NpyFile qpos_data)) ->
    fst run = Ok true ->
    exists (rel_path : Path) (id : str) (c : Mujoco.camera)
           (frames : list Mujoco.pixels),
      relative_to trajectory_path (Backend.trajectories_dir self) = Ok rel_path
      /\ Backend.get_file_id (to_str rel_path) = Ok id
      /\ option_map PIL.img_frames
           (image_at (snd run)
              (Backend.thumbnails_dir self /' U "trajectories"
                 // parent rel_path /' (id ++ U ".webp")))
         = Some frames
      /\ Forall2 (fun k px =>
                    exists pose,
                      pose_at model qpos_data
                        ((Z.of_nat k * (n - 1)) / 29)%Z = Ok pose
                      /\ shows model c 320 pose px)
           (seq 0 30) frames.
Proof.
  intros self tp mrp cn d a e l w model qpos_data run n Hmodel Htraj Hrun.
  destruct run as [r w'] eqn:Erun. simpl in Hrun |- *. subst r run.
  revert Erun. unfold Backend.render_trajectory. cbv zeta.
  rewrite bind_exists.
  destruct (stat_fault w _); [discriminate|].
  destruct (negb (bool_decide _)); [print_false|].
  destruct (negb (str_eqb _ _)); [print_false|].
  intros H. apply try_except_false_true in H.
  apply bind_Ok in H as (rel & w1 & Hrel & H). apply lift_inv in Hrel as [Hrel ->].
  apply bind_Ok in H as (id & w1 & Hid & H). apply lift_inv in Hid as [Hid ->].
  apply bind_Ok in H as ([] & w1 & Hmk & H).
  printed H. printed H. printed H.
  apply mkdir_only_new_dirs in Hmk.
  apply (stat_kept _ _ _ _ Hmk) in Hmodel, Htraj.
  apply bind_Ok in H as (model' & w2 & Hload & H).
  unfold from_xml_path in Hload. rewrite Hmodel in Hload.
  injection Hload as <- <-.
  apply bind_Ok in H as (loaded & w2 & Hload & H).
  unfold np_load in Hload. rewrite Htraj in Hload. injection Hload as <- <-.
  apply bind_Ok in H as (q & w2 & Hq & H). apply ret_inv in Hq as [<- ->].
  apply bind_Ok in H as (frames & w2 & Hframes & H).
  destruct (render_with_camera_same_camera model cn d a e l) as [c Hc].
  pose proof Hframes as Hworld.
  apply backend_render_frames_inv in Hworld as (-> & _).
  destruct (backend_render_frames_poses _ _ _ _ _ _ _ c Hc _
              (Mujoco.MjData_new model) _ _ _ _ eq_refl Hframes)
    as (rendered & -> & Hall).
  simpl app in H.
  destruct rendered as [|first append_images]; [discriminate|].
  apply bind_Ok in H as ([] & w2 & Hwrite & H).
  printed H.
  apply ret_inv in H as [_ ->]. apply write_file_inv in Hwrite as ->.
  exists rel, id, c, (first :: append_images).
  split; [exact Hrel|]. split; [exact Hid|]. split.
  - unfold image_at, with_fs. cbn [fs]. rewrite lookup_insert_eq. reflexivity.
  - unfold Backend.sample_frame_indices, Backend.TRAJECTORY_FRAMES in Hall.
    rewrite linspace_30 in Hall. apply Forall2_fmap_l in Hall. exact Hall.
Qed.

Lemma animation_shows_sampled_poses_witness :
  exists (rel_path : Path) (id : str) (c : Mujoco.camera)
         (frames : list Mujoco.pixels),
    relative_to (Fixture.P "data/trajectories/locomotion/walk.npy")
      (Backend.trajectories_dir Fixture.backend_self) = Ok rel_path
    /\ Backend.get_file_id (to_str rel_path) = Ok id
    /\ option_map PIL.img_frames
         (image_at
            (snd (Backend.render_trajectory Fixture.backend_self
                    (Fixture.P "data/trajectories/locomotion/walk.npy")
                    (U "robot/robot.xml") (Some (U "track")) None None None None
                    Fixture.w1))
            (Backend.thumbnails_dir Fixture.backend_self /' U "trajectories"
               // parent rel_path /' (id ++ U ".webp")))
       = Some frames
    /\ Forall2 (fun k px =>
                  exists pose,
                    pose_at Fixture.robot (Fixture.frames_of 5)
                      ((Z.of_nat k
                        * (Z.of_nat (Numpy.len (Fixture.frames_of 5)) - 1))
                       / 29)%Z = Ok pose
                    /\ shows Fixture.robot c 320 pose px)
         (seq 0 30) frames.
Proof.
  apply (animation_shows_sampled_poses Fixture.backend_self
           (Fixture.P "data/trajectories/locomotion/walk.npy")
           (U "robot/robot.xml") (Some (U "track")) None None None None
           Fixture.w1 Fixture.robot (Fixture.frames_of 5)).
  - vm_compute; reflexivity.
  - vm_compute; reflexivity.
  - vm_compute; reflexivity.
Defined.

Section Stills.

(** What a successful [generate_model_thumbnail] did. *)
Lemma scripts_generate_model_thumbnail_success
    (self : Scripts.ThumbnailGenerator) (model_path : Path) (w w' : world) :
  Scripts.generate_model_thumbnail self model_path w = (Ok true, w') ->
  exists (rel_path : Path) (model_id : str) (model : Mujoco.MjModel)
         (c : Mujoco.camera),
    relative_to model_path (Scripts.models_dir self) = Ok rel_path
    /\ Scripts.get_file_id rel_path = Ok model_id
    /\ stat (fs w) model_path = Some (File (XmlModel model))
    /\ w' = with_fs w
              (<[ Scripts.thumbnails_dir self /' U "models"
                    /' (model_id ++ U ".png")
                  := File (ImageFile
                             (PIL.mkImage PIL.PNG
                                [Mujoco.mkPixels model
                                   (Some (Mujoco.qpos0 model, c)) 160 160]
                                None None None None (Some true))) ]> (fs w)).
Proof.
  unfold Scripts.generate_model_thumbnail. cbv zeta.
  intros H. apply try_except_false_true in H.
  apply bind_Ok in H as (rel & w1 & Hrel & H). apply lift_inv in Hrel as [Hrel ->].
  apply bind_Ok in H as (id & w1 & Hid & H). apply lift_inv in Hid as [Hid ->].
  printed H.
  apply bind_Ok in H as (px & w1 & Hpx & H).
  unfold Scripts.render_model_thumbnail in Hpx. cbv zeta in Hpx.
  apply bind_Ok in Hpx as (model & w2 & Hmodel & Hpx).
  assert (Hstat : stat (fs w) model_path = Some (File (XmlModel model))
                  /\ w2 = w).
  { unfold from_xml_path in Hmodel.
    destruct (stat (fs w) model_path) as [[|[]]|]; try discriminate.
    injection Hmodel as <- <-. auto. }
  destruct Hstat as [Hstat ->].
  apply bind_Ok in Hpx as (r & w2 & Hr & Hpx). apply lift_inv in Hr as [Hr ->].
  apply bind_Ok in Hpx as (px' & w2 & Hdraw & Hpx).
  apply render_inv in Hdraw as [-> ->]. apply ret_inv in Hpx as [<- ->].
  apply bind_Ok in H as ([] & w2 & Hwrite & H).
  printed H.
  apply ret_inv in H as [_ ->]. apply write_file_inv in Hwrite as ->.
  assert (Hscene : exists c,
             Mujoco.drawn r
             = Mujoco.mkPixels model (Some (Mujoco.qpos0 model, c)) 160 160).
  { revert Hr. unfold Mujoco.update_scene.
    destruct (Mujoco.index_of _ _) as [i|]; [|discriminate].
    destruct (_ || _)%bool; [discriminate|].
    destruct (Z.of_nat i =? -1)%Z; intros Hr; injection Hr as <-;
      eexists; reflexivity. }
  destruct Hscene as [c Hc]. rewrite Hc.
  exists rel, id, model, c. auto.
Qed.

End Stills.

(** X6.  The still image of a model.  [render_model] writes a WebP file of
    one 320 x 320 picture of the model in its initial pose, saved with
    [quality=85] and [method=6] and no animation setting, as [<id>.webp] in
    the mirrored directory.  [generate_model_thumbnail] writes a PNG file of
    one 160 x 160 picture of the model in its initial pose, saved with
    [optimize=True], as [<id>.png] directly under [thumbnails/models]. *)
Theorem model_thumbnail_encoding :
  forall (model : Mujoco.MjModel) (w : world),
    (forall (self : Backend.ThumbnailGenerator) (model_relative_path : str)
            (camera_name : option str)
            (distance azimuth elevation : option float)
            (lookat : option (float * float * float)),
        let run :=
          Backend.render_model self model_relative_path
            camera_name distance azimuth elevation lookat w in
        stat (fs w) (Backend.models_dir self /' model_relative_path)
        = Some (File (XmlModel model)) ->
        fst run = Ok true ->
        exists (id : str) (c : Mujoco.camera),
          Backend.get_file_id model_relative_path = Ok id
          /\ image_at (snd run)
               (Backend.thumbnails_dir self /' U "models"
                  // parent (parse model_relative_path) /' (id ++ U ".webp"))
             = Some (PIL.mkImage PIL.WEBP
                       [Mujoco.mkPixels model
                          (Some (Mujoco.qpos0 model, c)) 320 320]
                       None None (Some 85) (Some 6) None))
    /\ (forall (self : Scripts.ThumbnailGenerator) (model_path : Path),
           let run := Scripts.generate_model_thumbnail self model_path w in
           stat (fs w) model_path = Some (File (XmlModel model)) ->
           fst run = Ok true ->
           exists (rel_path : Path) (id : str) (c : Mujoco.camera),
             relative_to model_path (Scripts.models_dir self) = Ok rel_path
             /\ Scripts.get_file_id rel_path = Ok id
             /\ image_at (snd run)
                  (Scripts.thumbnails_dir self /' U "models"
                     /' (id ++ U ".png"))
                = Some (PIL.mkImage PIL.PNG
                          [Mujoco.mkPixels model
                             (Some (Mujoco.qpos0 model, c)) 160 160]
                          None None None None (Some true))).
Proof.
  intros model w. split.
  - intros self mrp cn d a e l run Hmodel Hrun.
    destruct run as [r w'] eqn:Erun. simpl in Hrun |- *. subst r run.
    revert Erun. unfold Backend.render_model. cbv zeta. rewrite bind_exists.
    destruct (stat_fault w _); [discriminate|].
    destruct (negb (bool_decide _)); [print_false|].
    destruct (negb (str_eqb _ _)); [print_false|].
    intros H. apply try_except_false_true in H.
    apply bind_Ok in H as (id & w1 & Hid & H). apply lift_inv in Hid as [Hid ->].
    apply bind_Ok in H as ([] & w1 & Hmk & H).
    printed H. printed H.
    apply mkdir_only_new_dirs in Hmk.
    apply (stat_kept _ _ _ _ Hmk) in Hmodel.
    apply bind_Ok in H as (model' & w2 & Hload & H).
    unfold from_xml_path in Hload. rewrite Hmodel in Hload.
    injection Hload as <- <-.
    apply bind_Ok in H as (px & w2 & Hpx & H).
    destruct (render_with_camera_same_camera model cn d a e l) as [c Hc].
    rewrite Hc in Hpx. apply draw_inv in Hpx as [-> ->].
    apply bind_Ok in H as ([] & w2 & Hwrite & H).
    printed H.
    apply ret_inv in H as [_ ->]. apply write_file_inv in Hwrite as ->.
    exists id, c. split; [exact Hid|].
    unfold image_at, with_fs. cbn [fs]. rewrite lookup_insert_eq. reflexivity.
  - intros self mp run Hmodel Hrun.
    destruct run as [r w'] eqn:Erun. simpl in Hrun |- *. subst r run.
    apply scripts_generate_model_thumbnail_success in Erun
      as (rel & id & model' & c & Hrel & Hid & Hstat & ->).
    assert (model' = model) as -> by congruence.
    exists rel, id, c. split; [exact Hrel|]. split; [exact Hid|].
    unfold image_at, with_fs. cbn [fs]. rewrite lookup_insert_eq. reflexivity.
Qed.

Lemma model_thumbnail_encoding_witness :
  (exists (id : str) (c : Mujoco.camera),
      Backend.get_file_id (U "robot/robot.xml") = Ok id
      /\ image_at
           (snd (Backend.render_model Fixture.backend_self (U "robot/robot.xml")
                   None None None None None Fixture.w1))
           (Backend.thumbnails_dir Fixture.backend_self /' U "models"
              // parent (parse (U "robot/robot.xml")) /' (id ++ U ".webp"))
         = Some (PIL.mkImage PIL.WEBP
                   [Mujoco.mkPixels Fixture.robot
                      (Some (Mujoco.qpos0 Fixture.robot, c)) 320 320]
                   None None (Some 85) (Some 6) None))
  /\ (exists (rel_path : Path) (id : str) (c : Mujoco.camera),
         relative_to (Fixture.P "data/models/robot/robot.xml")
           (Scripts.models_dir Fixture.scripts_self) = Ok rel_path
         /\ Scripts.get_file_id rel_path = Ok id
         /\ image_at
              (snd (Scripts.generate_model_thumbnail Fixture.scripts_self
                      (Fixture.P "data/models/robot/robot.xml") Fixture.w1))
              (Scripts.thumbnails_dir Fixture.scripts_self /' U "models"
                 /' (id ++ U ".png"))
            = Some (PIL.mkImage PIL.PNG
                      [Mujoco.mkPixels Fixture.robot
                         (Some (Mujoco.qpos0 Fixture.robot, c)) 160 160]
                      None None None None (Some true))).
Proof.
  split.
  - apply (proj1 (model_thumbnail_encoding Fixture.robot Fixture.w1)
             Fixture.backend_self (U "robot/robot.xml") None None None None None).
    + vm_compute; reflexivity.
    + vm_compute; reflexivity.
  - apply (proj2 (model_thumbnail_encoding Fixture.robot Fixture.w1)
             Fixture.scripts_self (Fixture.P "data/models/robot/robot.xml")).
    + vm_compute; reflexivity.
    + vm_compute; reflexivity.
Defined.

Section Extensions.

Lemma endswith_app (s suffix : str) :
  endswith s suffix = true -> exists pre, s = pre ++ suffix.
Proof.
  unfold endswith. intros H. apply andb_prop in H as [_ H].
  unfold str_eqb in H. destruct (decide _) as [E|]; [|discriminate].
  exists (firstn (length s - length suffix) s).
  rewrite <- E at 1. symmetry. rewrite E. rewrite <- E at 2.
  apply firstn_skipn.
Qed.

Lemma app_endswith (pre suffix : str) : endswith (pre ++ suffix) suffix = true.
Proof.
  unfold endswith. rewrite length_app.
  replace (length pre + length suffix - length suffix)%nat with (length pre)
    by lia.
  rewrite skipn_app, Nat.sub_diag, skipn_all, str_eqb_refl. simpl.
  rewrite andb_true_r. apply Nat.leb_le. lia.
Qed.

Lemma last_of_suffix (pre suffix : str) (d : N) :
  suffix <> [] -> List.last (pre ++ suffix) d = List.last suffix d.
Proof.
  intros H. induction pre as [|x pre IH]; [reflexivity|].
  simpl. rewrite IH. destruct (pre ++ suffix) eqn:E; [|reflexivity].
  apply app_eq_nil in E as [_ E]. contradiction.
Qed.

Lemma extensions_exclusive (nm : str) :
  endswith_any nm [U ".npy"; U ".npz"] = true ->
  endswith nm (U ".xml") = false.
Proof.
  intros H. destruct (endswith nm (U ".xml")) eqn:Exml; [exfalso|reflexivity].
  apply endswith_app in Exml as [pre Hxml].
  assert (Hl : List.last nm 0 = 108).
  { rewrite Hxml, last_of_suffix by discriminate. reflexivity. }
  unfold endswith_any in H. simpl in H.
  apply orb_prop in H as [H|H].
  - apply endswith_app in H as [pre' H].
    rewrite H, last_of_suffix in Hl by discriminate. discriminate.
  - rewrite orb_false_r in H. apply endswith_app in H as [pre' H].
    rewrite H, last_of_suffix in Hl by discriminate. discriminate.
Qed.

End Extensions.

(** X8.  No file name is accepted by both upload endpoints: whatever the
    store and the file, at least one of [upload_trajectory] and
    [upload_model] answers 400 and leaves the store alone. *)
Theorem no_upload_is_both_trajectory_and_model :
  forall (store trajectory model : Type)
         (storage : Api.Storage store trajectory model)
         (file : Api.UploadFile) (category model_name : option str)
         (st : store),
    Api.upload_trajectory file category st = (Raise (HTTPException 400), st)
    \/ Api.upload_model file model_name st = (Raise (HTTPException 400), st).
Proof.
  intros store trajectory model storage file category model_name st.
  destruct (endswith_any (Api.filename file) [U ".npy"; U ".npz"]) eqn:E.
  - right. apply upload_model_rejected. apply extensions_exclusive, E.
  - left. apply upload_trajectory_rejected, E.
Qed.

Section Listing.

Lemma in_entries (f : filesystem) (p : Path) :
  In p (List.map fst (map_to_list f)) <-> is_Some (f !! p).
Proof.
  rewrite <- list_elem_of_In. change (List.map fst) with (fmap (M:=list) (@fst Path node)).
  rewrite list_elem_of_fmap. split.
  - intros ([q n] & -> & H). apply elem_of_map_to_list in H. eauto.
  - intros [n H]. exists (p, n). split; [reflexivity|].
    apply elem_of_map_to_list, H.
Qed.

Lemma entries_nodup (f : filesystem) : List.NoDup (List.map fst (map_to_list f)).
Proof. apply NoDup_ListNoDup. apply (NoDup_fst_map_to_list f). Qed.

Lemma in_entries_matching (f : filesystem) (folder p : Path) (ext : str) :
  In p (entries_matching f folder ext)
  <-> is_Some (f !! p) /\ parent p = folder /\ parts p <> []
      /\ endswith (name p) ext = true.
Proof.
  unfold entries_matching. rewrite filter_In, in_entries.
  rewrite !andb_true_iff, negb_true_iff, bool_decide_eq_true,
    bool_decide_eq_false. tauto.
Qed.

Lemma npy_is_not_npz (nm : str) :
  endswith nm (U ".npy") = true -> endswith nm (U ".npz") = true -> False.
Proof.
  intros H1 H2.
  apply endswith_app in H1 as [pre1 H1]. apply endswith_app in H2 as [pre2 H2].
  assert (Hl : List.last nm 0 = 121).
  { rewrite H1, last_of_suffix by discriminate. reflexivity. }
  rewrite H2, last_of_suffix in Hl by discriminate. discriminate.
Qed.

End Listing.

Section CacheDirectories.

Lemma with_fs_same (w : world) : with_fs w (fs w) = w.
Proof. destruct w; reflexivity. Qed.

Lemma mkdir_inv (p : Path) (w w' : world) :
  mkdir_parents_exist_ok p w = (Ok tt, w') ->
  exists f', mkdirs (root p) [] (parts p) (fs w) = Ok f' /\ w' = with_fs w f'.
Proof.
  unfold mkdir_parents_exist_ok.
  destruct (mkdirs _ _ _ _) as [e|f']; intros H; [discriminate|].
  injection H as <-. eauto.
Qed.

Lemma mkdir_makes_present (p : Path) (w w' : world) :
  mkdir_parents_exist_ok p w = (Ok tt, w') -> all_present w' p.
Proof.
  intros H. apply mkdir_inv in H as (f' & Hmk & ->).
  intros pre post Hsplit Hpre. cbn [fs with_fs].
  apply (mkdirs_creates _ _ [] _ _ Hmk pre post Hsplit Hpre).
Qed.

Lemma mkdir_when_present (p : Path) (w : world) :
  all_present w p -> mkdir_parents_exist_ok p w = (Ok tt, w).
Proof.
  intros H. unfold mkdir_parents_exist_ok.
  rewrite (mkdirs_present (root p) (parts p) [] (fs w)) by exact H.
  rewrite with_fs_same. reflexivity.
Qed.

Lemma all_present_kept (w w' : world) (p : Path) :
  (forall q, fs w !! q = Some Dir -> fs w' !! q = Some Dir) ->
  all_present w p -> all_present w' p.
Proof. intros Hk H pre post Hs Hp. apply Hk, (H pre post Hs Hp). Qed.

Lemma all_present_stat (w : world) (p : Path) :
  all_present w p -> stat (fs w) p = Some Dir.
Proof.
  intros H. destruct p as [r [|x ps]]; [reflexivity|].
  unfold stat. cbn [parts].
  apply (H (x :: ps) [] (eq_sym (app_nil_r _))). discriminate.
Qed.

End CacheDirectories.

(** X10.  Building a generator prepares the cache: when
    [ThumbnailGenerator.__init__] returns, [thumbnails/models] and
    [thumbnails/trajectories] under the data directory are directories,
    nothing that was there before has changed, building the generator again
    changes nothing more, and the constructor of the other script does
    exactly the same to the world. *)
Theorem init_prepares_the_cache :
  forall (data_dir : Path) (w : world) (self : Backend.ThumbnailGenerator),
    let w' := snd (Backend.init data_dir w) in
    fst (Backend.init data_dir w) = Ok self ->
    stat (fs w') (data_dir /' U "thumbnails" /' U "models") = Some Dir
    /\ stat (fs w') (data_dir /' U "thumbnails" /' U "trajectories") = Some Dir
    /\ only_new_dirs w w'
    /\ Backend.init data_dir w' = (Ok self, w')
    /\ snd (Scripts.init data_dir w) = w'
    /\ fst (Scripts.init data_dir w)
       = Ok (Scripts.mkGenerator data_dir (data_dir /' U "models")
               (data_dir /' U "trajectories") (data_dir /' U "thumbnails")).
Proof.
  intros data_dir w self w' Hinit. subst w'.
  assert (Hsame : snd (Scripts.init data_dir w) = snd (Backend.init data_dir w)
                  /\ fst (Scripts.init data_dir w)
                     = match fst (Backend.init data_dir w) with
                       | inl e => inl e
                       | inr _ =>
                           Ok (Scripts.mkGenerator data_dir
                                 (data_dir /' U "models")
                                 (data_dir /' U "trajectories")
                                 (data_dir /' U "thumbnails"))
                       end).
  { unfold Scripts.init, Backend.init. cbv zeta.
    cbn [Scripts.thumbnails_dir Backend.thumbnails_dir]. unfold bind.
    destruct (mkdir_parents_exist_ok _ w) as [[e|[]] w1]; [auto|].
    destruct (mkdir_parents_exist_ok _ w1) as [[e|[]] w2]; auto. }
  destruct Hsame as [Hsnd Hfst]. rewrite Hfst, Hsnd, Hinit.
  destruct (Backend.init data_dir w) as [r w'] eqn:E.
  simpl in Hinit |- *. subst r.
  unfold Backend.init in E |- *. cbv zeta in E |- *.
  cbn [Backend.thumbnails_dir] in E |- *.
  apply bind_Ok in E as ([] & w1 & Hm & E).
  apply bind_Ok in E as ([] & w2 & Ht & E).
  apply ret_inv in E as [<- Ew]. subst w'. rename w2 into w'.
  pose proof (mkdir_makes_present _ _ _ Hm) as Pm.
  pose proof (mkdir_makes_present _ _ _ Ht) as Pt.
  pose proof (mkdir_only_new_dirs _ _ _ _ Hm) as Rm.
  pose proof (mkdir_only_new_dirs _ _ _ _ Ht) as Rt.
  assert (Pm' : all_present w' (data_dir /' U "thumbnails" /' U "models")).
  { eapply all_present_kept; [|exact Pm]. intros q. apply (proj1 (proj2 Rt)). }
  split; [apply all_present_stat, Pm'|].
  split; [apply all_present_stat, Pt|].
  split; [eapply only_new_dirs_trans; eassumption|].
  split; [|auto].
  unfold bind. rewrite (mkdir_when_present _ _ Pm'), (mkdir_when_present _ _ Pt).
  reflexivity.
Qed.

Lemma init_prepares_the_cache_witness :
  let w' := snd (Backend.init (Fixture.P "data") Fixture.w0) in
  stat (fs w') (Fixture.P "data" /' U "thumbnails" /' U "models") = Some Dir
  /\ stat (fs w') (Fixture.P "data" /' U "thumbnails" /' U "trajectories")
     = Some Dir
  /\ only_new_dirs Fixture.w0 w'
  /\ Backend.init (Fixture.P "data") w' = (Ok Fixture.backend_self, w')
  /\ snd (Scripts.init (Fixture.P "data") Fixture.w0) = w'
  /\ fst (Scripts.init (Fixture.P "data") Fixture.w0)
     = Ok (Scripts.mkGenerator (Fixture.P "data")
             (Fixture.P "data" /' U "models")
             (Fixture.P "data" /' U "trajectories")
             (Fixture.P "data" /' U "thumbnails")).
Proof.
  apply (init_prepares_the_cache (Fixture.P "data") Fixture.w0
           Fixture.backend_self).
  vm_compute; reflexivity.
Defined.

(** A regular file where a directory is wanted makes the constructor raise,
    and nothing is created. *)
Example init_blocked_by_a_file :
  Backend.init (Fixture.P "data/models/robot/robot.xml") Fixture.w0
  = (Raise NotADirectoryError, Fixture.w0).
Proof. reflexivity. Qed.

Section MediaTypes.

Lemma rfind_app (c : N) (pre s : str) (i : nat) :
  rfind c s = Some i -> rfind c (pre ++ s) = Some (length pre + i)%nat.
Proof.
  intros H. induction pre as [|x pre IH]; [exact H|].
  cbn [app rfind length]. rewrite IH. reflexivity.
Qed.

Lemma name_join_single (dir : Path) (nm : str) :
  name (dir // mkPath [] [nm]) = nm.
Proof. unfold name, join. cbn [root parts]. apply List.last_last. Qed.

(** The suffix of [<identifier><ext>] in any directory is [ext], for an
    extension that starts with its only dot. *)
Lemma suffix_of_thumbnail (dir : Path) (p id ext : str) :
  Backend.get_file_id p = Ok id ->
  forallb (fun c => negb (c =? sep)) ext = true ->
  rfind dot ext = Some 0%nat ->
  (2 <= length ext)%nat ->
  suffix (dir /' (id ++ ext)) = ext.
Proof.
  intros Hid Hsep Hdot Hlen. unfold join_str.
  rewrite (parse_thumbnail_name p id ext Hid Hsep).
  apply get_file_id_shape in Hid as [Hlen16 _].
  unfold suffix. rewrite name_join_single, (rfind_app dot id ext 0 Hdot).
  rewrite length_app, Hlen16, Nat.add_0_r.
  replace ((0 <? 16)%nat && (16 <? 16 + length ext - 1)%nat) with true.
  - rewrite <- Hlen16. rewrite skipn_app, skipn_all, Nat.sub_diag. reflexivity.
  - symmetry. apply andb_true_intro. split; apply Nat.ltb_lt; lia.
Qed.

End MediaTypes.



Section CacheOnly.

Context (allowed : Path -> Prop).

Lemma touches_only_refl (w : world) : touches_only allowed w w.
Proof. split; [apply same_environment_refl | auto]. Qed.

Lemma touches_only_trans (w1 w2 w3 : world) :
  touches_only allowed w1 w2 -> touches_only allowed w2 w3 -> touches_only allowed w1 w3.
Proof.
  intros [Hf1 H1] [Hf2 H2].
  split; [eapply same_environment_trans; eassumption|]. intros p.
  destruct (H2 p) as [E2|[[N2 D2]|[I2 [img2 F2]]]].
  - rewrite E2. apply H1.
  - destruct (H1 p) as [E1|[[N1 D1]|[I1 [img1 F1]]]].
    + right; left. split; congruence.
    + congruence.
    + congruence.
  - right; right. eauto.
Qed.

Lemma only_new_dirs_touches_only (w w' : world) :
  only_new_dirs w w' -> touches_only allowed w w'.
Proof.
  intros (Hf & Hk & Hn). split; [exact Hf|]. intros p.
  destruct (fs w !! p) as [n|] eqn:E.
  - left. apply Hk, E.
  - destruct (fs w' !! p) as [n|] eqn:E'; [|auto].
    destruct (Hn p n E') as [?| ->]; [congruence|]. right; left. auto.
Qed.

Lemma keeps_touches_only_mkdir (p : Path) :
  keeps (touches_only allowed) (mkdir_parents_exist_ok p).
Proof.
  intros w r w' H. eapply only_new_dirs_touches_only, mkdir_only_new_dirs, H.
Qed.

(** Writing an image at an allowed path. *)
Lemma touches_only_write (path : Path) (img : PIL.image_file) (w : world) :
  allowed path ->
  touches_only allowed w
    (with_fs w (<[path := File (ImageFile img)]> (fs w))).
Proof.
  intros Hin. split; [apply same_environment_with_fs|]. intros q.
  cbn [fs with_fs].
  destruct (decide (q = path)) as [-> |Hne].
  - right; right. split; [exact Hin|].
    exists img. apply lookup_insert_eq.
  - left. apply lookup_insert_ne. congruence.
Qed.

Lemma keeps_touches_only_write_file (path : Path) (img : PIL.image_file) :
  allowed path ->
  keeps (touches_only allowed) (write_file path (ImageFile img)).
Proof.
  intros Hin w r w' H. unfold write_file in H.
  destruct (stat (fs w) (parent path)) as [[|?]|];
    [destruct (stat (fs w) path) as [[|?]|]|..];
    injection H as _ <-;
    apply touches_only_refl || apply touches_only_write, Hin.
Qed.

Lemma touches_only_same_environment (w w' : world) :
  touches_only allowed w w' -> same_environment w w'.
Proof. intros [H _]. exact H. Qed.

End CacheOnly.

(** [<dir>/<identifier><ext>] lies directly inside [dir] and is named
    [<identifier><ext>]. *)
Lemma thumbnail_parent_and_name (dir : Path) (p id ext : str) :
  Backend.get_file_id p = Ok id ->
  forallb (fun c => negb (c =? sep)) ext = true ->
  parent (dir /' (id ++ ext)) = dir /\ name (dir /' (id ++ ext)) = id ++ ext.
Proof.
  intros Hid Hext. unfold join_str.
  rewrite (parse_thumbnail_name p id ext Hid Hext). split.
  - unfold join, parent. cbn [root parts]. rewrite removelast_last.
    destruct dir; reflexivity.
  - unfold join, name. cbn [root parts]. apply List.last_last.
Qed.

Section PrintFailures.

Lemma keeps_same_environment {A} (allowed : Path -> Prop) (c : M A) :
  keeps (touches_only allowed) c -> keeps same_environment c.
Proof. intros H w r w' E. eapply touches_only_same_environment, H, E. Qed.

Lemma print_fails_by_print (msg : message) : fails_only_by_print (print msg).
Proof.
  intros w e w' H. unfold print in H.
  destruct (print_fault w msg) as [e'|] eqn:E; [|discriminate].
  injection H as <- _. eauto.
Qed.

Lemma ret_fails_by_print {A} (a : A) : fails_only_by_print (ret a).
Proof. intros w e w' H. discriminate. Qed.

Lemma rglob_fails_by_print (p : Path) (f : str -> bool) :
  fails_only_by_print (rglob p f).
Proof. intros w e w' H. discriminate. Qed.

Lemma bind_fails_by_print {A B} (c : M A) (k : A -> M B) :
  keeps same_environment c ->
  fails_only_by_print c -> (forall a, fails_only_by_print (k a)) ->
  fails_only_by_print (bind c k).
Proof.
  intros Hs Hc Hk w e w' H.
  apply bind_inv in H as [(e' & Ec & He)|(a & w1 & Ec & Ek)].
  - injection He as <-. eapply Hc, Ec.
  - destruct (Hk a _ _ _ Ek) as [msg Hmsg]. exists msg.
    destruct (Hs _ _ _ Ec) as (_ & _ & Hp). rewrite <- Hp. exact Hmsg.
Qed.

(** What the body of a [try] raises is caught: only the handler counts. *)
Lemma try_except_fails_by_print {A} (body : M A) (handler : exn -> M A) :
  keeps same_environment (try_except body handler) ->
  (forall e, keeps same_environment (handler e)) ->
  (forall e, fails_only_by_print (handler e)) ->
  fails_only_by_print (try_except body handler).
Proof.
  intros Hs Hk Hh w e w' H. pose proof (Hs _ _ _ H) as (_ & _ & Hp).
  unfold try_except in H.
  destruct (body w) as [[e1|a] w1] eqn:Eb; [|discriminate].
  destruct (Hh e1 _ _ _ H) as [msg Hmsg]. exists msg.
  destruct (Hk e1 _ _ _ H) as (_ & _ & Hp1). congruence.
Qed.

(** The handler of every [try] in the two scripts. *)
Lemma handler_keeps {A} (R : world -> world -> Prop) (msg : message)
    (a : A) :
  (forall w, R w w) ->
  keeps R (let* _ := print msg in ret a).
Proof.
  intros Hr w r w' H. rewrite bind_print in H.
  destruct (print_fault w msg); injection H as _ <-; apply Hr.
Qed.

Lemma handler_fails_by_print (msg : message) :
  fails_only_by_print (let* _ := print msg in ret false).
Proof.
  intros w e w' H. rewrite bind_print in H.
  destruct (print_fault w msg) as [e'|] eqn:E; [|discriminate].
  injection H as <- _. eauto.
Qed.

End PrintFailures.

Section ScriptsBatch.

Context (self : Scripts.ThumbnailGenerator) (dirs : list Path).
Context (Hmodels : In (Scripts.thumbnails_dir self /' U "models") dirs).
Context (Htrajectories :
           In (Scripts.thumbnails_dir self /' U "trajectories") dirs).

Lemma keeps_generate_model_thumbnail (model_path : Path) :
  keeps (touches_only (directly_in dirs))
    (Scripts.generate_model_thumbnail self model_path).
Proof.
  pose proof (touches_only_refl (directly_in dirs)) as Hr.
  pose proof (touches_only_trans (directly_in dirs)) as Ht.
  unfold Scripts.generate_model_thumbnail. cbv zeta.
  apply (keeps_try_except _ Ht).
  - apply (keeps_bind _ Ht); [apply (keeps_lift _ Hr)|]. intros rel.
    apply (keeps_bind_lift _ Hr). intros id Hid.
    apply (keeps_bind _ Ht); [apply (keeps_print _ Hr)|]. intros _.
    apply (keeps_bind _ Ht).
    { unfold Scripts.render_model_thumbnail. cbv zeta.
      apply (keeps_bind _ Ht); [apply (keeps_from_xml_path _ Hr)|]. intros model.
      apply (keeps_bind _ Ht); [apply (keeps_lift _ Hr)|]. intros renderer.
      apply (keeps_bind _ Ht); [apply (keeps_render _ Hr)|]. intros px.
      apply (keeps_ret _ Hr). }
    intros px.
    apply (keeps_bind _ Ht).
    { apply keeps_touches_only_write_file. unfold directly_in.
      rewrite scripts_get_file_id_eq in Hid.
      rewrite (proj1 (thumbnail_parent_and_name _ _ _ (U ".png") Hid eq_refl)).
      exact Hmodels. }
    intros _.
    apply (keeps_bind _ Ht); [apply (keeps_print _ Hr)|]. intros _.
    apply (keeps_ret _ Hr).
  - intros e.
    apply (keeps_bind _ Ht); [apply (keeps_print _ Hr)|]. intros _.
    apply (keeps_ret _ Hr).
Qed.

Lemma keeps_generate_trajectory_gif (model_path trajectory_path : Path) :
  keeps (touches_only (directly_in dirs))
    (Scripts.generate_trajectory_gif self model_path trajectory_path).
Proof.
  pose proof (touches_only_refl (directly_in dirs)) as Hr.
  pose proof (touches_only_trans (directly_in dirs)) as Ht.
  unfold Scripts.generate_trajectory_gif. cbv zeta.
  apply (keeps_try_except _ Ht).
  - apply (keeps_bind _ Ht); [apply (keeps_lift _ Hr)|]. intros rel.
    apply (keeps_bind_lift _ Hr). intros id Hid.
    apply (keeps_bind _ Ht); [apply (keeps_print _ Hr)|]. intros _.
    apply (keeps_bind _ Ht); [apply (keeps_from_xml_path _ Hr)|]. intros model.
    apply (keeps_bind _ Ht); [apply (keeps_np_load _ Hr)|]. intros loaded.
    apply (keeps_bind _ Ht).
    { destruct loaded; [apply (keeps_lift _ Hr) | apply (keeps_ret _ Hr)]. }
    intros qpos_data.
    apply (keeps_bind _ Ht); [apply (keeps_scripts_render_frames _ Hr Ht)|].
    intros frames.
    apply (keeps_bind _ Ht).
    { apply keeps_touches_only_write_file. unfold directly_in.
      rewrite scripts_get_file_id_eq in Hid.
      rewrite (proj1 (thumbnail_parent_and_name _ _ _ (U ".gif") Hid eq_refl)).
      exact Htrajectories. }
    intros _.
    apply (keeps_bind _ Ht); [apply (keeps_print _ Hr)|]. intros _.
    apply (keeps_ret _ Hr).
  - intros e.
    apply (keeps_bind _ Ht); [apply (keeps_print _ Hr)|]. intros _.
    apply (keeps_ret _ Hr).
Qed.

(** An exception inside the [try] is caught; what is left is the handler's
    own [print]. *)
Lemma generate_model_thumbnail_fails_by_print (model_path : Path) :
  fails_only_by_print (Scripts.generate_model_thumbnail self model_path).
Proof.
  pose proof (keeps_same_environment _ _
                (keeps_generate_model_thumbnail model_path)) as Hk.
  unfold Scripts.generate_model_thumbnail in Hk |- *. cbv zeta in Hk |- *.
  apply try_except_fails_by_print; [exact Hk | |].
  - intros e. apply handler_keeps, same_environment_refl.
  - intros e. apply handler_fails_by_print.
Qed.

Lemma generate_trajectory_gif_fails_by_print (model_path trajectory_path : Path) :
  fails_only_by_print
    (Scripts.generate_trajectory_gif self model_path trajectory_path).
Proof.
  pose proof (keeps_same_environment _ _
                (keeps_generate_trajectory_gif model_path trajectory_path))
    as Hk.
  unfold Scripts.generate_trajectory_gif in Hk |- *. cbv zeta in Hk |- *.
  apply try_except_fails_by_print; [exact Hk | |].
  - intros e. apply handler_keeps, same_environment_refl.
  - intros e. apply handler_fails_by_print.
Qed.

Lemma keeps_generate_each_model (model_files : list Path) :
  forall s t : nat,
    keeps (touches_only (directly_in dirs))
      (Scripts.generate_each_model self model_files s t).
Proof.
  induction model_files as [|f rest IH]; intros s t.
  - apply keeps_ret, touches_only_refl.
  - cbn [Scripts.generate_each_model]. cbv zeta.
    apply keeps_bind.
    + apply touches_only_trans.
    + apply keeps_generate_model_thumbnail.
    + intros ok. apply IH.
Qed.

Lemma keeps_generate_each_trajectory (default_model : Path)
    (trajectory_files : list Path) :
  forall s t : nat,
    keeps (touches_only (directly_in dirs))
      (Scripts.generate_each_trajectory self default_model trajectory_files s t).
Proof.
  induction trajectory_files as [|f rest IH]; intros s t.
  - apply keeps_ret, touches_only_refl.
  - cbn [Scripts.generate_each_trajectory]. cbv zeta.
    apply keeps_bind.
    + apply touches_only_trans.
    + apply keeps_generate_trajectory_gif.
    + intros ok. apply IH.
Qed.

Lemma generate_each_model_fails_by_print (model_files : list Path) :
  forall s t : nat,
    fails_only_by_print (Scripts.generate_each_model self model_files s t).
Proof.
  induction model_files as [|f rest IH]; intros s t.
  - apply ret_fails_by_print.
  - cbn [Scripts.generate_each_model]. cbv zeta.
    apply bind_fails_by_print.
    + eapply keeps_same_environment, keeps_generate_model_thumbnail.
    + apply generate_model_thumbnail_fails_by_print.
    + intros ok. apply IH.
Qed.

Lemma generate_each_trajectory_fails_by_print (default_model : Path)
    (trajectory_files : list Path) :
  forall s t : nat,
    fails_only_by_print
      (Scripts.generate_each_trajectory self default_model trajectory_files s t).
Proof.
  induction trajectory_files as [|f rest IH]; intros s t.
  - apply ret_fails_by_print.
  - cbn [Scripts.generate_each_trajectory]. cbv zeta.
    apply bind_fails_by_print.
    + eapply keeps_same_environment, keeps_generate_trajectory_gif.
    + apply generate_trajectory_gif_fails_by_print.
    + intros ok. apply IH.
Qed.

Lemma keeps_generate_all_models :
  keeps (touches_only (directly_in dirs)) (Scripts.generate_all_models self).
Proof.
  unfold Scripts.generate_all_models.
  pose proof (touches_only_refl (directly_in dirs)) as Hr.
  pose proof (touches_only_trans (directly_in dirs)) as Ht.
  apply (keeps_bind _ Ht); [apply (keeps_print _ Hr)|]. intros _.
  apply (keeps_bind _ Ht); [apply (keeps_rglob _ Hr)|]. intros files.
  apply (keeps_bind _ Ht); [apply keeps_generate_each_model|]. intros counts.
  apply (keeps_bind _ Ht); [apply (keeps_print _ Hr)|]. intros _.
  apply (keeps_ret _ Hr).
Qed.

Lemma keeps_generate_all_trajectories :
  keeps (touches_only (directly_in dirs)) (Scripts.generate_all_trajectories self).
Proof.
  unfold Scripts.generate_all_trajectories.
  pose proof (touches_only_refl (directly_in dirs)) as Hr.
  pose proof (touches_only_trans (directly_in dirs)) as Ht.
  apply (keeps_bind _ Ht); [apply (keeps_print _ Hr)|]. intros _.
  apply (keeps_bind _ Ht); [apply (keeps_rglob _ Hr)|].
  intros [|m ms].
  { apply (keeps_bind _ Ht); [apply (keeps_print _ Hr)|]. intros _.
    apply (keeps_ret _ Hr). }
  apply (keeps_bind _ Ht); [apply (keeps_print _ Hr)|]. intros _.
  apply (keeps_bind _ Ht); [apply (keeps_rglob _ Hr)|]. intros files.
  apply (keeps_bind _ Ht); [apply keeps_generate_each_trajectory|].
  intros counts.
  apply (keeps_bind _ Ht); [apply (keeps_print _ Hr)|]. intros _.
  apply (keeps_ret _ Hr).
Qed.

Lemma generate_all_models_fails_by_print :
  fails_only_by_print (Scripts.generate_all_models self).
Proof.
  pose proof same_environment_refl as Hr.
  pose proof same_environment_trans as Ht.
  unfold Scripts.generate_all_models.
  apply bind_fails_by_print;
    [apply (keeps_print _ Hr) | apply print_fails_by_print |]. intros _.
  apply bind_fails_by_print;
    [apply (keeps_rglob _ Hr) | apply rglob_fails_by_print |]. intros files.
  apply bind_fails_by_print;
    [eapply keeps_same_environment, keeps_generate_each_model
    | apply generate_each_model_fails_by_print |].
  intros counts.
  apply bind_fails_by_print;
    [apply (keeps_print _ Hr) | apply print_fails_by_print |]. intros _.
  apply ret_fails_by_print.
Qed.

Lemma generate_all_trajectories_fails_by_print :
  fails_only_by_print (Scripts.generate_all_trajectories self).
Proof.
  pose proof same_environment_refl as Hr.
  pose proof same_environment_trans as Ht.
  unfold Scripts.generate_all_trajectories.
  apply bind_fails_by_print;
    [apply (keeps_print _ Hr) | apply print_fails_by_print |]. intros _.
  apply bind_fails_by_print;
    [apply (keeps_rglob _ Hr) | apply rglob_fails_by_print |].
  intros [|m ms].
  { apply bind_fails_by_print;
      [apply (keeps_print _ Hr) | apply print_fails_by_print |]. intros _.
    apply ret_fails_by_print. }
  apply bind_fails_by_print;
    [apply (keeps_print _ Hr) | apply print_fails_by_print |]. intros _.
  apply bind_fails_by_print;
    [apply (keeps_rglob _ Hr) | apply rglob_fails_by_print |]. intros files.
  apply bind_fails_by_print;
    [eapply keeps_same_environment, keeps_generate_each_trajectory
    | apply generate_each_trajectory_fails_by_print |].
  intros counts.
  apply bind_fails_by_print;
    [apply (keeps_print _ Hr) | apply print_fails_by_print |]. intros _.
  apply ret_fails_by_print.
Qed.

(** What [main] does once the generator is built. *)
Lemma keeps_dispatch (args : Scripts.Args) :
  keeps (touches_only (directly_in dirs))
    (if Scripts.arg_all args then
       let* _ := Scripts.generate_all_models self in
       Scripts.generate_all_trajectories self
     else if Scripts.arg_models args then Scripts.generate_all_models self
     else if Scripts.arg_trajectories args
          then Scripts.generate_all_trajectories self
     else print [Help]).
Proof.
  pose proof (touches_only_refl (directly_in dirs)) as Hr.
  pose proof (touches_only_trans (directly_in dirs)) as Ht.
  repeat apply keeps_if.
  - apply (keeps_bind _ Ht); [apply keeps_generate_all_models|].
    intros _. apply keeps_generate_all_trajectories.
  - apply keeps_generate_all_models.
  - apply keeps_generate_all_trajectories.
  - apply (keeps_print _ Hr).
Qed.

Lemma dispatch_fails_by_print (args : Scripts.Args) :
  fails_only_by_print
    (if Scripts.arg_all args then
       let* _ := Scripts.generate_all_models self in
       Scripts.generate_all_trajectories self
     else if Scripts.arg_models args then Scripts.generate_all_models self
     else if Scripts.arg_trajectories args
          then Scripts.generate_all_trajectories self
     else print [Help]).
Proof.
  destruct (Scripts.arg_all args);
    [|destruct (Scripts.arg_models args);
      [|destruct (Scripts.arg_trajectories args)]].
  - apply bind_fails_by_print.
    + eapply keeps_same_environment, keeps_generate_all_models.
    + apply generate_all_models_fails_by_print.
    + intros _. apply generate_all_trajectories_fails_by_print.
  - apply generate_all_models_fails_by_print.
  - apply generate_all_trajectories_fails_by_print.
  - apply print_fails_by_print.
Qed.

End ScriptsBatch.

Lemma scripts_init_self (data_dir : Path) (self : Scripts.ThumbnailGenerator)
    (w w' : world) :
  Scripts.init data_dir w = (Ok self, w') ->
  self = Scripts.mkGenerator data_dir (data_dir /' U "models")
           (data_dir /' U "trajectories") (data_dir /' U "thumbnails").
Proof.
  unfold Scripts.init. cbv zeta. intros H.
  apply bind_Ok in H as (? & ? & _ & H). apply bind_Ok in H as (? & ? & _ & H).
  apply ret_inv in H as [<- _]. reflexivity.
Qed.

Lemma keeps_scripts_init (allowed : Path -> Prop) (data_dir : Path) :
  keeps (touches_only allowed) (Scripts.init data_dir).
Proof.
  pose proof (touches_only_refl allowed) as Hr.
  pose proof (touches_only_trans allowed) as Ht.
  unfold Scripts.init. cbv zeta.
  apply (keeps_bind _ Ht); [apply keeps_touches_only_mkdir |]. intros _.
  apply (keeps_bind _ Ht); [apply keeps_touches_only_mkdir |]. intros _.
  apply (keeps_ret _ Hr).
Qed.

Lemma scripts_main_runs (args : Scripts.Args) (w : world) :
  let data_dir := parse (Scripts.arg_data_dir args) in
  let cache := [data_dir /' U "thumbnails" /' U "models";
                data_dir /' U "thumbnails" /' U "trajectories"] in
  let run := Scripts.main args w in
  touches_only (directly_in cache) w (snd run)
  /\ forall e, fst run = Raise e ->
                Scripts.init data_dir w = (Raise e, snd run)
                \/ exists msg, print_fault w msg = Some e.
Proof.
  intros data_dir cache run.
  assert (Hm : In (data_dir /' U "thumbnails" /' U "models") cache)
    by (left; reflexivity).
  assert (Hj : In (data_dir /' U "thumbnails" /' U "trajectories") cache)
    by (right; left; reflexivity).
  subst run. destruct (Scripts.main args w) as [r w'] eqn:Erun.
  cbn [fst snd]. unfold Scripts.main in Erun. cbv zeta in Erun.
  fold data_dir in Erun.
  apply bind_inv in Erun as [(e & Einit & ->)|(self & w1 & Einit & Ed)].
  - split.
    + apply (keeps_scripts_init (directly_in cache) data_dir _ _ _ Einit).
    + intros e' He'. injection He' as <-. left. exact Einit.
  - pose proof (scripts_init_self _ _ _ _ Einit) as Hself.
    assert (Hm' : In (Scripts.thumbnails_dir self /' U "models") cache)
      by (rewrite Hself; exact Hm).
    assert (Hj' : In (Scripts.thumbnails_dir self /' U "trajectories") cache)
      by (rewrite Hself; exact Hj).
    pose proof (keeps_scripts_init (directly_in cache) data_dir _ _ _ Einit)
      as Hinit.
    split.
    + apply (touches_only_trans (directly_in cache) w w1 w'); [exact Hinit|].
      apply (keeps_dispatch self cache Hm' Hj' args _ _ _ Ed).
    + intros e He. subst r. right.
      destruct (dispatch_fails_by_print self cache Hm' Hj' args _ _ _ Ed)
        as [msg Hmsg].
      exists msg. destruct Hinit as [(_ & _ & Hp) _]. rewrite <- Hp.
      exact Hmsg.
Qed.

(** X12.  [main] of [scripts/generate_thumbnails.py] touches only the cache:
    whatever the flags and the state of the data directory, and whether the
    run ends or raises, afterwards every entry is as it was, or is a
    directory that did not exist, or is an image file directly inside
    [thumbnails/models] or [thumbnails/trajectories]; so every entry that
    existed outside these two directories, the models and trajectories among
    them, keeps its content. *)
Theorem scripts_main_touches_only_the_cache :
  forall (args : Scripts.Args) (w : world),
    let data_dir := parse (Scripts.arg_data_dir args) in
    let cache := [data_dir /' U "thumbnails" /' U "models";
                  data_dir /' U "thumbnails" /' U "trajectories"] in
    let run := Scripts.main args w in
    touches_only (directly_in cache) w (snd run)
    /\ (forall (p : Path) (n : node),
           fs w !! p = Some n -> ~ directly_in cache p ->
           fs (snd run) !! p = Some n).
Proof.
  intros args w data_dir cache run.
  destruct (scripts_main_runs args w) as [[Hfault Htouch] _].
  fold data_dir cache run in Hfault, Htouch.
  split; [split; assumption|].
  intros p n Hp Hout.
  destruct (Htouch p) as [E|[[N _]|[I _]]]; [congruence|congruence|contradiction].
Qed.

(** [--all] on the example data directory: one PNG for the model and a GIF
    for each of the four single-array trajectories that load; the two
    containers hold no ["qpos"] field and the damaged file does not load. *)
Example scripts_main_all_on_the_fixture :
  let run :=
    Scripts.main (Scripts.mkArgs true false false None None (U "data"))
      Fixture.w0 in
  let written := Fixture.paths_under (Fixture.P "data/thumbnails") (fs (snd run)) in
  fst run = Ok tt
  /\ length written = 7%nat
  /\ forallb (fun s => existsb (fun p => bool_decide (p = Fixture.P s)) written)
       ["data/thumbnails/models"; "data/thumbnails/trajectories";
        "data/thumbnails/models/3d4b9c7a1d25f302.png";
        "data/thumbnails/trajectories/cfa6cf6127c5c152.gif";
        "data/thumbnails/trajectories/038166ef309a676a.gif";
        "data/thumbnails/trajectories/0fcacfaed5577133.gif";
        "data/thumbnails/trajectories/8dd65a9be6716014.gif"]%string = true.
Proof. vm_compute. repeat split. Qed.

Section DirectoriesStay.

Lemma keeps_dirs_refl (w : world) : keeps_dirs w w.
Proof. intros p H. exact H. Qed.

Lemma keeps_dirs_trans (w1 w2 w3 : world) :
  keeps_dirs w1 w2 -> keeps_dirs w2 w3 -> keeps_dirs w1 w3.
Proof. intros H1 H2 p H. apply H2, H1, H. Qed.

(** A file is never written over a directory. *)
Lemma keeps_dirs_write_file (p : Path) (c : content) :
  keeps keeps_dirs (write_file p c).
Proof.
  intros w r w' H q Hq. unfold write_file in H.
  assert (Hins : stat (fs w) p <> Some Dir ->
                 fs (with_fs w (<[p := File c]> (fs w))) !! q = Some Dir).
  { intros Hp. cbn [fs with_fs]. destruct (decide (q = p)) as [Heq|Hne].
    - exfalso. subst q. apply Hp. unfold stat. destruct (parts p); congruence.
    - rewrite lookup_insert_ne by congruence. exact Hq. }
  destruct (stat (fs w) (parent p)) as [[|?]|];
    [|injection H as _ <-; exact Hq..].
  destruct (stat (fs w) p) as [[|?]|] eqn:Ep; injection H as _ <-.
  - exact Hq.
  - apply Hins. discriminate.
  - apply Hins. discriminate.
Qed.

Context (self : Scripts.ThumbnailGenerator).

Lemma keeps_dirs_generate_model_thumbnail (model_path : Path) :
  keeps keeps_dirs (Scripts.generate_model_thumbnail self model_path).
Proof.
  pose proof keeps_dirs_refl as Hr. pose proof keeps_dirs_trans as Ht.
  unfold Scripts.generate_model_thumbnail. cbv zeta.
  apply (keeps_try_except _ Ht); [|intros e; apply handler_keeps, Hr].
  apply (keeps_bind _ Ht); [apply (keeps_lift _ Hr)|]. intros rel.
  apply (keeps_bind _ Ht); [apply (keeps_lift _ Hr)|]. intros id.
  apply (keeps_bind _ Ht); [apply (keeps_print _ Hr)|]. intros _.
  apply (keeps_bind _ Ht).
  { unfold Scripts.render_model_thumbnail. cbv zeta.
    apply (keeps_bind _ Ht); [apply (keeps_from_xml_path _ Hr)|]. intros model.
    apply (keeps_bind _ Ht); [apply (keeps_lift _ Hr)|]. intros renderer.
    apply (keeps_bind _ Ht); [apply (keeps_render _ Hr)|]. intros px.
    apply (keeps_ret _ Hr). }
  intros px.
  apply (keeps_bind _ Ht); [apply keeps_dirs_write_file|]. intros _.
  apply (keeps_bind _ Ht); [apply (keeps_print _ Hr)|]. intros _.
  apply (keeps_ret _ Hr).
Qed.

Lemma keeps_dirs_generate_each_model (model_files : list Path) :
  forall s t : nat,
    keeps keeps_dirs (Scripts.generate_each_model self model_files s t).
Proof.
  induction model_files as [|f rest IH]; intros s t.
  - apply (keeps_ret _ keeps_dirs_refl).
  - cbn [Scripts.generate_each_model]. cbv zeta.
    apply (keeps_bind _ keeps_dirs_trans);
      [apply keeps_dirs_generate_model_thumbnail|].
    intros ok. apply IH.
Qed.

Lemma keeps_dirs_generate_all_models :
  keeps keeps_dirs (Scripts.generate_all_models self).
Proof.
  pose proof keeps_dirs_refl as Hr. pose proof keeps_dirs_trans as Ht.
  unfold Scripts.generate_all_models.
  apply (keeps_bind _ Ht); [apply (keeps_print _ Hr)|]. intros _.
  apply (keeps_bind _ Ht); [apply (keeps_rglob _ Hr)|]. intros files.
  apply (keeps_bind _ Ht); [apply keeps_dirs_generate_each_model|].
  intros counts.
  apply (keeps_bind _ Ht); [apply (keeps_print _ Hr)|]. intros _.
  apply (keeps_ret _ Hr).
Qed.

End DirectoriesStay.

Lemma init_again (data_dir : Path) (self : Scripts.ThumbnailGenerator)
    (w w1 w2 : world) :
  Scripts.init data_dir w = (Ok self, w1) ->
  keeps_dirs w1 w2 ->
  Scripts.init data_dir w2 = (Ok self, w2).
Proof.
  intros Hinit Hkeep.
  pose proof (scripts_init_self _ _ _ _ Hinit) as Hself.
  unfold Scripts.init in Hinit |- *. cbv zeta in Hinit |- *.
  cbn [Scripts.thumbnails_dir] in Hinit |- *.
  apply bind_Ok in Hinit as ([] & wa & Hm & Hinit).
  apply bind_Ok in Hinit as ([] & wb & Hj & Hinit).
  apply ret_inv in Hinit as [_ ->].
  pose proof (mkdir_makes_present _ _ _ Hm) as Pm.
  pose proof (mkdir_makes_present _ _ _ Hj) as Pj.
  pose proof (mkdir_only_new_dirs _ _ _ _ Hj) as (_ & Kj & _).
  assert (Pm2 : all_present w2 (data_dir /' U "thumbnails" /' U "models")).
  { eapply all_present_kept; [|exact Pm]. intros q Hq. apply Hkeep, Kj, Hq. }
  assert (Pj2 : all_present w2 (data_dir /' U "thumbnails" /' U "trajectories")).
  { eapply all_present_kept; [|exact Pj]. exact Hkeep. }
  unfold bind.
  rewrite (mkdir_when_present _ _ Pm2), (mkdir_when_present _ _ Pj2).
  rewrite Hself. reflexivity.
Qed.

(** X13.  [--all] is [--models] followed by [--trajectories]: a run of
    [main] with [--all] ends with the same outcome and in the same state as a
    run with [--models] followed by a run with [--trajectories] on the same
    data directory, whatever other flags accompany [--all].  (The second run
    builds its generator again, which finds the cache directories in
    place.) *)
Theorem scripts_main_all_is_models_then_trajectories :
  forall (m t t' : bool) (mid tid mid' tid' mid'' tid'' : option str)
         (data_dir : str) (w : world),
    Scripts.main (Scripts.mkArgs true m t mid tid data_dir) w
    = (let* _ := Scripts.main (Scripts.mkArgs false true t' mid' tid' data_dir) in
       Scripts.main (Scripts.mkArgs false false true mid'' tid'' data_dir)) w.
Proof.
  intros. unfold Scripts.main. cbv zeta.
  cbn [Scripts.arg_all Scripts.arg_models Scripts.arg_trajectories
       Scripts.arg_data_dir].
  set (d := parse data_dir). rewrite bind_assoc.
  apply bind_congr. intros self w1 Einit.
  apply bind_congr. intros [] w2 Em.
  unfold bind.
  rewrite (init_again d self w w1 w2 Einit
             (keeps_dirs_generate_all_models self _ _ _ Em)).
  reflexivity.
Qed.

Section BackendWrites.

Context (self : Backend.ThumbnailGenerator) (model_relative_path : str)
        (camera_name : option str) (distance azimuth elevation : option float)
        (lookat : option (float * float * float)).

Lemma webp_thumbnail (dir : Path) (p id : str) :
  Backend.get_file_id p = Ok id ->
  named_with (U ".webp") (dir /' (id ++ U ".webp")).
Proof.
  intros Hid. unfold named_with.
  rewrite (proj2 (thumbnail_parent_and_name dir p id (U ".webp") Hid eq_refl)).
  apply app_endswith.
Qed.

Lemma keeps_webp_render_model :
  keeps (touches_only (named_with (U ".webp")))
    (Backend.render_model self model_relative_path camera_name
       distance azimuth elevation lookat).
Proof.
  pose proof (touches_only_refl (named_with (U ".webp"))) as Hr.
  pose proof (touches_only_trans (named_with (U ".webp"))) as Ht.
  unfold Backend.render_model. cbv zeta.
  apply (keeps_bind _ Ht); [apply (keeps_exists _ Hr)|]. intros found.
  apply keeps_if; [apply handler_keeps, Hr|].
  apply keeps_if; [apply handler_keeps, Hr|].
  apply (keeps_try_except _ Ht); [|intros e; apply handler_keeps, Hr].
  apply (keeps_bind_lift _ Hr). intros id Hid.
  apply (keeps_bind _ Ht); [apply keeps_touches_only_mkdir|]. intros _.
  apply (keeps_bind _ Ht); [apply (keeps_print _ Hr)|]. intros _.
  apply (keeps_bind _ Ht); [apply (keeps_print _ Hr)|]. intros _.
  apply (keeps_bind _ Ht); [apply (keeps_from_xml_path _ Hr)|]. intros model.
  apply (keeps_bind _ Ht); [apply (keeps_render_with_camera _ Hr)|].
  intros px.
  apply (keeps_bind _ Ht).
  { apply keeps_touches_only_write_file, (webp_thumbnail _ _ _ Hid). }
  intros _.
  apply (keeps_bind _ Ht); [apply (keeps_print _ Hr)|]. intros _.
  apply (keeps_ret _ Hr).
Qed.

Lemma keeps_webp_render_trajectory (trajectory_path : Path) :
  keeps (touches_only (named_with (U ".webp")))
    (Backend.render_trajectory self trajectory_path model_relative_path
       camera_name distance azimuth elevation lookat).
Proof.
  pose proof (touches_only_refl (named_with (U ".webp"))) as Hr.
  pose proof (touches_only_trans (named_with (U ".webp"))) as Ht.
  unfold Backend.render_trajectory. cbv zeta.
  apply (keeps_bind _ Ht); [apply (keeps_exists _ Hr)|]. intros found.
  apply keeps_if; [apply handler_keeps, Hr|].
  apply keeps_if; [apply handler_keeps, Hr|].
  apply (keeps_try_except _ Ht); [|intros e; apply handler_keeps, Hr].
  apply (keeps_bind _ Ht); [apply (keeps_lift _ Hr)|]. intros rel.
  apply (keeps_bind_lift _ Hr). intros id Hid.
  apply (keeps_bind _ Ht); [apply keeps_touches_only_mkdir|]. intros _.
  apply (keeps_bind _ Ht); [apply (keeps_print _ Hr)|]. intros _.
  apply (keeps_bind _ Ht); [apply (keeps_print _ Hr)|]. intros _.
  apply (keeps_bind _ Ht); [apply (keeps_print _ Hr)|]. intros _.
  apply (keeps_bind _ Ht); [apply (keeps_from_xml_path _ Hr)|]. intros model.
  apply (keeps_bind _ Ht); [apply (keeps_np_load _ Hr)|]. intros loaded.
  apply (keeps_bind _ Ht).
  { destruct loaded; [apply (keeps_lift _ Hr) | apply (keeps_ret _ Hr)]. }
  intros qpos_data.
  apply (keeps_bind _ Ht); [apply (keeps_backend_render_frames _ Hr Ht)|].
  intros [|first append_images]; [apply (keeps_raise _ Hr)|].
  apply (keeps_bind _ Ht).
  { apply keeps_touches_only_write_file, (webp_thumbnail _ _ _ Hid). }
  intros _.
  apply (keeps_bind _ Ht); [apply (keeps_print _ Hr)|]. intros _.
  apply (keeps_ret _ Hr).
Qed.

Lemma keeps_webp_render_each (files : list Path) :
  forall count : nat,
    keeps (touches_only (named_with (U ".webp")))
      (Backend.render_each self model_relative_path camera_name
         distance azimuth elevation lookat files count).
Proof.
  pose proof (touches_only_refl (named_with (U ".webp"))) as Hr.
  pose proof (touches_only_trans (named_with (U ".webp"))) as Ht.
  induction files as [|f files IH]; intros count.
  - apply (keeps_ret _ Hr).
  - cbn [Backend.render_each]. cbv zeta.
    apply (keeps_bind _ Ht); [apply keeps_webp_render_trajectory|].
    intros ok.
    apply (keeps_bind _ Ht); [apply (keeps_print _ Hr)|]. intros _.
    apply IH.
Qed.

Lemma keeps_webp_render_trajectories_in_folder (folder_relative_path : str) :
  keeps (touches_only (named_with (U ".webp")))
    (Backend.render_trajectories_in_folder self folder_relative_path
       model_relative_path camera_name distance azimuth elevation lookat).
Proof.
  pose proof (touches_only_refl (named_with (U ".webp"))) as Hr.
  pose proof (touches_only_trans (named_with (U ".webp"))) as Ht.
  unfold Backend.render_trajectories_in_folder. cbv zeta.
  apply (keeps_bind _ Ht); [apply (keeps_exists _ Hr)|]. intros found.
  apply keeps_if; [apply handler_keeps, Hr|].
  apply (keeps_bind _ Ht); [apply (keeps_is_dir _ Hr)|]. intros isd.
  apply keeps_if; [apply handler_keeps, Hr|].
  apply (keeps_bind _ Ht); [apply (keeps_glob_suffix _ Hr)|]. intros npy.
  apply (keeps_bind _ Ht); [apply (keeps_glob_suffix _ Hr)|]. intros npz.
  destruct (npy ++ npz) as [|f fl] eqn:E; [apply handler_keeps, Hr|].
  apply (keeps_bind _ Ht); [apply (keeps_print _ Hr)|]. intros _.
  apply (keeps_bind _ Ht); [apply (keeps_print _ Hr)|]. intros _.
  apply (keeps_bind _ Ht); [apply keeps_webp_render_each|]. intros n.
  apply (keeps_ret _ Hr).
Qed.

End BackendWrites.

(** X14.  Rendering with [backend/scripts/generate_thumbnails.py] writes
    nothing but thumbnails: after [render_model], [render_trajectory] or
    [render_trajectories_in_folder], whatever they return, every entry is as
    it was, or is a directory that did not exist, or is an image file whose
    name ends with [.webp].  So no model, trajectory or other entry whose
    name does not end with [.webp] is ever modified or removed. *)
Theorem backend_rendering_writes_only_webp :
  forall (self : Backend.ThumbnailGenerator)
         (model_relative_path folder_relative_path : str)
         (trajectory_path : Path) (camera_name : option str)
         (distance azimuth elevation : option float)
         (lookat : option (float * float * float)) (w : world),
    let after_model :=
      snd (Backend.render_model self model_relative_path camera_name
             distance azimuth elevation lookat w) in
    let after_trajectory :=
      snd (Backend.render_trajectory self trajectory_path model_relative_path
             camera_name distance azimuth elevation lookat w) in
    let after_batch :=
      snd (Backend.render_trajectories_in_folder self folder_relative_path
             model_relative_path camera_name distance azimuth elevation
             lookat w) in
    (touches_only (named_with (U ".webp")) w after_model
     /\ touches_only (named_with (U ".webp")) w after_trajectory
     /\ touches_only (named_with (U ".webp")) w after_batch)
    /\ forall (p : Path) (n : node),
         fs w !! p = Some n -> endswith (name p) (U ".webp") = false ->
         fs after_model !! p = Some n
         /\ fs after_trajectory !! p = Some n
         /\ fs after_batch !! p = Some n.
Proof.
  intros self mrp frp tp cn d a e l w after_model after_trajectory after_batch.
  assert (Hm : touches_only (named_with (U ".webp")) w after_model).
  { subst after_model.
    destruct (Backend.render_model self mrp cn d a e l w) as [r w'] eqn:E.
    apply (keeps_webp_render_model self mrp cn d a e l _ _ _ E). }
  assert (Hj : touches_only (named_with (U ".webp")) w after_trajectory).
  { subst after_trajectory.
    destruct (Backend.render_trajectory self tp mrp cn d a e l w)
      as [r w'] eqn:E.
    apply (keeps_webp_render_trajectory self mrp cn d a e l tp _ _ _ E). }
  assert (Hb : touches_only (named_with (U ".webp")) w after_batch).
  { subst after_batch.
    destruct (Backend.render_trajectories_in_folder self frp mrp cn d a e l w)
      as [r w'] eqn:E.
    apply (keeps_webp_render_trajectories_in_folder self mrp cn d a e l frp
             _ _ _ E). }
  split; [auto|].
  intros p n Hp Hname.
  assert (Hkept : forall w', touches_only (named_with (U ".webp")) w w' ->
                             fs w' !! p = Some n).
  { intros w' [_ H]. destruct (H p) as [E|[[N _]|[I _]]].
    - congruence.
    - congruence.
    - unfold named_with in I. congruence. }
  auto.
Qed.

Lemma join_anchored (a b : Path) : root b <> [] -> a // b = b.
Proof. unfold join. destruct (root b); [congruence|reflexivity]. Qed.

(** X15.  An absolute model path takes [render_model] out of the data
    directory: when [model_relative_path] starts with a slash, the model is
    read at that very path, not under [models/], and a successful call writes
    the thumbnail [<identifier>.webp] into the model's own directory, not
    under [thumbnails/models]. *)
Theorem render_model_at_an_absolute_path :
  forall (self : Backend.ThumbnailGenerator) (model_relative_path : str)
         (camera_name : option str) (distance azimuth elevation : option float)
         (lookat : option (float * float * float)) (w : world),
    let run := Backend.render_model self model_relative_path camera_name
                 distance azimuth elevation lookat w in
    root (parse model_relative_path) <> [] ->
    fst run = Ok true ->
    Backend.models_dir self /' model_relative_path = parse model_relative_path
    /\ exists (model_id : str) (frame : Mujoco.pixels),
         Backend.get_file_id model_relative_path = Ok model_id
         /\ image_at (snd run)
              (parent (parse model_relative_path) /' (model_id ++ U ".webp"))
            = Some (PIL.mkImage PIL.WEBP [frame] None None (Some 85) (Some 6)
                      None).
Proof.
  intros self mrp cn d a e l w run Hroot Hok. split.
  - apply join_anchored, Hroot.
  - subst run. destruct (Backend.render_model self mrp cn d a e l w)
      as [r w'] eqn:E.
    cbn [fst snd] in *. subst r.
    apply backend_render_model_success in E
      as (id & frame & w1 & Hid & _ & _ & ->).
    exists id, frame. split; [exact Hid|].
    rewrite (join_anchored _ (parent (parse mrp))) by exact Hroot.
    unfold image_at. cbn [fs with_fs]. rewrite lookup_insert_eq. reflexivity.
Qed.

Lemma render_model_at_an_absolute_path_witness :
  let run := Backend.render_model Fixture.backend_self (U "/srv/robots/arm.xml")
               None None None None None Fixture4.w in
  Backend.models_dir Fixture.backend_self /' U "/srv/robots/arm.xml"
  = Fixture.P "/srv/robots/arm.xml"
  /\ exists (model_id : str) (frame : Mujoco.pixels),
       Backend.get_file_id (U "/srv/robots/arm.xml") = Ok model_id
       /\ image_at (snd run)
            (parent (Fixture.P "/srv/robots/arm.xml")
               /' (model_id ++ U ".webp"))
          = Some (PIL.mkImage PIL.WEBP [frame] None None (Some 85) (Some 6)
                    None).
Proof.
  apply (render_model_at_an_absolute_path Fixture.backend_self
           (U "/srv/robots/arm.xml") None None None None None Fixture4.w).
  - vm_compute. discriminate.
  - vm_compute. reflexivity.
Defined.

(** The thumbnail of [/srv/robots/arm.xml] lands in [/srv/robots], and the
    cache holds nothing new. *)
Example absolute_model_path_on_the_fixture :
  let run := Backend.render_model Fixture.backend_self (U "/srv/robots/arm.xml")
               None None None None None Fixture4.w in
  let below_srv := Fixture.paths_under (Fixture.P "/srv") (fs (snd run)) in
  fst run = Ok true
  /\ length below_srv = 3%nat
  /\ existsb (fun p => bool_decide
                         (p = Fixture.P "/srv/robots/90f9892d3ee43818.webp"))
       below_srv = true
  /\ Fixture.paths_under (Fixture.P "data/thumbnails") (fs (snd run))
     = Fixture.paths_under (Fixture.P "data/thumbnails") Fixture4.files.
Proof. vm_compute. repeat split. Qed.

Section NamedCamera.

Lemma from_xml_path_inv (p : Path) (m : Mujoco.MjModel) (w w' : world) :
  from_xml_path p w = (Ok m, w') ->
  stat (fs w) p = Some (File (XmlModel m)) /\ w' = w.
Proof.
  unfold from_xml_path.
  destruct (stat (fs w) p) as [[|[]]|]; intros H; try discriminate.
  injection H as -> ->. auto.
Qed.

Context (model : Mujoco.MjModel) (nm : str) (i : nat).
Context (Hnm : nm <> []).
Context (Hidx : Mujoco.index_of nm (Mujoco.cameras model) = Some i).
Context (d a e d' a' e' : option float)
        (l l' : option (float * float * float)).

Lemma render_with_camera_ignores_parameters (data : Mujoco.MjData) (w : world) :
  Backend.render_with_camera model data (Some nm) d a e l w
  = Backend.render_with_camera model data (Some nm) d' a' e' l' w.
Proof.
  rewrite !(render_with_camera_named model data _ _ _ _ nm i w Hnm Hidx).
  reflexivity.
Qed.

Lemma render_frames_ignores_parameters (qpos_data : Numpy.ndarray)
    (frame_indices : list Z) :
  forall (data : Mujoco.MjData) (frames : list Mujoco.pixels) (w : world),
    Backend.render_frames model data qpos_data (Some nm) d a e l
      frame_indices frames w
    = Backend.render_frames model data qpos_data (Some nm) d' a' e' l'
        frame_indices frames w.
Proof.
  induction frame_indices as [|idx rest IH]; intros data frames w.
  - reflexivity.
  - cbn [Backend.render_frames].
    apply bind_congr. intros row w1 _.
    apply bind_congr. intros data1 w2 _.
    apply bind_congr2; [apply render_with_camera_ignores_parameters|].
    intros px w3 _. apply IH.
Qed.

End NamedCamera.



(** With the declared camera ["track"] the call succeeds and the frame is the
    one of the model's camera 0, also when other parameters are given. *)
Example declared_camera_on_the_fixture :
  let run := Backend.render_model Fixture.backend_self (U "robot/robot.xml")
               (Some (U "track")) (Some 5%float) None None None Fixture.w1 in
  fst run = Ok true
  /\ image_at (snd run)
       (Fixture.P "data/thumbnails/models/robot/3d4b9c7a1d25f302.webp")
     = Some (PIL.mkImage PIL.WEBP
               [frame_320 Fixture.robot
                  (Mujoco.mj_forward Fixture.robot
                     (Mujoco.MjData_new Fixture.robot))
                  (Mujoco.FixedCamera 0)]
               None None (Some 85) (Some 6) None).
Proof. vm_compute. repeat split. Qed.

(** ** Runs in which no [print] fails *)

Section QuietRuns.

Context (R : world -> world -> Prop).
Context (R_refl : forall w, R w w).
Context (R_trans : forall w1 w2 w3, R w1 w2 -> R w2 w3 -> R w1 w3).
Context (R_env : forall w w', R w w' -> same_environment w w').

Lemma when_quiet_refl (w : world) : when_quiet R w w.
Proof. intros _. apply R_refl. Qed.

Lemma when_quiet_trans (w1 w2 w3 : world) :
  when_quiet R w1 w2 -> when_quiet R w2 w3 -> when_quiet R w1 w3.
Proof.
  intros H1 H2 Hq. specialize (H1 Hq).
  eapply R_trans; [exact H1|]. apply H2.
  eapply same_environment_quiet; [apply R_env, H1 | exact Hq].
Qed.

Lemma keeps_when_quiet {A} (c : M A) : keeps R c -> keeps (when_quiet R) c.
Proof. intros Hc w r w' H _. eapply Hc, H. Qed.

(** The [print] that follows the write does not fail, so a run that raises
    has not written. *)
Lemma raising_write_print_return {A} (p : Path) (c : content) (msg : message)
    (a : A) :
  keeps_when_raising (when_quiet R)
    (let* _ := write_file p c in let* _ := print msg in ret a).
Proof.
  intros w e w' H Hq.
  apply bind_inv in H as [(e' & Ec & _)|([] & w1 & Ec & Ek)].
  - unfold write_file in Ec.
    destruct (stat (fs w) (parent p)) as [[|?]|];
      [destruct (stat (fs w) p) as [[|?]|]|..];
      try discriminate; injection Ec as _ <-; apply R_refl.
  - exfalso. rewrite bind_print in Ek.
    assert (Hq1 : quiet w1).
    { unfold write_file in Ec.
      destruct (stat (fs w) (parent p)) as [[|?]|];
        [destruct (stat (fs w) p) as [[|?]|]|..];
        try discriminate; injection Ec as <-; exact Hq. }
    rewrite Hq1 in Ek. discriminate.
Qed.

(** Running from one world. *)
Lemma run_keeps_bind {A B} (c : M A) (k : A -> M B) (w : world) :
  keeps R c ->
  (forall a w1, c w = (Ok a, w1) -> run_keeps R (k a) w1) ->
  run_keeps R (bind c k) w.
Proof.
  intros Hc Hk r w' H.
  apply bind_inv in H as [(e & Ec & _)|(a & w1 & Ec & Ek)].
  - eapply Hc, Ec.
  - eapply R_trans; [eapply Hc, Ec | eapply Hk; eassumption].
Qed.

Lemma run_keeps_try_except {A} (body : M A) (msg : exn -> message) (a : A)
    (w : world) :
  run_keeps R body w ->
  run_keeps R (try_except body (fun e => let* _ := print (msg e) in ret a)) w.
Proof.
  intros Hb r w' H. unfold try_except in H.
  destruct (body w) as [[e|x] w1] eqn:Eb.
  - rewrite bind_print in H.
    destruct (print_fault w1 (msg e)); injection H as _ <-; eapply Hb, Eb.
  - injection H as _ <-. eapply Hb, Eb.
Qed.

Lemma run_keeps_handler {A} (msg : message) (a : A) (w : world) :
  run_keeps R (let* _ := print msg in ret a) w.
Proof. intros r w' H. eapply handler_keeps; eassumption. Qed.

End QuietRuns.

Lemma only_new_dirs_same_environment (w w' : world) :
  only_new_dirs w w' -> same_environment w w'.
Proof. intros [H _]. exact H. Qed.

Section FailedRenders.

Context (self : Backend.ThumbnailGenerator).
Context (camera_name : option str) (distance azimuth elevation : option float)
        (lookat : option (float * float * float)).

Lemma render_trajectory_false (trajectory_path : Path)
    (model_relative_path : str) (w w' : world) :
  quiet w ->
  Backend.render_trajectory self trajectory_path model_relative_path
    camera_name distance azimuth elevation lookat w = (Ok false, w') ->
  only_new_dirs w w'.
Proof.
  intros Hq. unfold Backend.render_trajectory. cbv zeta. rewrite bind_exists.
  destruct (stat_fault w _); [discriminate|].
  destruct (negb (bool_decide _)).
  { rewrite bind_print_quiet by exact Hq.
    intros H; injection H as <-; apply only_new_dirs_refl. }
  destruct (negb (str_eqb _ _)).
  { rewrite bind_print_quiet by exact Hq.
    intros H; injection H as <-; apply only_new_dirs_refl. }
  unfold try_except.
  match goal with |- context [match ?b w with _ => _ end] =>
    destruct (b w) as [[e|ok] w1] eqn:Ebody end.
  - intros H. rewrite bind_print in H.
    destruct (print_fault w1 _); [discriminate|]. injection H as <-.
    revert Hq. revert Ebody.
    match goal with |- ?b w = _ -> _ =>
      assert (Hb : keeps_when_raising (when_quiet only_new_dirs) b) end;
      [|apply Hb].
    pose proof (when_quiet_refl _ only_new_dirs_refl) as Hr.
    pose proof (when_quiet_trans _ only_new_dirs_trans
                  only_new_dirs_same_environment) as Ht.
    assert (Hk : forall A (c : M A), keeps only_new_dirs c ->
                                     keeps (when_quiet only_new_dirs) c).
    { intros A c. apply keeps_when_quiet. }
    apply (raising_bind _ Ht); [apply (keeps_lift _ Hr)|]. intros rel.
    apply (raising_bind _ Ht); [apply (keeps_lift _ Hr)|]. intros id.
    apply (raising_bind _ Ht); [apply Hk, mkdir_only_new_dirs|]. intros [].
    apply (raising_bind _ Ht); [apply (keeps_print _ Hr)|]. intros _.
    apply (raising_bind _ Ht); [apply (keeps_print _ Hr)|]. intros _.
    apply (raising_bind _ Ht); [apply (keeps_print _ Hr)|]. intros _.
    apply (raising_bind _ Ht); [apply (keeps_from_xml_path _ Hr)|]. intros model.
    apply (raising_bind _ Ht); [apply (keeps_np_load _ Hr)|]. intros loaded.
    apply (raising_bind _ Ht).
    { destruct loaded; [apply (keeps_lift _ Hr) | apply (keeps_ret _ Hr)]. }
    intros qpos_data.
    apply (raising_bind _ Ht);
      [apply (keeps_backend_render_frames _ Hr Ht)|].
    intros [|first rest].
    + apply raising_keeps, (keeps_raise _ Hr).
    + apply raising_write_print_return. apply only_new_dirs_refl.
  - intros H. exfalso. injection H as -> _. revert Ebody. clear.
    intros H.
    repeat (apply bind_Ok in H as (? & ? & _ & H)).
    match type of H with context [match ?l with _ => _ end] => destruct l end;
      [discriminate|].
    repeat (apply bind_Ok in H as (? & ? & _ & H)). discriminate.
Qed.

Lemma render_model_false (model_relative_path : str) (w w' : world) :
  quiet w ->
  Backend.render_model self model_relative_path
    camera_name distance azimuth elevation lookat w = (Ok false, w') ->
  only_new_dirs w w'.
Proof.
  intros Hq. unfold Backend.render_model. cbv zeta. rewrite bind_exists.
  destruct (stat_fault w _); [discriminate|].
  destruct (negb (bool_decide _)).
  { rewrite bind_print_quiet by exact Hq.
    intros H; injection H as <-; apply only_new_dirs_refl. }
  destruct (negb (str_eqb _ _)).
  { rewrite bind_print_quiet by exact Hq.
    intros H; injection H as <-; apply only_new_dirs_refl. }
  unfold try_except.
  match goal with |- context [match ?b w with _ => _ end] =>
    destruct (b w) as [[e|ok] w1] eqn:Ebody end.
  - intros H. rewrite bind_print in H.
    destruct (print_fault w1 _); [discriminate|]. injection H as <-.
    revert Hq. revert Ebody.
    match goal with |- ?b w = _ -> _ =>
      assert (Hb : keeps_when_raising (when_quiet only_new_dirs) b) end;
      [|apply Hb].
    pose proof (when_quiet_refl _ only_new_dirs_refl) as Hr.
    pose proof (when_quiet_trans _ only_new_dirs_trans
                  only_new_dirs_same_environment) as Ht.
    apply (raising_bind _ Ht); [apply (keeps_lift _ Hr)|]. intros id.
    apply (raising_bind _ Ht);
      [apply keeps_when_quiet, mkdir_only_new_dirs|]. intros [].
    apply (raising_bind _ Ht); [apply (keeps_print _ Hr)|]. intros _.
    apply (raising_bind _ Ht); [apply (keeps_print _ Hr)|]. intros _.
    apply (raising_bind _ Ht); [apply (keeps_from_xml_path _ Hr)|]. intros model.
    apply (raising_bind _ Ht); [apply (keeps_render_with_camera _ Hr)|].
    intros px.
    apply raising_write_print_return. apply only_new_dirs_refl.
  - intros H. exfalso. injection H as -> _. revert Ebody. clear.
    intros H.
    repeat (apply bind_Ok in H as (? & ? & _ & H)).
    discriminate.
Qed.

End FailedRenders.

Section ScriptsFailures.

Context (self : Scripts.ThumbnailGenerator).

Lemma same_world_environment (w w' : world) : w' = w -> same_environment w w'.
Proof. intros ->. apply same_environment_refl. Qed.

Lemma generate_trajectory_gif_false (model_path trajectory_path : Path)
    (w w' : world) :
  quiet w ->
  Scripts.generate_trajectory_gif self model_path trajectory_path w
  = (Ok false, w') ->
  w' = w.
Proof.
  intros Hq. unfold Scripts.generate_trajectory_gif. cbv zeta.
  unfold try_except.
  match goal with |- context [match ?b w with _ => _ end] =>
    destruct (b w) as [[e|ok] w1] eqn:Ebody end.
  - intros H. rewrite bind_print in H.
    destruct (print_fault w1 _); [discriminate|]. injection H as <-.
    revert Hq. revert Ebody.
    match goal with |- ?b w = _ -> _ =>
      assert (Hb : keeps_when_raising (when_quiet (fun w w' => w' = w)) b) end;
      [|apply Hb].
    assert (Hr0 : forall w0 : world, w0 = w0) by reflexivity.
    assert (Ht0 : forall w1 w2 w3 : world, w2 = w1 -> w3 = w2 -> w3 = w1)
      by congruence.
    pose proof (when_quiet_refl (fun w w' : world => w' = w) Hr0) as Hr.
    pose proof (when_quiet_trans (fun w w' : world => w' = w) Ht0
                  same_world_environment) as Ht.
    apply (raising_bind _ Ht); [apply (keeps_lift _ Hr)|]. intros rel.
    apply (raising_bind _ Ht); [apply (keeps_lift _ Hr)|]. intros id.
    apply (raising_bind _ Ht); [apply (keeps_print _ Hr)|]. intros _.
    apply (raising_bind _ Ht); [apply (keeps_from_xml_path _ Hr)|]. intros model.
    apply (raising_bind _ Ht); [apply (keeps_np_load _ Hr)|]. intros loaded.
    apply (raising_bind _ Ht).
    { destruct loaded; [apply (keeps_lift _ Hr) | apply (keeps_ret _ Hr)]. }
    intros qpos_data.
    apply (raising_bind _ Ht);
      [apply (keeps_scripts_render_frames _ Hr Ht)|].
    intros frames.
    apply raising_write_print_return. exact Hr0.
  - intros H. exfalso. injection H as -> _. revert Ebody. clear.
    intros H.
    repeat (apply bind_Ok in H as (? & ? & _ & H)).
    discriminate.
Qed.

Lemma generate_model_thumbnail_false (model_path : Path) (w w' : world) :
  quiet w ->
  Scripts.generate_model_thumbnail self model_path w = (Ok false, w') ->
  w' = w.
Proof.
  intros Hq. unfold Scripts.generate_model_thumbnail. cbv zeta.
  unfold try_except.
  match goal with |- context [match ?b w with _ => _ end] =>
    destruct (b w) as [[e|ok] w1] eqn:Ebody end.
  - intros H. rewrite bind_print in H.
    destruct (print_fault w1 _); [discriminate|]. injection H as <-.
    revert Hq. revert Ebody.
    match goal with |- ?b w = _ -> _ =>
      assert (Hb : keeps_when_raising (when_quiet (fun w w' => w' = w)) b) end;
      [|apply Hb].
    assert (Hr0 : forall w0 : world, w0 = w0) by reflexivity.
    assert (Ht0 : forall w1 w2 w3 : world, w2 = w1 -> w3 = w2 -> w3 = w1)
      by congruence.
    pose proof (when_quiet_refl (fun w w' : world => w' = w) Hr0) as Hr.
    pose proof (when_quiet_trans (fun w w' : world => w' = w) Ht0
                  same_world_environment) as Ht.
    apply (raising_bind _ Ht); [apply (keeps_lift _ Hr)|]. intros rel.
    apply (raising_bind _ Ht); [apply (keeps_lift _ Hr)|]. intros id.
    apply (raising_bind _ Ht); [apply (keeps_print _ Hr)|]. intros _.
    apply (raising_bind _ Ht).
    { unfold Scripts.render_model_thumbnail. cbv zeta.
      apply (keeps_bind _ Ht); [apply (keeps_from_xml_path _ Hr)|]. intros model.
      apply (keeps_bind _ Ht); [apply (keeps_lift _ Hr)|]. intros renderer.
      apply (keeps_bind _ Ht); [apply (keeps_render _ Hr)|]. intros px.
      apply (keeps_ret _ Hr). }
    intros px.
    apply raising_write_print_return. exact Hr0.
  - intros H. exfalso. injection H as -> _. revert Ebody. clear.
    intros H.
    repeat (apply bind_Ok in H as (? & ? & _ & H)).
    discriminate.
Qed.

End ScriptsFailures.

Lemma fixture_is_quiet : quiet Fixture.w1.
Proof. intros msg. reflexivity. Qed.

(** X1.  Provided no [print] call fails, a call of [render_trajectory] or
    [render_model] that returns [False] has written no file and altered no
    entry: the world differs from the one it started in by, at most,
    directories created on the way. *)
Theorem failed_backend_render_writes_no_file :
  forall (self : Backend.ThumbnailGenerator) (camera_name : option str)
         (distance azimuth elevation : option float)
         (lookat : option (float * float * float))
         (trajectory_path : Path) (model_relative_path : str) (w : world),
    quiet w ->
    (fst (Backend.render_trajectory self trajectory_path model_relative_path
            camera_name distance azimuth elevation lookat w) = Ok false ->
     only_new_dirs w
       (snd (Backend.render_trajectory self trajectory_path model_relative_path
               camera_name distance azimuth elevation lookat w)))
    /\ (fst (Backend.render_model self model_relative_path
               camera_name distance azimuth elevation lookat w) = Ok false ->
        only_new_dirs w
          (snd (Backend.render_model self model_relative_path
                  camera_name distance azimuth elevation lookat w))).
Proof.
  intros self cn d a e l tp mrp w Hq. split; intros H.
  - destruct (Backend.render_trajectory _ _ _ _ _ _ _ _ _) as [r w'] eqn:E.
    simpl in H |- *. subst r. eapply render_trajectory_false; eassumption.
  - destruct (Backend.render_model _ _ _ _ _ _ _ _) as [r w'] eqn:E.
    simpl in H |- *. subst r. eapply render_model_false; eassumption.
Qed.

Lemma failed_backend_render_writes_no_file_witness :
  only_new_dirs Fixture.w1
    (snd (Backend.render_trajectory Fixture.backend_self
            (Fixture.P "data/trajectories/locomotion/broken.npy")
            (U "robot/robot.xml") None None None None None Fixture.w1))
  /\ only_new_dirs Fixture.w1
       (snd (Backend.render_model Fixture.backend_self
               (U "robot/missing.xml") None None None None None Fixture.w1)).
Proof.
  split.
  - apply (proj1 (failed_backend_render_writes_no_file Fixture.backend_self
                    None None None None None
                    (Fixture.P "data/trajectories/locomotion/broken.npy")
                    (U "robot/robot.xml") Fixture.w1
                    (fun msg => eq_refl))).
    vm_compute; reflexivity.
  - apply (proj2 (failed_backend_render_writes_no_file Fixture.backend_self
                    None None None None None
                    (Fixture.P "data/trajectories/locomotion/broken.npy")
                    (U "robot/missing.xml") Fixture.w1
                    (fun msg => eq_refl))).
    vm_compute; reflexivity.
Defined.

(** The directory for the thumbnail is created before the trajectory is
    read, so a failed render can leave it behind. *)
Example failed_render_leaves_directory :
  fs Fixture.w1 !! Fixture.P "data/thumbnails/trajectories/locomotion" = None
  /\ fs (snd (Backend.render_trajectory Fixture.backend_self
                (Fixture.P "data/trajectories/locomotion/broken.npy")
                (U "robot/robot.xml") None None None None None Fixture.w1))
       !! Fixture.P "data/thumbnails/trajectories/locomotion"
     = Some Dir.
Proof. split; vm_compute; reflexivity. Qed.

(** When the message that follows the save cannot be printed, the call
    returns [False] although the thumbnail is written: here the data
    directory is [d\udcff] and the console refuses the lone surrogate in
    ["Saved to d\udcff/thumbnails/..."]. *)
Example print_failure_after_the_save :
  let model_run :=
    Backend.render_model Fixture5.backend_self (U "robot.xml")
      None None None None None Fixture5.w in
  let trajectory_run :=
    Backend.render_trajectory Fixture5.backend_self
      (parse Fixture5.d /' U "trajectories/walk.npy") (U "robot.xml")
      None None None None None Fixture5.w in
  let png_run :=
    Scripts.generate_model_thumbnail Fixture5.scripts_self
      (parse Fixture5.d /' U "models/robot.xml") Fixture5.w in
  let gif_run :=
    Scripts.generate_trajectory_gif Fixture5.scripts_self
      (parse Fixture5.d /' U "models/robot.xml")
      (parse Fixture5.d /' U "trajectories/walk.npy") Fixture5.w in
  fst model_run = Ok false
  /\ is_Some (image_at (snd model_run)
                (parse Fixture5.d /' U "thumbnails/models/0d540b910dd6a075.webp"))
  /\ fst trajectory_run = Ok false
  /\ is_Some (image_at (snd trajectory_run)
                (parse Fixture5.d
                   /' U "thumbnails/trajectories/05ca7a0c324f796c.webp"))
  /\ fst png_run = Ok false
  /\ is_Some (image_at (snd png_run)
                (parse Fixture5.d /' U "thumbnails/models/0d540b910dd6a075.png"))
  /\ fst gif_run = Ok false
  /\ is_Some (image_at (snd gif_run)
                (parse Fixture5.d
                   /' U "thumbnails/trajectories/05ca7a0c324f796c.gif")).
Proof. vm_compute. repeat split; eexists; reflexivity. Qed.

(** X2.  In [scripts/generate_thumbnails.py], provided no [print] call
    fails, a call of [generate_trajectory_gif] or [generate_model_thumbnail]
    that returns [False] leaves the world exactly as it found it. *)
Theorem failed_scripts_render_changes_nothing :
  forall (self : Scripts.ThumbnailGenerator) (model_path trajectory_path : Path)
         (w : world),
    quiet w ->
    (fst (Scripts.generate_trajectory_gif self model_path trajectory_path w)
     = Ok false ->
     snd (Scripts.generate_trajectory_gif self model_path trajectory_path w) = w)
    /\ (fst (Scripts.generate_model_thumbnail self model_path w) = Ok false ->
        snd (Scripts.generate_model_thumbnail self model_path w) = w).
Proof.
  intros self mp tp w Hq. split; intros H.
  - destruct (Scripts.generate_trajectory_gif _ _ _ _) as [r w'] eqn:E.
    simpl in H |- *. subst r. eapply generate_trajectory_gif_false; eassumption.
  - destruct (Scripts.generate_model_thumbnail _ _ _) as [r w'] eqn:E.
    simpl in H |- *. subst r. eapply generate_model_thumbnail_false; eassumption.
Qed.

Lemma failed_scripts_render_changes_nothing_witness :
  snd (Scripts.generate_trajectory_gif Fixture.scripts_self
         (Fixture.P "data/models/robot/robot.xml")
         (Fixture.P "data/trajectories/locomotion/broken.npy") Fixture.w1)
  = Fixture.w1
  /\ snd (Scripts.generate_model_thumbnail Fixture.scripts_self
            (Fixture.P "data/models/robot/missing.xml") Fixture.w1)
     = Fixture.w1.
Proof.
  split.
  - apply (proj1 (failed_scripts_render_changes_nothing Fixture.scripts_self
                    (Fixture.P "data/models/robot/robot.xml")
                    (Fixture.P "data/trajectories/locomotion/broken.npy")
                    Fixture.w1 (fun msg => eq_refl))).
    vm_compute; reflexivity.
  - apply (proj2 (failed_scripts_render_changes_nothing Fixture.scripts_self
                    (Fixture.P "data/models/robot/missing.xml")
                    (Fixture.P "data/trajectories/locomotion/broken.npy")
                    Fixture.w1 (fun msg => eq_refl))).
    vm_compute; reflexivity.
Defined.

(** ** C4: batch rendering *)

Section Batch.

Context (self : Backend.ThumbnailGenerator) (model_relative_path : str)
        (camera_name : option str) (distance azimuth elevation : option float)
        (lookat : option (float * float * float)).

(** With [os.stat] answering for the model path and every [print] going
    through, a call returns. *)
Lemma render_trajectory_returns (f : Path) (w : world) :
  quiet w ->
  stat_fault w (Backend.models_dir self /' model_relative_path) = None ->
  exists b w',
    Backend.render_trajectory self f model_relative_path camera_name
      distance azimuth elevation lookat w = (Ok b, w')
    /\ same_environment w w'.
Proof.
  intros Hq Hs.
  destruct (Backend.render_trajectory self f model_relative_path camera_name
              distance azimuth elevation lookat w) as [r w'] eqn:E.
  pose proof (keeps_same_environment _ _
                (keeps_webp_render_trajectory self model_relative_path
                   camera_name distance azimuth elevation lookat f)
                _ _ _ E) as Henv.
  destruct r as [e|b]; [exfalso|eauto].
  revert E. unfold Backend.render_trajectory. cbv zeta.
  rewrite bind_exists, Hs.
  destruct (negb (bool_decide _));
    [rewrite bind_print_quiet by exact Hq; discriminate|].
  destruct (negb (str_eqb _ _));
    [rewrite bind_print_quiet by exact Hq; discriminate|].
  unfold try_except.
  match goal with |- context [match ?b w with _ => _ end] =>
    destruct (b w) as [[e1|ok] w1] end; [|discriminate].
  rewrite bind_print. destruct (print_fault w1 _) as [e2|] eqn:Ep;
    [|discriminate].
  intros H. injection H as _ <-.
  rewrite (same_environment_quiet _ _ Henv Hq) in Ep. discriminate.
Qed.

Lemma render_each_in_turn (files : list Path) :
  forall (count : nat) (w : world),
    quiet w ->
    stat_fault w (Backend.models_dir self /' model_relative_path) = None ->
    exists outcomes w',
      renders_in_turn self model_relative_path camera_name
        distance azimuth elevation lookat w files outcomes w'
      /\ Backend.render_each self model_relative_path camera_name
           distance azimuth elevation lookat files count w
         = (Ok (count + successes outcomes)%nat, w').
Proof.
  induction files as [|f files IH]; intros count w Hq Hs.
  - exists [], w. split; [constructor|].
    simpl. unfold ret, successes. simpl. rewrite Nat.add_0_r. reflexivity.
  - destruct (render_trajectory_returns f w Hq Hs) as (b & w1 & Hf & Henv).
    pose proof (same_environment_quiet _ _ Henv Hq) as Hq1.
    assert (Hs1 : stat_fault w1 (Backend.models_dir self /' model_relative_path)
                  = None).
    { destruct Henv as (_ & -> & _). exact Hs. }
    destruct (IH (if b then S count else count) w1 Hq1 Hs1)
      as (outcomes & w2 & Hrun & Heach).
    exists (b :: outcomes), w2. split; [econstructor; eauto|].
    cbn [Backend.render_each]. cbv zeta. unfold bind at 1. rewrite Hf.
    rewrite bind_print_quiet by exact Hq1. rewrite Heach.
    unfold successes. destruct b; simpl; do 2 f_equal; lia.
Qed.

(** A batch call that returns has taken the files in turn. *)
Lemma render_each_Ok (files : list Path) :
  forall (count s : nat) (w w' : world),
    Backend.render_each self model_relative_path camera_name
      distance azimuth elevation lookat files count w = (Ok s, w') ->
    exists outcomes,
      renders_in_turn self model_relative_path camera_name
        distance azimuth elevation lookat w files outcomes w'
      /\ s = (count + successes outcomes)%nat.
Proof.
  induction files as [|f files IH]; intros count s w w' H.
  - apply ret_inv in H as [<- ->]. exists []. split; [constructor|].
    unfold successes. simpl. lia.
  - cbn [Backend.render_each] in H. cbv zeta in H.
    apply bind_Ok in H as (b & w1 & Hf & H).
    apply bind_Ok in H as ([] & w2 & Hp & H).
    apply print_inv in Hp as [-> _].
    apply IH in H as (outcomes & Hrun & ->).
    exists (b :: outcomes). split; [econstructor; eauto|].
    unfold successes. destruct b; simpl; lia.
Qed.

End Batch.

Lemma renders_in_turn_length (self : Backend.ThumbnailGenerator)
    (model_relative_path : str) (camera_name : option str)
    (distance azimuth elevation : option float)
    (lookat : option (float * float * float))
    (w w' : world) (files : list Path) (outcomes : list bool) :
  renders_in_turn self model_relative_path camera_name distance azimuth
    elevation lookat w files outcomes w' ->
  length outcomes = length files.
Proof. induction 1; simpl; congruence. Qed.

(** C4.  When [os.stat] answers for the folder and for the model path (two
    paths without [".."]) and every progress message can be printed, a batch
    call hands every file of
    the folder matching ["*.npy"] or ["*.npz"] to [render_trajectory], one
    after the other; each of these calls returns [True] or [False] (an
    exception inside its [try] is absorbed and counts as [False]); the batch
    call itself does not raise and returns the pair (number of [True]
    outcomes, number of files). *)
Theorem batch_render_tolerates_failures :
  forall (self : Backend.ThumbnailGenerator)
         (folder_relative_path model_relative_path : str)
         (camera_name : option str) (distance azimuth elevation : option float)
         (lookat : option (float * float * float)) (w : world),
    let files := trajectory_files_of self folder_relative_path w in
    let folder_path := Backend.trajectories_dir self /' folder_relative_path in
    let model_path := Backend.models_dir self /' model_relative_path in
    quiet w ->
    plain folder_path = true -> stat_fault w folder_path = None ->
    plain model_path = true -> stat_fault w model_path = None ->
    exists (outcomes : list bool) (w' : world),
      renders_in_turn self model_relative_path camera_name
        distance azimuth elevation lookat w files outcomes w'
      /\ length outcomes = length files
      /\ Backend.render_trajectories_in_folder self folder_relative_path
           model_relative_path camera_name distance azimuth elevation lookat w
         = (Ok (successes outcomes, length files), w').
Proof.
  intros self frp mrp cn d a e l w files folder_path model_path
    Hq _ Hfolder _ Hmodel.
  subst files folder_path model_path. unfold trajectory_files_of, Backend.render_trajectories_in_folder.
  cbv zeta. rewrite bind_exists, Hfolder.
  set (folder := Backend.trajectories_dir self /' frp) in *.
  destruct (stat (fs w) folder) as [[|c]|] eqn:Hst.
  - (* a directory *)
    rewrite bool_decide_eq_true_2 by eauto. cbn [negb].
    rewrite bind_is_dir, Hfolder, Hst. cbn [negb].
    rewrite !bind_glob_suffix.
    set (files := entries_matching _ _ _ ++ entries_matching _ _ _).
    destruct (render_each_in_turn self mrp cn d a e l files 0%nat w Hq Hmodel)
      as (outcomes & w' & Hrun & Heach).
    exists outcomes, w'. split; [exact Hrun|].
    split; [eapply renders_in_turn_length; eauto|].
    destruct files as [|f files'] eqn:Hfiles.
    + inversion Hrun; subst. rewrite bind_print_quiet by exact Hq. reflexivity.
    + rewrite <- Hfiles in *. rewrite !bind_print_quiet by exact Hq.
      unfold bind. rewrite Heach. reflexivity.
  - (* a regular file *)
    rewrite bool_decide_eq_true_2 by eauto. cbn [negb].
    rewrite bind_is_dir, Hfolder, Hst. cbn [negb].
    rewrite bind_print_quiet by exact Hq.
    exists [], w. split; [constructor|]. split; reflexivity.
  - (* nothing there *)
    rewrite bool_decide_eq_false_2 by (intros [? ?]; discriminate). cbn [negb].
    rewrite bind_print_quiet by exact Hq.
    exists [], w. split; [constructor|]. split; reflexivity.
Qed.

Lemma batch_render_tolerates_failures_witness :
  exists (outcomes : list bool) (w' : world),
    renders_in_turn Fixture.backend_self (U "robot/robot.xml")
      None None None None None Fixture.w1
      (trajectory_files_of Fixture.backend_self (U "locomotion") Fixture.w1)
      outcomes w'
    /\ length outcomes
       = length (trajectory_files_of Fixture.backend_self (U "locomotion")
                   Fixture.w1)
    /\ Backend.render_trajectories_in_folder Fixture.backend_self
         (U "locomotion") (U "robot/robot.xml") None None None None None
         Fixture.w1
       = (Ok (successes outcomes,
              length (trajectory_files_of Fixture.backend_self (U "locomotion")
                        Fixture.w1)), w').
Proof.
  apply (batch_render_tolerates_failures Fixture.backend_self (U "locomotion")
           (U "robot/robot.xml") None None None None None Fixture.w1).
  - intros msg. reflexivity.
  - reflexivity.
  - reflexivity.
  - reflexivity.
  - reflexivity.
Defined.

(** The batch call does raise when an existence check or a progress message
    fails, as these sit outside every [try]: with a model name of 256
    characters [os.stat] fails with [ENAMETOOLONG] in the first
    [render_trajectory], and with standard output closed the first [print]
    fails; in both cases five trajectory files are waiting. *)
Lemma batch_render_raises_outside_the_try :
  length (trajectory_files_of Fixture.backend_self (U "locomotion")
            Fixture5.w_stat) = 5%nat
  /\ fst (Backend.render_trajectories_in_folder Fixture.backend_self
            (U "locomotion") Fixture5.long_name
            None None None None None Fixture5.w_stat)
     = Raise (OSError 36)
  /\ fst (Backend.render_trajectories_in_folder Fixture.backend_self
            (U "locomotion") (U "robot/robot.xml")
            None None None None None Fixture5.w_closed)
     = Raise (OSError 32).
Proof. repeat split; vm_compute; reflexivity. Qed.

(** Five trajectory files, one of them malformed: four successes out of
    five, and no exception. *)
Example batch_four_of_five :
  length (trajectory_files_of Fixture.backend_self (U "locomotion") Fixture.w1)
  = 5%nat
  /\ fst (Backend.render_trajectories_in_folder Fixture.backend_self
            (U "locomotion") (U "robot/robot.xml")
            None None None None None Fixture.w1)
     = Ok (4, 5)%nat
  /\ fst (Backend.render_trajectory Fixture.backend_self
            (Fixture.P "data/trajectories/locomotion/broken.npy")
            (U "robot/robot.xml") None None None None None Fixture.w1)
     = Ok false.
Proof. repeat split; vm_compute; reflexivity. Qed.

Section WithoutModel.

Context (self : Backend.ThumbnailGenerator).
Context (camera_name : option str) (distance azimuth elevation : option float)
        (lookat : option (float * float * float)).

(** Without the model nothing is attempted. *)
Lemma render_trajectory_without_model (trajectory_path : Path)
    (model_relative_path : str) (w : world) :
  quiet w ->
  stat_fault w (Backend.models_dir self /' model_relative_path) = None ->
  stat (fs w) (Backend.models_dir self /' model_relative_path) = None ->
  Backend.render_trajectory self trajectory_path model_relative_path
    camera_name distance azimuth elevation lookat w = (Ok false, w).
Proof.
  intros Hq Hs H. unfold Backend.render_trajectory. cbv zeta.
  rewrite bind_exists, Hs, H.
  rewrite bool_decide_eq_false_2 by (intros [? ?]; discriminate).
  cbn [negb]. rewrite bind_print_quiet by exact Hq. reflexivity.
Qed.

Lemma render_each_without_model (model_relative_path : str) (w : world)
    (files : list Path) :
  quiet w ->
  stat_fault w (Backend.models_dir self /' model_relative_path) = None ->
  stat (fs w) (Backend.models_dir self /' model_relative_path) = None ->
  forall count,
    Backend.render_each self model_relative_path camera_name
      distance azimuth elevation lookat files count w = (Ok count, w).
Proof.
  intros Hq Hs H. induction files as [|f files IH]; intros count;
    cbn [Backend.render_each].
  - reflexivity.
  - unfold bind at 1.
    rewrite render_trajectory_without_model by assumption.
    rewrite bind_print_quiet by exact Hq. apply IH.
Qed.

End WithoutModel.

(** X3.  When the model document is not there, the backend script attempts
    nothing: provided [os.stat] answers for the paths it is asked about and
    every message can be printed, [render_model] and [render_trajectory]
    return [False] and a batch call returns zero successes out of the files
    it found, and none of them changes the world, not even by a directory.
    (The paths have no [".."] component: such a path is looked up as the
    operating system would.) *)
Theorem render_without_model_does_nothing :
  forall (self : Backend.ThumbnailGenerator) (model_relative_path : str)
         (camera_name : option str) (distance azimuth elevation : option float)
         (lookat : option (float * float * float)) (w : world),
    let model_path := Backend.models_dir self /' model_relative_path in
    quiet w ->
    plain model_path = true ->
    stat_fault w model_path = None ->
    stat (fs w) model_path = None ->
    Backend.render_model self model_relative_path
      camera_name distance azimuth elevation lookat w = (Ok false, w)
    /\ (forall trajectory_path,
          Backend.render_trajectory self trajectory_path model_relative_path
            camera_name distance azimuth elevation lookat w = (Ok false, w))
    /\ (forall folder_relative_path,
          let folder_path :=
            Backend.trajectories_dir self /' folder_relative_path in
          plain folder_path = true ->
          stat_fault w folder_path = None ->
          Backend.render_trajectories_in_folder self folder_relative_path
            model_relative_path camera_name distance azimuth elevation lookat w
          = (Ok (0%nat,
                 length (trajectory_files_of self folder_relative_path w)), w)).
Proof.
  intros self mrp cn d a e l w model_path Hq _ Hs Hmodel. subst model_path.
  split; [|split].
  - unfold Backend.render_model. cbv zeta. rewrite bind_exists, Hs, Hmodel.
    rewrite bool_decide_eq_false_2 by (intros [? ?]; discriminate).
    cbn [negb]. rewrite bind_print_quiet by exact Hq. reflexivity.
  - intros tp. apply render_trajectory_without_model; assumption.
  - intros frp folder _ Hfs. subst folder.
    unfold trajectory_files_of, Backend.render_trajectories_in_folder.
    cbv zeta. rewrite bind_exists, Hfs.
    set (folder := Backend.trajectories_dir self /' frp) in *.
    destruct (stat (fs w) folder) as [[|c]|] eqn:Hst.
    + rewrite bool_decide_eq_true_2 by eauto. cbn [negb].
      rewrite bind_is_dir, Hfs, Hst. cbn [negb].
      rewrite !bind_glob_suffix.
      set (files := entries_matching _ _ _ ++ entries_matching _ _ _).
      destruct files as [|f files'] eqn:Hfiles;
        [rewrite bind_print_quiet by exact Hq; reflexivity|].
      rewrite <- Hfiles. rewrite !bind_print_quiet by exact Hq. unfold bind.
      rewrite render_each_without_model by assumption. reflexivity.
    + rewrite bool_decide_eq_true_2 by eauto. cbn [negb].
      rewrite bind_is_dir, Hfs, Hst. cbn [negb].
      rewrite bind_print_quiet by exact Hq. reflexivity.
    + rewrite bool_decide_eq_false_2 by (intros [? ?]; discriminate).
      cbn [negb]. rewrite bind_print_quiet by exact Hq. reflexivity.
Qed.

Lemma render_without_model_does_nothing_witness :
  Backend.render_model Fixture.backend_self (U "robot/missing.xml")
    None None None None None Fixture.w1 = (Ok false, Fixture.w1)
  /\ (forall trajectory_path,
        Backend.render_trajectory Fixture.backend_self trajectory_path
          (U "robot/missing.xml") None None None None None Fixture.w1
        = (Ok false, Fixture.w1))
  /\ Backend.render_trajectories_in_folder Fixture.backend_self
       (U "locomotion") (U "robot/missing.xml")
       None None None None None Fixture.w1
     = (Ok (0%nat,
            length (trajectory_files_of Fixture.backend_self
                      (U "locomotion") Fixture.w1)), Fixture.w1).
Proof.
  destruct (render_without_model_does_nothing Fixture.backend_self
              (U "robot/missing.xml") None None None None None Fixture.w1)
    as (Hmodel & Htrajectory & Hbatch).
  - intros msg. reflexivity.
  - reflexivity.
  - reflexivity.
  - vm_compute; reflexivity.
  - split; [exact Hmodel|]. split; [exact Htrajectory|].
    apply (Hbatch (U "locomotion")); reflexivity.
Defined.

(** The model is there under a name with [".."], which the operating system
    resolves; nothing is stored under the name as written. *)
Example model_path_with_dot_dot :
  plain (Backend.models_dir Fixture.backend_self /' U "robot/../robot/robot.xml")
  = false
  /\ stat (fs Fixture.w1)
       (Backend.models_dir Fixture.backend_self /' U "robot/../robot/robot.xml")
     = None
  /\ Backend.get_file_id (U "robot/../robot/robot.xml")
     = Ok (U "746485e899a83d2a").
Proof. repeat split; vm_compute; reflexivity. Qed.

Section EmptyRuns.

Lemma render_frames_of_empty (model : Mujoco.MjModel) (data : Mujoco.MjData)
    (qpos_data : Numpy.ndarray) (camera_name : option str)
    (distance azimuth elevation : option float)
    (lookat : option (float * float * float)) (w : world) :
  Numpy.len qpos_data = 0%nat ->
  Backend.render_frames model data qpos_data camera_name distance azimuth
    elevation lookat (Backend.sample_frame_indices (Numpy.len qpos_data)) [] w
  = (Raise IndexError, w).
Proof.
  intros Hlen.
  destruct (sample_frame_indices_head (Numpy.len qpos_data))
    as (rest & Hhead & _).
  rewrite Hhead. cbn [Backend.render_frames].
  rewrite getitem_empty by exact Hlen. reflexivity.
Qed.

Lemma scripts_render_frames_of_empty (model : Mujoco.MjModel)
    (data : Mujoco.MjData) (renderer : Mujoco.Renderer)
    (qpos_data : Numpy.ndarray) (w : world) :
  Numpy.len qpos_data = 0%nat ->
  Scripts.render_frames model data renderer qpos_data
    (Scripts.sample_frame_indices (Numpy.len qpos_data)) [] w
  = (Raise IndexError, w).
Proof.
  intros Hlen.
  destruct (sample_frame_indices_head (Numpy.len qpos_data))
    as (rest & _ & Hhead).
  rewrite Hhead. cbn [Scripts.render_frames].
  rewrite getitem_empty by exact Hlen. reflexivity.
Qed.

Context (qpos_data : Numpy.ndarray) (trajectory_path : Path).
Context (Hlen : Numpy.len qpos_data = 0%nat).

Lemma np_load_of_empty (w w' : world) (loaded : Numpy.loaded) :
  stat (fs w) trajectory_path = Some (File (NpyFile qpos_data)) ->
  np_load trajectory_path w = (Ok loaded, w') ->
  loaded = Numpy.Array qpos_data /\ w' = w.
Proof.
  intros Hstat H. unfold np_load in H. rewrite Hstat in H.
  injection H as <- <-. auto.
Qed.

Lemma render_trajectory_of_empty (self : Backend.ThumbnailGenerator)
    (model_relative_path : str) (camera_name : option str)
    (distance azimuth elevation : option float)
    (lookat : option (float * float * float)) (w : world) :
  stat (fs w) trajectory_path = Some (File (NpyFile qpos_data)) ->
  run_keeps only_new_dirs
    (Backend.render_trajectory self trajectory_path model_relative_path
       camera_name distance azimuth elevation lookat) w.
Proof.
  intros Hstat.
  pose proof only_new_dirs_refl as Hr. pose proof only_new_dirs_trans as Ht.
  unfold Backend.render_trajectory. cbv zeta.
  apply (run_keeps_bind _ Ht); [apply (keeps_exists _ Hr)|].
  intros found w0 Hfound.
  assert (w0 = w) as ->.
  { unfold exists_ in Hfound. destruct (stat_fault w _); [discriminate|].
    injection Hfound as _ <-. reflexivity. }
  destruct (negb found); [apply run_keeps_handler, Hr|].
  destruct (negb (str_eqb _ _)); [apply run_keeps_handler, Hr|].
  apply run_keeps_try_except.
  apply (run_keeps_bind _ Ht); [apply (keeps_lift _ Hr)|].
  intros rel w1 E. apply lift_inv in E as [_ ->].
  apply (run_keeps_bind _ Ht); [apply (keeps_lift _ Hr)|].
  intros id w1 E. apply lift_inv in E as [_ ->].
  apply (run_keeps_bind _ Ht); [apply mkdir_only_new_dirs|].
  intros [] w1 Hmk.
  pose proof (stat_kept _ _ _ _ (mkdir_only_new_dirs _ _ _ _ Hmk) Hstat)
    as Hstat1.
  apply (run_keeps_bind _ Ht); [apply (keeps_print _ Hr)|].
  intros [] w2 E. apply print_inv in E as [-> _].
  apply (run_keeps_bind _ Ht); [apply (keeps_print _ Hr)|].
  intros [] w2 E. apply print_inv in E as [-> _].
  apply (run_keeps_bind _ Ht); [apply (keeps_print _ Hr)|].
  intros [] w2 E. apply print_inv in E as [-> _].
  apply (run_keeps_bind _ Ht); [apply (keeps_from_xml_path _ Hr)|].
  intros model w2 E. apply from_xml_path_world in E as ->.
  apply (run_keeps_bind _ Ht); [apply (keeps_np_load _ Hr)|].
  intros loaded w2 E. apply (np_load_of_empty _ _ _ Hstat1) in E as [-> ->].
  apply (run_keeps_bind _ Ht); [apply (keeps_ret _ Hr)|].
  intros q w2 E. apply ret_inv in E as [<- ->].
  apply (run_keeps_bind _ Ht); [apply (keeps_backend_render_frames _ Hr Ht)|].
  intros frames w2 E.
  rewrite render_frames_of_empty in E by exact Hlen. discriminate.
Qed.

Lemma generate_trajectory_gif_of_empty (self : Scripts.ThumbnailGenerator)
    (model_path : Path) (w : world) :
  stat (fs w) trajectory_path = Some (File (NpyFile qpos_data)) ->
  run_keeps (fun w w' : world => w' = w)
    (Scripts.generate_trajectory_gif self model_path trajectory_path) w.
Proof.
  intros Hstat. set (same := fun w w' : world => w' = w).
  assert (Hr : forall w0 : world, same w0 w0) by reflexivity.
  assert (Ht : forall w1 w2 w3 : world, same w1 w2 -> same w2 w3 -> same w1 w3)
    by (unfold same; congruence).
  unfold Scripts.generate_trajectory_gif. cbv zeta.
  apply run_keeps_try_except.
  apply (run_keeps_bind _ Ht); [apply (keeps_lift _ Hr)|].
  intros rel w1 E. apply lift_inv in E as [_ ->].
  apply (run_keeps_bind _ Ht); [apply (keeps_lift _ Hr)|].
  intros id w1 E. apply lift_inv in E as [_ ->].
  apply (run_keeps_bind _ Ht); [apply (keeps_print _ Hr)|].
  intros [] w2 E. apply print_inv in E as [-> _].
  apply (run_keeps_bind _ Ht); [apply (keeps_from_xml_path _ Hr)|].
  intros model w2 E. apply from_xml_path_world in E as ->.
  apply (run_keeps_bind _ Ht); [apply (keeps_np_load _ Hr)|].
  intros loaded w2 E. apply (np_load_of_empty _ _ _ Hstat) in E as [-> ->].
  apply (run_keeps_bind _ Ht); [apply (keeps_ret _ Hr)|].
  intros q w2 E. apply ret_inv in E as [<- ->].
  apply (run_keeps_bind _ Ht); [apply (keeps_scripts_render_frames _ Hr Ht)|].
  intros frames w2 E.
  rewrite scripts_render_frames_of_empty in E by exact Hlen. discriminate.
Qed.

End EmptyRuns.

(** X4.  A trajectory file holding an array of zero frames is never
    rendered: neither pipeline returns [True] for it, and neither writes a
    thumbnail (the first sampled index is 0, and reading frame 0 raises
    [IndexError] before anything is saved).  The backend script leaves at most
    new directories behind, the other script nothing. *)
Theorem empty_trajectory_is_not_rendered :
  forall (qpos_data : Numpy.ndarray) (trajectory_path : Path) (w : world),
    Numpy.len qpos_data = 0%nat ->
    stat (fs w) trajectory_path = Some (File (NpyFile qpos_data)) ->
    (forall (self : Backend.ThumbnailGenerator) (model_relative_path : str)
            (camera_name : option str)
            (distance azimuth elevation : option float)
            (lookat : option (float * float * float)),
        let run :=
          Backend.render_trajectory self trajectory_path model_relative_path
            camera_name distance azimuth elevation lookat w in
        fst run <> Ok true /\ only_new_dirs w (snd run))
    /\ (forall (self : Scripts.ThumbnailGenerator) (model_path : Path),
           let run :=
             Scripts.generate_trajectory_gif self model_path trajectory_path w in
           fst run <> Ok true /\ snd run = w).
Proof.
  intros qpos_data tp w Hlen Hstat. split.
  - intros self mrp cn d a e l run. subst run.
    destruct (Backend.render_trajectory self tp mrp cn d a e l w)
      as [r w'] eqn:Erun.
    cbn [fst snd]. split.
    + intros ->. revert Erun. unfold Backend.render_trajectory. cbv zeta.
      rewrite bind_exists. destruct (stat_fault w _); [discriminate|].
      destruct (negb (bool_decide _)); [print_false|].
      destruct (negb (str_eqb _ _)); [print_false|].
      intros H. apply try_except_false_true in H.
      apply bind_Ok in H as (rel & w1 & Hrel & H).
      apply lift_inv in Hrel as [_ ->].
      apply bind_Ok in H as (id & w1 & Hid & H). apply lift_inv in Hid as [_ ->].
      apply bind_Ok in H as ([] & w1 & Hmk & H).
      apply mkdir_only_new_dirs in Hmk.
      apply (stat_kept _ _ _ _ Hmk) in Hstat.
      printed H. printed H. printed H.
      apply bind_Ok in H as (model & w2 & Hmodel & H).
      apply from_xml_path_world in Hmodel as ->.
      apply bind_Ok in H as (loaded & w2 & Hload & H).
      apply (np_load_of_empty _ _ _ _ _ Hstat) in Hload as [-> ->].
      apply bind_Ok in H as (q & w2 & Hq & H). apply ret_inv in Hq as [<- ->].
      apply bind_Ok in H as (frames & w2 & Hframes & _).
      rewrite render_frames_of_empty in Hframes by exact Hlen. discriminate.
    + eapply render_trajectory_of_empty; eassumption.
  - intros self mp run. subst run.
    destruct (Scripts.generate_trajectory_gif self mp tp w) as [r w'] eqn:Erun.
    cbn [fst snd]. split.
    + intros ->. unfold Scripts.generate_trajectory_gif in Erun.
      cbv zeta in Erun. apply try_except_false_true in Erun.
      apply bind_Ok in Erun as (rel & w1 & Hrel & H).
      apply lift_inv in Hrel as [_ ->].
      apply bind_Ok in H as (id & w1 & Hid & H). apply lift_inv in Hid as [_ ->].
      printed H.
      apply bind_Ok in H as (model & w1 & Hmodel & H).
      apply from_xml_path_world in Hmodel as ->.
      apply bind_Ok in H as (loaded & w1 & Hload & H).
      apply (np_load_of_empty _ _ _ _ _ Hstat) in Hload as [-> ->].
      apply bind_Ok in H as (q & w1 & Hq & H). apply ret_inv in Hq as [<- ->].
      apply bind_Ok in H as (frames & w1 & Hframes & _).
      rewrite scripts_render_frames_of_empty in Hframes by exact Hlen.
      discriminate.
    + eapply (generate_trajectory_gif_of_empty _ _ Hlen); eassumption.
Qed.

Lemma empty_trajectory_is_not_rendered_witness :
  (forall (self : Backend.ThumbnailGenerator) (model_relative_path : str)
          (camera_name : option str)
          (distance azimuth elevation : option float)
          (lookat : option (float * float * float)),
      let run :=
        Backend.render_trajectory self
          (Fixture.P "data/trajectories/locomotion/empty.npy")
          model_relative_path
          camera_name distance azimuth elevation lookat Fixture2.w in
      fst run <> Ok true /\ only_new_dirs Fixture2.w (snd run))
  /\ (forall (self : Scripts.ThumbnailGenerator) (model_path : Path),
         let run :=
           Scripts.generate_trajectory_gif self model_path
             (Fixture.P "data/trajectories/locomotion/empty.npy") Fixture2.w in
         fst run <> Ok true /\ snd run = Fixture2.w).
Proof.
  apply (empty_trajectory_is_not_rendered (Numpy.Arr2 [])
           (Fixture.P "data/trajectories/locomotion/empty.npy") Fixture2.w).
  - reflexivity.
  - vm_compute; reflexivity.
Defined.

(** On the fixture both calls return [False]. *)
Example empty_trajectory_on_the_fixture :
  fst (Backend.render_trajectory Fixture.backend_self
         (Fixture.P "data/trajectories/locomotion/empty.npy")
         (U "robot/robot.xml") None None None None None Fixture2.w) = Ok false
  /\ fst (Scripts.generate_trajectory_gif Fixture.scripts_self
            (Fixture.P "data/models/robot/robot.xml")
            (Fixture.P "data/trajectories/locomotion/empty.npy") Fixture2.w)
     = Ok false.
Proof. split; vm_compute; reflexivity. Qed.

(** X9.  What a batch call works on.  A call of
    [render_trajectories_in_folder] on a directory that returns [(s, k)] has
    handed to [render_trajectory], in turn and each exactly once, the entries
    directly inside the folder whose name passes the test [upload_trajectory]
    applies to an upload (it ends with [.npy] or [.npz]): [k] is the number
    of these entries and [s] the number of calls that returned [True]. *)
Theorem batch_takes_each_trajectory_once :
  forall (self : Backend.ThumbnailGenerator)
         (folder_relative_path model_relative_path : str)
         (camera_name : option str) (distance azimuth elevation : option float)
         (lookat : option (float * float * float))
         (w w' : world) (s k : nat),
    let folder := Backend.trajectories_dir self /' folder_relative_path in
    stat (fs w) folder = Some Dir ->
    Backend.render_trajectories_in_folder self folder_relative_path
      model_relative_path camera_name distance azimuth elevation lookat w
    = (Ok (s, k), w') ->
    exists (files : list Path) (outcomes : list bool),
      List.NoDup files
      /\ (forall p : Path,
            In p files
            <-> is_Some (fs w !! p) /\ parent p = folder /\ parts p <> []
                /\ endswith_any (name p) [U ".npy"; U ".npz"] = true)
      /\ renders_in_turn self model_relative_path camera_name
           distance azimuth elevation lookat w files outcomes w'
      /\ s = successes outcomes
      /\ k = length files.
Proof.
  intros self frp mrp cn d a e l w w' s k folder Hdir Hrun.
  exists (entries_matching (fs w) folder (U ".npy")
          ++ entries_matching (fs w) folder (U ".npz")).
  assert (Hin : forall p : Path,
             In p (entries_matching (fs w) folder (U ".npy")
                   ++ entries_matching (fs w) folder (U ".npz"))
             <-> is_Some (fs w !! p) /\ parent p = folder /\ parts p <> []
                 /\ endswith_any (name p) [U ".npy"; U ".npz"] = true).
  { intros p. rewrite in_app_iff, !in_entries_matching.
    unfold endswith_any. simpl existsb. rewrite orb_false_r, orb_true_iff.
    tauto. }
  assert (Hnd : List.NoDup (entries_matching (fs w) folder (U ".npy")
                            ++ entries_matching (fs w) folder (U ".npz"))).
  { apply List.NoDup_app.
    - apply List.NoDup_filter, entries_nodup.
    - apply List.NoDup_filter, entries_nodup.
    - intros p Hnpy Hnpz.
      apply in_entries_matching in Hnpy as (_ & _ & _ & Hnpy).
      apply in_entries_matching in Hnpz as (_ & _ & _ & Hnpz).
      eapply npy_is_not_npz; eassumption. }
  revert Hrun. unfold Backend.render_trajectories_in_folder. cbv zeta.
  fold folder. rewrite bind_exists.
  destruct (stat_fault w folder) eqn:Hsf; [discriminate|].
  rewrite Hdir, bool_decide_eq_true_2 by eauto. cbn [negb].
  rewrite bind_is_dir, Hsf, Hdir. cbn [negb].
  rewrite !bind_glob_suffix.
  set (files := entries_matching _ _ _ ++ entries_matching _ _ _) in *.
  destruct files as [|f files'] eqn:Hfiles.
  - intros H. printed H. apply ret_inv in H as [H ->]. injection H as <- <-.
    exists []. repeat split; try apply Hin; auto. constructor.
  - rewrite <- Hfiles in *. intros H. printed H. printed H.
    apply bind_Ok in H as (n & w1 & Heach & H).
    apply ret_inv in H as [H ->]. injection H as <- <-.
    apply render_each_Ok in Heach as (outcomes & Hturn & ->).
    exists outcomes. repeat split; try apply Hin; auto.
Qed.

Lemma batch_takes_each_trajectory_once_witness :
  exists (files : list Path) (outcomes : list bool) (w' : world),
    List.NoDup files
    /\ (forall p : Path,
          In p files
          <-> is_Some (fs Fixture.w1 !! p)
              /\ parent p
                 = Backend.trajectories_dir Fixture.backend_self
                     /' U "locomotion"
              /\ parts p <> []
              /\ endswith_any (name p) [U ".npy"; U ".npz"] = true)
    /\ renders_in_turn Fixture.backend_self (U "robot/robot.xml")
         None None None None None Fixture.w1 files outcomes w'
    /\ 4%nat = successes outcomes
    /\ 5%nat = length files.
Proof.
  destruct (Backend.render_trajectories_in_folder Fixture.backend_self
              (U "locomotion") (U "robot/robot.xml") None None None None None
              Fixture.w1) as [r w'] eqn:E.
  pose proof (f_equal fst E) as Hr. cbn [fst] in Hr. vm_compute in Hr.
  subst r.
  destruct (batch_takes_each_trajectory_once Fixture.backend_self
              (U "locomotion") (U "robot/robot.xml") None None None None None
              Fixture.w1 w' 4%nat 5%nat)
    as (files & outcomes & H).
  - vm_compute; reflexivity.
  - exact E.
  - exists files, outcomes, w'. exact H.
Defined.
